(** * Autonomic-AI: the self-healing agent pipeline

    A shallow embedding of the workflow core of the repository
    (gateway, auditor, refiner, evaluator and feedback worker, the
    message wrapper of [src/core/pubsub.py], the config-store accessors
    of [src/core/db.py], the cost computation of [src/core/llm.py] and
    the seeder), followed by the properties that were checked against
    it.

    Conventions of the embedding:
    - a Python value is a [value]; a Python [dict] with string keys is an
      insertion-ordered association list ([dict]);
    - a Firestore collection is a finite map from document ids to
      documents ([gmap string dict]);
    - everything a function does to the outside world (store writes,
      queue publishes, log lines, statsd calls) is appended, in program
      order, to the [trace] of the [world];
    - Python control flow (exceptions, early [return]) is the [flow] of a
      small state monad [py];
    - the generative model, the clock and the builtins [json.loads] and
      [str()] of container values are external: the replies of the model
      are arguments of the workers, the others are fields of [Runtime];
    - the clock is read once: every time stamp a run writes is [clock];
    - the documents of the [logs] collection are not kept in the [store]:
      a log document is the [Log] event whose [stored] flag is set;
    - Python floats are idealised as exact rationals ([Q]);
    - strings are sequences of 8-bit characters;
    - of what is written to stdout, the JSON line of [log_event] is the
      [Log] event and a [print] is a [Stdout] event. *)

From Stdlib Require Import ZArith QArith Qround String Ascii List Bool Lia.
From stdpp Require Import gmap strings pretty.
Import ListNotations.

Local Open Scope string_scope.
Local Open Scope Z_scope.

(** ** Python values *)

#[warnings="-register-all"]
Inductive value : Type :=
| VNone
| VBool (b : bool)
| VInt (z : Z)
| VFloat (q : Q)
| VStr (s : string)
| VList (l : list value)
| VDict (d : list (string * value))
| VTime (t : Q).

Abbreviation dict := (list (string * value)).

(** [d.get(k)] *)
Fixpoint dict_get (k : string) (d : dict) : option value :=
  match d with
  | [] => None
  | (k', v) :: d' => if String.eqb k k' then Some v else dict_get k d'
  end.

(** [d.get(k, dflt)] *)
Definition dict_get_default (k : string) (dflt : value) (d : dict) : value :=
  match dict_get k d with Some v => v | None => dflt end.

(** [d[k] = v]: an existing key keeps its position, a new key goes last. *)
Fixpoint dict_set (k : string) (v : value) (d : dict) : dict :=
  match d with
  | [] => [(k, v)]
  | (k', v') :: d' =>
      if String.eqb k k' then (k, v) :: d' else (k', v') :: dict_set k v d'
  end.

(** [d.update(other)] for a dict [other]. *)
Definition dict_update (d other : dict) : dict :=
  fold_left (fun acc kv => dict_set (fst kv) (snd kv) acc) other d.

(** Truth value of an object, as tested by [if x] and [not x]. *)
Definition py_truthy (v : value) : bool :=
  match v with
  | VNone => false
  | VBool b => b
  | VInt z => negb (z =? 0)
  | VFloat q => negb (Qeq_bool q 0)
  | VStr s => negb (String.eqb s "")
  | VList l => match l with [] => false | _ => true end
  | VDict d => match d with [] => false | _ => true end
  | VTime _ => true
  end.

(** [v == "literal"] for a string literal. *)
Definition is_str (lit : string) (v : value) : bool :=
  match v with VStr s => String.eqb s lit | _ => false end.

(** Equality of stored values, used by Firestore's [ArrayUnion]. *)
Fixpoint value_eqb (a b : value) : bool :=
  match a, b with
  | VNone, VNone => true
  | VBool x, VBool y => Bool.eqb x y
  | VInt x, VInt y => x =? y
  | VFloat x, VFloat y => Qeq_bool x y
  | VStr x, VStr y => String.eqb x y
  | VList x, VList y =>
      (fix list_eqb (l1 l2 : list value) : bool :=
         match l1, l2 with
         | [], [] => true
         | u :: l1', w :: l2' => value_eqb u w && list_eqb l1' l2'
         | _, _ => false
         end) x y
  | VDict x, VDict y =>
      (fix dict_eqb (l1 l2 : dict) : bool :=
         match l1, l2 with
         | [], [] => true
         | (k1, u) :: l1', (k2, w) :: l2' =>
             String.eqb k1 k2 && value_eqb u w && dict_eqb l1' l2'
         | _, _ => false
         end) x y
  | VTime x, VTime y => Qeq_bool x y
  | _, _ => false
  end.

(** Whether [json.dumps] accepts the value: a [datetime] is not
    serialisable. *)
Fixpoint json_ok (v : value) : bool :=
  match v with
  | VTime _ => false
  | VList l => forallb json_ok l
  | VDict d => forallb (fun kv => json_ok (snd kv)) d
  | _ => true
  end.

(** ** Strings *)

(** [s.startswith(p)] *)
Fixpoint starts_with (p s : string) : bool :=
  match p, s with
  | EmptyString, _ => true
  | String a p', String b s' => Ascii.eqb a b && starts_with p' s'
  | String _ _, EmptyString => false
  end.

(** [s.replace(old, new)] for a non-empty [old]: occurrences are replaced
    left to right and do not overlap. [skip] counts the characters of a
    matched occurrence that are still to be dropped. *)
Fixpoint replace_go (old new : string) (skip : nat) (s : string) : string :=
  match s with
  | EmptyString => EmptyString
  | String c s' =>
      match skip with
      | S n => replace_go old new n s'
      | O =>
          if starts_with old s
          then (new ++ replace_go old new (String.length old - 1)%nat s')%string
          else String c (replace_go old new O s')
      end
  end.

Definition replace (old new s : string) : string := replace_go old new O s.

(** Characters removed by [str.strip()]. *)
Definition is_py_space (c : ascii) : bool :=
  let n := nat_of_ascii c in
  ((9 <=? n) && (n <=? 13) || (28 <=? n) && (n <=? 32))%nat.

Fixpoint lstrip (s : string) : string :=
  match s with
  | EmptyString => EmptyString
  | String c s' => if is_py_space c then lstrip s' else s
  end.

(** [rstrip] keeps a character when it is not a space or when something
    that is kept follows it. *)
Fixpoint rstrip (s : string) : string :=
  match s with
  | EmptyString => EmptyString
  | String c s' =>
      match rstrip s' with
      | EmptyString => if is_py_space c then EmptyString else String c EmptyString
      | r => String c r
      end
  end.

Definition strip (s : string) : string := rstrip (lstrip s).

(** [s.upper()] and [s.lower()] *)
Definition upper_char (c : ascii) : ascii :=
  let n := nat_of_ascii c in
  if ((97 <=? n) && (n <=? 122))%nat then ascii_of_nat (n - 32) else c.

Definition lower_char (c : ascii) : ascii :=
  let n := nat_of_ascii c in
  if ((65 <=? n) && (n <=? 90))%nat then ascii_of_nat (n + 32) else c.

Fixpoint map_string (f : ascii -> ascii) (s : string) : string :=
  match s with
  | EmptyString => EmptyString
  | String c s' => String (f c) (map_string f s')
  end.

Definition upper : string -> string := map_string upper_char.
Definition lower : string -> string := map_string lower_char.

(** [s.split(sep)[0]]: the part of [s] before the first occurrence of
    [sep], all of [s] when there is none. *)
Fixpoint split_head (sep s : string) : string :=
  match s with
  | EmptyString => EmptyString
  | String c s' =>
      if starts_with sep s then EmptyString else String c (split_head sep s')
  end.

(** [s[:n]] *)
Fixpoint str_take (n : nat) (s : string) : string :=
  match n, s with
  | S n', String c s' => String c (str_take n' s')
  | _, _ => EmptyString
  end.

(** [s[n:]] *)
Fixpoint str_drop (n : nat) (s : string) : string :=
  match n, s with
  | S n', String _ s' => str_drop n' s'
  | _, _ => s
  end.

(** [sep.join(parts)] *)
Definition join (sep : string) (parts : list string) : string :=
  String.concat sep parts.

(** ** Numbers *)

(** Numeric view of a value: [bool] is a subtype of [int]. *)
Inductive num : Type :=
| NInt (z : Z)
| NFloat (q : Q).

Definition as_num (v : value) : option num :=
  match v with
  | VBool b => Some (NInt (if b then 1 else 0))
  | VInt z => Some (NInt z)
  | VFloat q => Some (NFloat q)
  | _ => None
  end.

(** [v < n], [v > n] and [v >= n] for an integer literal [n]; [None] is
    the [TypeError] of an unorderable operand. *)
Definition py_lt_int (v : value) (n : Z) : option bool :=
  match as_num v with
  | Some (NInt z) => Some (z <? n)
  | Some (NFloat q) => Some (negb (Qle_bool (inject_Z n) q))
  | None => None
  end.

Definition py_gt_int (v : value) (n : Z) : option bool :=
  match as_num v with
  | Some (NInt z) => Some (n <? z)
  | Some (NFloat q) => Some (negb (Qle_bool q (inject_Z n)))
  | None => None
  end.

Definition py_ge_int (v : value) (n : Z) : option bool :=
  match as_num v with
  | Some (NInt z) => Some (n <=? z)
  | Some (NFloat q) => Some (Qle_bool (inject_Z n) q)
  | None => None
  end.

(** [v + 1] *)
Definition py_add1 (v : value) : option value :=
  match as_num v with
  | Some (NInt z) => Some (VInt (z + 1))
  | Some (NFloat q) => Some (VFloat (q + 1))
  | None => None
  end.

(** [round(x, ndigits)]: the nearest multiple of [10^-ndigits], ties to
    the even one. *)
Definition round_half_even (x : Q) : Z :=
  let f := Qfloor x in
  match Qcompare (x - inject_Z f) (1 # 2) with
  | Lt => f
  | Gt => f + 1
  | Eq => if Z.even f then f else f + 1
  end.

Definition py_round (x : Q) (ndigits : nat) : Q :=
  let scale := 10 ^ Z.of_nat ndigits in
  Qmake (round_half_even (x * inject_Z scale)) (Z.to_pos scale).

(** ** Iteration and conversions that can raise *)

Inductive exn : Type :=
| AttributeError
| TypeError
| KeyError
| ValueError
| JSONDecodeError
| NotFound
| AlreadyExists
| GenerationError
| HTTPException (status_code : Z).

Definition exn_name (e : exn) : string :=
  match e with
  | AttributeError => "AttributeError"
  | TypeError => "TypeError"
  | KeyError => "KeyError"
  | ValueError => "ValueError"
  | JSONDecodeError => "JSONDecodeError"
  | NotFound => "NotFound"
  | AlreadyExists => "AlreadyExists"
  | GenerationError => "GenerationError"
  | HTTPException _ => "HTTPException"
  end.

Fixpoint chars (s : string) : list value :=
  match s with
  | EmptyString => []
  | String c s' => VStr (String c EmptyString) :: chars s'
  end.

(** The items of [for x in v]: a dict yields its keys, a string its
    characters; other values are not iterable. *)
Definition py_iter (v : value) : exn + list value :=
  match v with
  | VList l => inr l
  | VDict d => inr (map (fun kv => VStr (fst kv)) d)
  | VStr s => inr (chars s)
  | _ => inl TypeError
  end.

(** The receiver of [.get(...)] and [.update(...)] must be a dict. *)
Definition as_dict (v : value) : exn + dict :=
  match v with
  | VDict d => inr d
  | _ => inl AttributeError
  end.

(** The receiver of [.upper()], [.lower()] and [.replace] must be a
    string. *)
Definition as_str (v : value) : exn + string :=
  match v with
  | VStr s => inr s
  | _ => inl AttributeError
  end.

(** [v[:n]] raises on values that cannot be sliced. *)
Definition py_slice (n : nat) (v : value) : exn + value :=
  match v with
  | VStr s => inr (VStr (str_take n s))
  | VList l => inr (VList (firstn n l))
  | _ => inl TypeError
  end.

(** [v[k]] for a string key [k]. *)
Definition py_getitem (k : string) (v : value) : exn + value :=
  match v with
  | VDict d => match dict_get k d with Some x => inr x | None => inl KeyError end
  | _ => inl TypeError
  end.

(** One element of the argument of [dict.update(iterable)], read as a
    key and a value. *)
Definition as_pair (v : value) : exn + (value * value) :=
  match v with
  | VList [k; x] => inr (k, x)
  | VList _ => inl ValueError
  | VStr (String a (String b EmptyString)) =>
      inr (VStr (String a EmptyString), VStr (String b EmptyString))
  | VStr _ => inl ValueError
  | VDict [(k1, _); (k2, _)] => inr (VStr k1, VStr k2)
  | VDict _ => inl ValueError
  | _ => inl TypeError
  end.

(** [d.update(pairs)]: the boolean tells whether a key that is not a
    string was inserted. Such a dict exists in Python, but the store
    refuses it later ([doc_set]). *)
Fixpoint update_pairs (d : dict) (foreign : bool) (items : list value)
  : exn + (dict * bool) :=
  match items with
  | [] => inr (d, foreign)
  | it :: rest =>
      match as_pair it with
      | inl e => inl e
      | inr (VStr k, x) => update_pairs (dict_set k x d) foreign rest
      | inr (VList _, _) | inr (VDict _, _) => inl TypeError
      | inr (_, _) => update_pairs d true rest
      end
  end.

(** [d.update(other)] for an arbitrary value [other]. *)
Definition py_dict_update (d : dict) (other : value) : exn + (dict * bool) :=
  match other with
  | VDict o => inr (dict_update d o, false)
  | VList l => update_pairs d false l
  | VStr EmptyString => inr (d, false)
  | VStr _ => inl ValueError
  | _ => inl TypeError
  end.

(** ** The world: document store and trace of effects *)

Inductive db_op : Type := OpSet | OpSetMerge | OpUpdate | OpAdd | OpIncrement.

Inductive event : Type :=
| Log (chat_id : value) (component message level : string)
      (metadata : option dict) (stored : bool)
| Publish (topic : string) (payload : dict)
| BackgroundTask (topic : string) (payload : dict)
| DbWrite (op : db_op) (collection id : string) (data : dict)
| StatsdIncrement (metric : string) (tags : list string)
| StatsdGauge (metric : string) (v : value) (tags : list string)
| StatsdHistogram (metric : string) (v : value) (tags : list string)
| StatsdTimed (metric : string) (tags : list string)
| StatsdEvent (title : string) (body_keyword body alert_type : string)
      (tags : list string)
| PrintTraceback
| Stdout (line : string)
| DbDelete (collection : string) (deleted : Z)
| Ack
| Nack.

Record world : Type := World {
  store : gmap (string * string) dict;
  trace : list event
}.

Definition emit (e : event) (w : world) : world :=
  {| store := store w; trace := trace w ++ [e] |}.

(** ** Control flow *)

Inductive flow (A : Type) : Type :=
| Normal (a : A)
| Raised (e : exn)
| Returned.

Arguments Normal {A} a.
Arguments Raised {A} e.
Arguments Returned {A}.

Definition py (A : Type) : Type := world -> flow A * world.

#[global] Instance py_ret : MRet py := fun A a w => (Normal a, w).

#[global] Instance py_bind : MBind py := fun A B k m w =>
  match m w with
  | (Normal a, w') => k a w'
  | (Raised e, w') => (Raised e, w')
  | (Returned, w') => (Returned, w')
  end.

Definition raise {A} (e : exn) : py A := fun w => (Raised e, w).

(** The statement [return] of a function that returns nothing. *)
Definition return_ {A} : py A := fun w => (Returned, w).

Definition lift {A} (r : exn + A) : py A :=
  match r with
  | inl e => raise e
  | inr a => mret a
  end.

Definition lift_opt {A} (e : exn) (o : option A) : py A :=
  match o with
  | Some a => mret a
  | None => raise e
  end.

Definition tell (e : event) : py unit := fun w => (Normal tt, emit e w).

Definition read_store : py (gmap (string * string) dict) :=
  fun w => (Normal (store w), w).

Definition write_doc (collection id : string) (doc : dict) : py unit :=
  fun w =>
    (Normal tt,
     {| store := <[(collection, id) := doc]> (store w); trace := trace w |}).

(** [try: body except Exception as e: handler(e)] *)
Definition try_except {A} (body : py A) (handler : exn -> py A) : py A :=
  fun w =>
    match body w with
    | (Raised e, w') => handler e w'
    | r => r
    end.

(** [try: body except json.JSONDecodeError: handler] *)
Definition try_except_json {A} (body : py A) (handler : py A) : py A :=
  fun w =>
    match body w with
    | (Raised JSONDecodeError, w') => handler w'
    | r => r
    end.

(** [with statsd.timed(metric, tags): body]: the timing is sent when the
    block is left, however it is left. *)
Definition timed {A} (metric : string) (tags : list string) (body : py A) : py A :=
  fun w =>
    let '(r, w') := body w in (r, emit (StatsdTimed metric tags) w').

(** Calling a function that returns nothing, from Python code: a
    [return] ends the call, not the caller. *)
Definition call (m : py unit) : py unit :=
  fun w =>
    match m w with
    | (Returned, w') => (Normal tt, w')
    | r => r
    end.

(** Running a function that returns nothing: the world it leaves, and
    the exception that escapes it, if any. *)
Definition run (m : py unit) (w : world) : option exn * world :=
  match m w with
  | (Raised e, w') => (Some e, w')
  | (_, w') => (None, w')
  end.

(** ** External collaborators *)

(** [json_loads] is [json.loads] ([None]: [JSONDecodeError]);
    [repr_ext] is [str()] of floats, containers and datetimes;
    [clock] is the reading of [time.time()] and [datetime.utcnow()];
    [storable] tells whether Firestore accepts the data of a write. *)
Class Runtime : Type := {
  json_loads : string -> option value;
  repr_ext : value -> string;
  clock : Q;
  storable : dict -> bool
}.

(** ** src/config.py *)

Definition COL_ROUTER : string := "pointers".
Definition COL_AGENTS : string := "agents".
Definition COL_CHATS : string := "chats".
Definition TOPIC_AUDIT : string := "autonomic-audit-jobs".
Definition TOPIC_REFINE : string := "autonomic-refine-jobs".
Definition TOPIC_EVALUATE : string := "autonomic-eval-jobs".

(** ** src/core/llm.py *)

Record llm_metrics : Type := Metrics {
  latency_ms : Q;
  input_tokens : Z;
  output_tokens : Z;
  total_tokens : Z;
  estimated_cost : Q;
  model_used : string
}.

Record llm_result : Type := LlmResult {
  text : string;
  metrics : llm_metrics
}.

(** What the model call hands back: the text and, when the API reports
    it, the usage (prompt and candidate token counts). *)
Record api_response : Type := ApiResponse {
  response_text : string;
  usage_metadata : option (Z * Z)
}.

Definition INPUT_PRICE_PER_1M : Q := 30 # 100.
Definition OUTPUT_PRICE_PER_1M : Q := 250 # 100.

Definition total_cost (input_tokens output_tokens : Z) : Q :=
  let input_cost := ((inject_Z input_tokens / inject_Z 1000000) * INPUT_PRICE_PER_1M)%Q in
  let output_cost := ((inject_Z output_tokens / inject_Z 1000000) * OUTPUT_PRICE_PER_1M)%Q in
  (input_cost + output_cost)%Q.

(** [generate_response] after the model has answered [response] in
    [elapsed] seconds. *)
Definition generate_response (user_input system_prompt model_name : string)
    (elapsed : Q) (response : api_response) : llm_result :=
  let latency := (elapsed * inject_Z 1000)%Q in
  let '(input_tokens, output_tokens) :=
    match usage_metadata response with
    | Some (prompt_token_count, candidates_token_count) =>
        (prompt_token_count, candidates_token_count)
    | None =>
        (Z.of_nat (String.length system_prompt + String.length user_input) / 4,
         Z.of_nat (String.length (response_text response)) / 4)
    end in
  {| text := response_text response;
     metrics := {| latency_ms := py_round latency 2;
                   input_tokens := input_tokens;
                   output_tokens := output_tokens;
                   total_tokens := input_tokens + output_tokens;
                   estimated_cost := py_round (total_cost input_tokens output_tokens) 6;
                   model_used := model_name |} |}.

(** [calculate_cost] of [DATADOG/datadog_metrics_generator.py], the
    traffic simulator. *)
Definition calculate_cost (input_tokens output_tokens : Z) : Q :=
  py_round (inject_Z input_tokens * (30 # 100) / inject_Z 1000000
            + inject_Z output_tokens * (250 # 100) / inject_Z 1000000)%Q 8.

Definition metrics_dict (m : llm_metrics) : dict :=
  [("latency_ms", VFloat (latency_ms m));
   ("input_tokens", VInt (input_tokens m));
   ("output_tokens", VInt (output_tokens m));
   ("total_tokens", VInt (total_tokens m));
   ("estimated_cost", VFloat (estimated_cost m));
   ("model_used", VStr (model_used m))].

Section Core.
Context `{Runtime}.

(** The text an f-string puts in place of [{v}]. *)
Definition fmt (v : value) : string :=
  match v with
  | VNone => "None"
  | VBool true => "True"
  | VBool false => "False"
  | VInt z => pretty z
  | VStr s => s
  | _ => repr_ext v
  end.

(** ** src/core/logger.py *)

(** [log_event]: one JSON line on stdout, and a copy in the [logs]
    collection when there is a chat id or the level is ERROR or
    CRITICAL ([stored]). Emoji are left out of the messages. *)
Definition log_event (chat_id : value) (component message level : string)
    (metadata : option dict) : py unit :=
  tell (Log chat_id component message level metadata
          (py_truthy chat_id || String.eqb level "ERROR" || String.eqb level "CRITICAL")).

(** ** The statsd client *)

(** [statsd.event(title, message, alert_type, tags)]: the parameter that
    takes the body of the event is called [message]. A call that passes
    the body under another keyword raises [TypeError], and no event is
    sent. *)
Definition statsd_event (title keyword body alert_type : string) (tags : list string)
  : py unit :=
  if String.eqb keyword "message"
  then tell (StatsdEvent title keyword body alert_type tags)
  else raise TypeError.

(** ** src/core/pubsub.py *)

Definition publish_background_event (topic_name : string) (payload : dict) : py unit :=
  if json_ok (VDict payload)
  then tell (Publish topic_name payload)
  else raise TypeError.

(** ** Firestore client *)

(** [db.collection(c).document(id)]: [None] as id makes a fresh document
    reference (no such document exists); with any other value that is
    not a string, joining the path raises [TypeError]. *)
Definition document (id : value) : py (option string) :=
  match id with
  | VStr s => mret (Some s)
  | VNone => mret None
  | _ => raise TypeError
  end.

(** [.get()]: [None] when the document does not exist. *)
Definition doc_get (collection : string) (id : value) : py (option dict) :=
  ref ← document id;
  match ref with
  | Some s => docs ← read_store; mret (docs !! (collection, s))
  | None => mret None
  end.

(** [.set(data)] *)
Definition doc_set (collection id : string) (data : dict) : py unit :=
  if storable data
  then write_doc collection id data;; tell (DbWrite OpSet collection id data)
  else raise ValueError.

(** A dotted field path of [update] addresses a field of a nested map. *)
Definition set_field_path (outer inner : string) (v : value) (doc : dict) : dict :=
  let m := match dict_get outer doc with Some (VDict m) => m | _ => [] end in
  dict_set outer (VDict (dict_set inner v m)) doc.

(** The document an [update] applies to: it must exist. *)
Definition doc_existing (collection : string) (id : value) : py (string * dict) :=
  ref ← document id;
  match ref with
  | Some s =>
      docs ← read_store;
      match docs !! (collection, s) with
      | Some doc => mret (s, doc)
      | None => raise NotFound
      end
  | None => raise NotFound
  end.

(** [.update(fields)] with top-level field names. *)
Definition doc_update (collection : string) (id : value) (fields : dict) : py unit :=
  if storable fields
  then
    '(s, doc) ← doc_existing collection id;
    write_doc collection s (dict_update doc fields);;
    tell (DbWrite OpUpdate collection s fields)
  else raise ValueError.

(** [.update({"outer.inner": v})] *)
Definition doc_update_path (collection : string) (id : value)
    (outer inner : string) (v : value) : py unit :=
  '(s, doc) ← doc_existing collection id;
  write_doc collection s (set_field_path outer inner v doc);;
  tell (DbWrite OpUpdate collection s [((outer ++ "." ++ inner)%string, v)]).

(** [collection.add(data)]: [id] is the identifier the client draws for
    the new document; a document that exists is not replaced. *)
Definition doc_add (collection id : string) (data : dict) : py unit :=
  if storable data
  then
    docs ← read_store;
    match docs !! (collection, id) with
    | Some _ => raise AlreadyExists
    | None => write_doc collection id data;; tell (DbWrite OpAdd collection id data)
    end
  else raise ValueError.

(** [firestore.Increment(n)] applied to a stored value: a field that is
    missing or is not a number becomes [n]. *)
Definition increment (n : Z) (old : option value) : value :=
  match old with
  | Some (VInt z) => VInt (z + n)
  | Some (VFloat q) => VFloat (q + inject_Z n)
  | _ => VInt n
  end.

(** [ref.update({"outer.inner": firestore.Increment(n)})] on a document
    reference made before. *)
Definition ref_increment (collection : string) (ref : option string)
    (outer inner : string) (n : Z) : py unit :=
  match ref with
  | Some s =>
      docs ← read_store;
      match docs !! (collection, s) with
      | Some doc =>
          let m := match dict_get outer doc with Some (VDict m) => m | _ => [] end in
          write_doc collection s
            (set_field_path outer inner (increment n (dict_get inner m)) doc);;
          tell (DbWrite OpIncrement collection s [((outer ++ "." ++ inner)%string, VInt n)])
      | None => raise NotFound
      end
  | None => raise NotFound
  end.

(** [db.recursive_delete(db.collection(name))]: the documents of the
    collection leave the store, and their number is returned. The
    documents of [logs] are not kept in the store of the model;
    [logs_count] is their number. *)
Definition recursive_delete (logs_count : Z) (collection_name : string) : py Z :=
  fun w =>
    let kept := filter (fun kv => kv.1.1 <> collection_name) (store w) in
    let gone := filter (fun kv => kv.1.1 = collection_name) (store w) in
    let deleted_count :=
      Z.of_nat (size gone) + (if String.eqb collection_name "logs" then logs_count else 0) in
    (Normal deleted_count,
     {| store := kept; trace := trace w ++ [DbDelete collection_name deleted_count] |}).

(** ** src/core/db.py *)

Definition get_current_agent_config (agent_id : value) : py dict :=
  pointer_doc ← doc_get COL_ROUTER agent_id;
  match pointer_doc with
  | None => raise ValueError
  | Some pointer =>
      active_doc_ref ← lift_opt KeyError (dict_get "active_agent_doc_ref" pointer);
      agent_doc ← doc_get COL_AGENTS active_doc_ref;
      match agent_doc with
      | None => raise ValueError
      | Some agent => mret agent
      end
  end.

(** [firestore.ArrayUnion]: the elements that are not yet in the array
    are added at its end. *)
Fixpoint array_union (arr new : list value) : list value :=
  match new with
  | [] => arr
  | x :: rest =>
      if existsb (value_eqb x) arr then array_union arr rest
      else array_union (arr ++ [x]) rest
  end.

(** [save_chat_log]: [set(data, merge=True)] merges the metadata into
    the stored one and unites the two new turns with the stored history;
    like every write, it can be refused. *)
Definition save_chat_log (chat_id agent_id version user_msg bot_msg : string)
    (metrics : dict) : py unit :=
  let metadata :=
    [("agent_id", VStr agent_id); ("version", VStr version);
     ("last_active", VFloat clock)] in
  let turns :=
    [VDict [("role", VStr "user"); ("content", VStr user_msg);
            ("timestamp", VFloat clock)];
     VDict [("role", VStr "model"); ("content", VStr bot_msg);
            ("metrics", VDict metrics); ("timestamp", VFloat clock)]] in
  let data := [("metadata", VDict metadata); ("history", VList turns)] in
  docs ← read_store;
  let old := default [] (docs !! (COL_CHATS, chat_id)) in
  let old_metadata := match dict_get "metadata" old with Some (VDict m) => m | _ => [] end in
  let old_history := match dict_get "history" old with Some (VList h) => h | _ => [] end in
  let merged :=
    dict_set "history" (VList (array_union old_history turns))
      (dict_set "metadata" (VDict (dict_update old_metadata metadata)) old) in
  if storable data
  then write_doc COL_CHATS chat_id merged;; tell (DbWrite OpSetMerge COL_CHATS chat_id data)
  else raise ValueError.

Definition should_trigger_audit (chat_id : string) : py bool :=
  chat_doc ← doc_get COL_CHATS (VStr chat_id);
  match chat_doc with
  | None => mret true
  | Some chat_data =>
      let audit_result := dict_get_default "audit_result" VNone chat_data in
      if negb (py_truthy audit_result) then mret true
      else
        audit ← lift (as_dict audit_result);
        verdict ← lift (as_str (dict_get_default "verdict" (VStr "") audit));
        let verdict := upper verdict in
        if String.eqb verdict "PASS" then mret true
        else if String.eqb verdict "FAIL" then mret false
        else mret true
  end.

End Core.

(** ** src/services/refiner_worker.py *)

Section Refiner.
Context `{Runtime}.

(** Undoing the Markdown fences around the model's JSON. *)
Definition refiner_clean (raw : string) : string :=
  strip (replace "```" "" (replace "```json" "" (replace "``````" "" raw))).

(** [refine_agent(payload)]; [reply] is what [generate_response] gives
    when it is called ([None]: it raises). *)
Definition refine_agent (reply : option llm_result) (payload : dict) : py unit :=
  timed "autonomic.refiner.latency"
    [("agent_id:" ++ fmt (dict_get_default "agent_id" VNone payload))%string]
    (let chat_id := dict_get_default "chat_id" VNone payload in
     let agent_id := dict_get_default "agent_id" VNone payload in
     let failure_reason := dict_get_default "failure_reason" VNone payload in
     let refinement_depth := dict_get_default "refinement_depth" (VInt 0) payload in
     too_deep ← lift_opt TypeError (py_ge_int refinement_depth 2);
     if too_deep : bool then
       log_event chat_id "REFINER"
         ("STOPPING: Refinement loop detected. Agent " ++ fmt agent_id
            ++ " failed optimization twice.")%string
         "CRITICAL"
         (Some [("action", VStr "email_alert");
                ("recipient", VStr "admin@user.com");
                ("reason", VStr "Automatic fix failed to resolve issue.")]);;
       return_
     else
       log_event chat_id "REFINER"
         ("Starting refinement for " ++ fmt agent_id ++ ". Reason: "
            ++ fmt failure_reason)%string "INFO" None;;
       try_except
         ((* 1. fetch agent config *)
          agent_doc ← doc_get "agents" agent_id;
          match agent_doc with
          | None =>
              log_event chat_id "REFINER" "Agent doc not found" "ERROR" None;;
              return_
          | Some agent_data =>
              let current_version := dict_get_default "version" (VInt 1) agent_data in
              prompt_config ← lift (as_dict (dict_get_default "prompt" (VDict []) agent_data));
              (* 2. extract only mutable fields *)
              let mutable_context :=
                [("persona", dict_get_default "persona" VNone prompt_config);
                 ("style_guide", dict_get_default "style_guide" VNone prompt_config);
                 ("objectives", dict_get_default "objectives" VNone prompt_config);
                 ("operational_guidelines",
                   dict_get_default "operational_guidelines" VNone prompt_config)] in
              (* 3. the optimization prompt embeds json.dumps(mutable_context) *)
              (if json_ok (VDict mutable_context) then mret tt else raise TypeError);;
              log_event chat_id "REFINER" "Asking LLM to fix the prompt..." "INFO" None;;
              llm_result ← lift_opt GenerationError reply;
              let cleaned_response := refiner_clean (text llm_result) in
              new_mutable_config ←
                try_except_json
                  (lift_opt JSONDecodeError (json_loads cleaned_response))
                  (log_event chat_id "REFINER"
                     "LLM generated invalid JSON. Aborting." "ERROR" None;;
                   return_);
              (* 4. create new candidate version *)
              new_version ← lift_opt TypeError (py_add1 current_version);
              agent_id_str ← lift (as_str agent_id);
              let base_id := split_head "_v" agent_id_str in
              let new_agent_id := (base_id ++ "_v" ++ fmt new_version)%string in
              let new_agent_data := agent_data in
              let new_agent_data := dict_set "version" new_version new_agent_data in
              let new_agent_data := dict_set "agent_id" (VStr new_agent_id) new_agent_data in
              let new_agent_data := dict_set "created_at" (VTime clock) new_agent_data in
              metadata ← lift_opt KeyError (dict_get "metadata" new_agent_data);
              metadata ← match metadata with
                         | VDict m => mret m
                         | _ => raise TypeError
                         end;
              let metadata := dict_set "version" new_version metadata in
              let metadata := dict_set "agentid" (VStr new_agent_id) metadata in
              let metadata :=
                dict_set "upgrade_reason"
                  (VStr ("Refinement fix for: " ++ fmt failure_reason)) metadata in
              let metadata := dict_set "deployment_state" (VStr "TEST_CANDIDATE") metadata in
              let new_agent_data := dict_set "metadata" (VDict metadata) new_agent_data in
              prompt ← lift_opt KeyError (dict_get "prompt" new_agent_data);
              prompt ← lift (as_dict prompt);
              '(prompt, foreign_key) ← lift (py_dict_update prompt new_mutable_config);
              let new_agent_data := dict_set "prompt" (VDict prompt) new_agent_data in
              (* 5. save to Firestore *)
              log_event chat_id "REFINER"
                ("Saving candidate: " ++ new_agent_id)%string "INFO" None;;
              (if foreign_key : bool then raise ValueError else mret tt);;
              doc_set "agents" new_agent_id new_agent_data;;
              let cost := VFloat (estimated_cost (metrics llm_result)) in
              tell (StatsdGauge "autonomic.backend.cost" cost
                      ["service:refiner"; ("agent_id:" ++ fmt agent_id)%string]);;
              (* 6. trigger evaluator *)
              let evaluator_payload :=
                [("target_agent_id", VStr new_agent_id);
                 ("original_agent_id", VStr base_id);
                 ("chat_id", chat_id);
                 ("trigger_reason", failure_reason);
                 ("refinement_depth", refinement_depth);
                 ("version", new_version)] in
              publish_background_event TOPIC_EVALUATE evaluator_payload;;
              statsd_event "Refiner: Fix Applied" "message"
                ("Fixed agent " ++ fmt agent_id ++ ". Reason: "
                   ++ fmt failure_reason)%string
                "info"
                [("agent_id:" ++ fmt agent_id)%string; "source:refiner"];;
              log_event chat_id "REFINER"
                ("Refinement Complete. " ++ new_agent_id ++ " sent to Evaluator.")%string
                "SUCCESS" None
          end)
         (fun e =>
            log_event chat_id "REFINER"
              ("Error during refinement: " ++ exn_name e)%string "ERROR" None;;
            tell PrintTraceback)).

End Refiner.

(** ** src/services/evaluator_worker.py *)

Section Evaluator.
Context `{Runtime}.

Definition judge_clean (raw : string) : string :=
  strip (replace "```" "" (replace "```json" "" raw)).

(** Decides whether to retry (Refiner) or alert (Datadog). The alert
    ends with a call of [statsd.event] that names the body [text]. *)
Definition handle_failure (chat_id agent_id depth : value)
    (evaluator_reason : string) (audit_reason : value) : py unit :=
  log_event chat_id "EVALUATOR"
    ("Candidate Rejected. Reason: " ++ evaluator_reason)%string "WARNING" None;;
  retry ← lift_opt TypeError (py_lt_int depth 2);
  if retry : bool then
    depth' ← lift_opt TypeError (py_add1 depth);
    let retry_payload :=
      [("chat_id", chat_id);
       ("agent_id", agent_id);
       ("failure_reason", VStr evaluator_reason);
       ("refinement_depth", depth')] in
    publish_background_event TOPIC_REFINE retry_payload;;
    log_event chat_id "EVALUATOR" "Sent back to Refiner for retry." "INFO" None
  else
    let msg :=
      ("OPTIMIZATION FAILED for " ++ fmt agent_id
         ++ " after 2 attempts. Manual Fix Required.")%string in
    log_event chat_id "EVALUATOR" msg "CRITICAL" None;;
    tell (StatsdIncrement "autonomic.optimization.failed"
            [("agent_id:" ++ fmt agent_id)%string; "reason:max_depth_exceeded"]);;
    tell (StatsdIncrement "autonomic.optimization.failed"
            [("agent_id:" ++ fmt agent_id)%string;
             ("chat_id:" ++ fmt chat_id)%string;
             ("audit_reason:" ++ fmt audit_reason)%string;
             ("evaluator_reason:" ++ evaluator_reason)%string]);;
    statsd_event "Autonomic AI: Optimization Given Up" "text"
      ("Agent " ++ fmt agent_id ++ " failed to self-heal."
         ++ String "010" "Evaluator Error: " ++ evaluator_reason
         ++ String "010" "Original Audit: " ++ fmt audit_reason)%string
      "error" [].

(** The loop over the chat history: the content of the last user turn.
    Each turn must be a dict whose role is a string. *)
Fixpoint last_user_turn (history : list value) (last_user_input : value)
  : exn + value :=
  match history with
  | [] => inr last_user_input
  | turn :: rest =>
      match turn with
      | VDict t =>
          let role := dict_get_default "role" VNone t in
          let content := dict_get_default "content" VNone t in
          let last_user_input := if is_str "user" role then content else last_user_input in
          match role with
          | VStr _ => last_user_turn rest last_user_input
          | _ => inl AttributeError
          end
      | _ => inl AttributeError
      end
  end.

(** [run_evaluation(payload)]; [replay], [perf] and [comp] are what the
    three calls of [generate_response] give when they are made. *)
Definition run_evaluation (replay perf comp : option llm_result) (payload : dict)
  : py unit :=
  timed "autonomic.evaluator.latency"
    [("candidate_id:" ++ fmt (dict_get_default "target_agent_id" VNone payload))%string]
    (let chat_id := dict_get_default "chat_id" VNone payload in
     let candidate_agent_id := dict_get_default "target_agent_id" VNone payload in
     let original_agent_id := dict_get_default "original_agent_id" VNone payload in
     let failure_reason := dict_get_default "trigger_reason" VNone payload in
     let refinement_depth := dict_get_default "refinement_depth" (VInt 0) payload in
     log_event chat_id "EVALUATOR"
       ("Evaluating Candidate " ++ fmt candidate_agent_id ++ "...")%string "INFO" None;;
     try_except
       ((* step 1: fetch context *)
        chat_doc_ref ← doc_get "chats" chat_id;
        match chat_doc_ref with
        | None =>
            log_event chat_id "EVALUATOR" "Chat history not found. Aborting." "ERROR" None;;
            return_
        | Some chat_data =>
            let history := dict_get_default "history" (VList []) chat_data in
            audit_result ← lift (as_dict (dict_get_default "audit_result" (VDict []) chat_data));
            let original_audit_reason :=
              dict_get_default "reason" (VStr "Unknown Audit Failure") audit_result in
            turns ← lift (py_iter history);
            last_user_input ← lift (last_user_turn turns (VStr ""));
            if negb (py_truthy last_user_input) then
              log_event chat_id "EVALUATOR" "No user input found in history." "ERROR" None;;
              return_
            else
              candidate_doc ← doc_get "agents" candidate_agent_id;
              match candidate_doc with
              | None =>
                  log_event chat_id "EVALUATOR" "Candidate agent doc missing." "ERROR" None;;
                  return_
              | Some candidate_data =>
                  candidate_prompt_config ←
                    lift (as_dict (dict_get_default "prompt" (VDict []) candidate_data));
                  upgrade_config ←
                    lift (as_dict (dict_get_default "upgrade_config" (VDict []) candidate_data));
                  let auditor_rules := dict_get_default "auditor_rules" (VList []) upgrade_config in
                  (* the candidate system prompt reads persona.role and persona.tone *)
                  lift (as_dict (dict_get_default "persona" (VDict []) candidate_prompt_config));;
                  (* step 2: replay simulation *)
                  log_event chat_id "EVALUATOR"
                    "Replaying conversation with NEW agent..." "INFO" None;;
                  replay_result ← lift_opt GenerationError replay;
                  let replay_response := text replay_result in
                  log_event chat_id "EVALUATOR"
                    ("New Agent Response: " ++ replay_response)%string "INFO" None;;
                  (* step 3: verify performance *)
                  perf_result ← lift_opt GenerationError perf;
                  perf_json ← lift_opt JSONDecodeError (json_loads (judge_clean (text perf_result)));
                  perf_json ← lift (as_dict perf_json);
                  if is_str "FAIL" (dict_get_default "verdict" VNone perf_json) then
                    handle_failure chat_id candidate_agent_id refinement_depth
                      ("Performance Check Failed: "
                         ++ fmt (dict_get_default "reason" VNone perf_json))%string
                      original_audit_reason;;
                    return_
                  else
                    log_event chat_id "EVALUATOR"
                      "Step 1 Passed: The agent fixed the immediate issue." "INFO" None;;
                    (* step 4: verify compliance *)
                    lift (py_iter auditor_rules);;
                    (if json_ok (VDict candidate_prompt_config) then mret tt
                     else raise TypeError);;
                    comp_result ← lift_opt GenerationError comp;
                    comp_json ← lift_opt JSONDecodeError
                                  (json_loads (judge_clean (text comp_result)));
                    comp_json ← lift (as_dict comp_json);
                    if is_str "FAIL" (dict_get_default "verdict" VNone comp_json) then
                      handle_failure chat_id candidate_agent_id refinement_depth
                        ("Compliance Check Failed: "
                           ++ fmt (dict_get_default "reason" VNone comp_json))%string
                        original_audit_reason;;
                      return_
                    else
                      log_event chat_id "EVALUATOR"
                        "Step 2 Passed: No regression or rule violations." "INFO" None;;
                      (* step 5: deployment *)
                      log_event chat_id "EVALUATOR"
                        ("PROMOTING " ++ fmt candidate_agent_id ++ " to LIVE!")%string
                        "SUCCESS" None;;
                      doc_update "pointers" original_agent_id
                        [("active_agent_doc_ref", candidate_agent_id);
                         ("current_version", dict_get_default "version" VNone candidate_data);
                         ("last_updated", VFloat clock);
                         ("reason", VStr ("Auto-fixed: " ++ fmt failure_reason))];;
                      doc_update_path "agents" candidate_agent_id
                        "metadata" "deployment_state" (VStr "ACTIVE");;
                      tell (StatsdGauge "autonomic.backend.cost"
                              (VFloat (estimated_cost (metrics perf_result)))
                              ["service:evaluator"; "step:performance";
                               ("agent_id:" ++ fmt candidate_agent_id)%string]);;
                      tell (StatsdGauge "autonomic.backend.cost"
                              (VFloat (estimated_cost (metrics comp_result)))
                              ["service:evaluator"; "step:compliance";
                               ("agent_id:" ++ fmt candidate_agent_id)%string]);;
                      tell (StatsdIncrement "autonomic.deployments.success"
                              [("agent_id:" ++ fmt original_agent_id)%string])
              end
        end)
       (fun e =>
          log_event chat_id "EVALUATOR"
            ("Critical Error: " ++ exn_name e)%string "ERROR" None)).

End Evaluator.

(** ** src/services/auditor_worker.py *)

Section Auditor.
Context `{Runtime}.

(** The loop that prints the history into the prompt: each turn must be
    a dict whose role (default ["unknown"]) is a string. *)
Fixpoint audit_history_check (history : list value) : exn + unit :=
  match history with
  | [] => inr tt
  | VDict t :: rest =>
      match dict_get_default "role" (VStr "unknown") t with
      | VStr _ => audit_history_check rest
      | _ => inl AttributeError
      end
  | _ :: _ => inl AttributeError
  end.

(** A rule list that is empty (or otherwise false) is replaced by a
    default; the list is then enumerated. *)
Definition rules_or_default (rules : value) (dflt : string) : exn + list value :=
  if py_truthy rules then py_iter rules else inr [VStr dflt].

(** [evaluate_interaction(payload)]; [reply] is what the judge call of
    [generate_response] gives when it is made. *)
Definition evaluate_interaction (reply : option llm_result) (payload : dict) : py unit :=
  timed "autonomic.auditor.latency"
    [("agent_id:" ++ fmt (dict_get_default "agent_id" VNone payload))%string]
    (let chat_id := dict_get_default "chat_id" VNone payload in
     let agent_id := dict_get_default "agent_id" VNone payload in
     log_event chat_id "AUDITOR" "Picked up audit job from Queue..." "INFO" None;;
     try_except
       ((* step 1: fetch context *)
        log_event chat_id "AUDITOR" "Fetching conversation and rules..." "INFO" None;;
        chat_doc ← doc_get "chats" chat_id;
        match chat_doc with
        | None =>
            log_event chat_id "AUDITOR" "Chat not found in DB. Skipping." "ERROR" None;;
            return_
        | Some chat_data =>
            let history := dict_get_default "history" (VList []) chat_data in
            let existing_audit := dict_get_default "audit_result" VNone chat_data in
            (if py_truthy existing_audit then
               existing ← lift (as_dict existing_audit);
               log_event chat_id "AUDITOR"
                 ("Previous audit found: "
                    ++ fmt (dict_get_default "reason" (VStr "") existing)
                    ++ " - Updating...")%string "WARNING" None
             else mret tt);;
            agent_config ← get_current_agent_config agent_id;
            upgrade_config ←
              lift (as_dict (dict_get_default "upgrade_config" (VDict []) agent_config));
            let audit_rules_list := dict_get_default "auditor_rules" (VList []) upgrade_config in
            let evaluator_rubric_list :=
              dict_get_default "evaluator_rubric" (VList []) upgrade_config in
            lift (rules_or_default audit_rules_list "Check for helpfulness and accuracy.");;
            lift (rules_or_default evaluator_rubric_list "Agent provided correct information.");;
            lift (as_dict (dict_get_default "resources" (VDict []) agent_config));;
            (* step 2: build evaluation prompt *)
            log_event chat_id "AUDITOR" "Evaluating with LLM..." "INFO" None;;
            user_input ← lift_opt KeyError (dict_get "user_input" payload);
            bot_response ← lift_opt KeyError (dict_get "bot_response" payload);
            (if py_truthy history then
               turns ← lift (py_iter history);
               lift (audit_history_check turns)
             else mret tt);;
            llm_result ← lift_opt GenerationError reply;
            let raw_response := text llm_result in
            let flattened_log :=
              strip (replace (String "013" "") "" (replace (String "010" "") " " raw_response)) in
            log_event chat_id "AUDITOR"
              ("Raw LLM response: " ++ str_take 300 flattened_log ++ "...")%string "INFO" None;;
            let clean_text := judge_clean raw_response in
            audit_result ←
              (if String.eqb clean_text "" then
                 log_event chat_id "AUDITOR" "LLM returned empty response!" "ERROR" None;;
                 mret (VDict [("verdict", VStr "FAIL");
                              ("reason", VStr "LLM evaluation failed - empty response");
                              ("priority", VStr "HIGH")])
               else
                 try_except_json
                   (parsed ← lift_opt JSONDecodeError (json_loads clean_text);
                    log_event chat_id "AUDITOR" "Valid JSON received" "INFO" None;;
                    mret parsed)
                   (log_event chat_id "AUDITOR"
                      ("Invalid JSON: JSONDecodeError | Response: "
                         ++ str_take 300 flattened_log)%string "ERROR" None;;
                    mret (VDict [("verdict", VStr "FAIL");
                                 ("reason", VStr "LLM evaluation failed - invalid JSON output.");
                                 ("priority", VStr "HIGH")])));
            audit_result ← lift (as_dict audit_result);
            let verdict := dict_get_default "verdict" (VStr "FAIL") audit_result in
            let reason := dict_get_default "reason" (VStr "Unknown error") audit_result in
            let priority := dict_get_default "priority" (VStr "LOW") audit_result in
            (* step 3: update chat with audit result *)
            log_event chat_id "AUDITOR" "Saving audit result..." "INFO" None;;
            verdict_str ← lift (as_str verdict);
            reason30 ← lift (py_slice 30 reason);
            tell (StatsdIncrement "autonomic.audit.verdict"
                    [("verdict:" ++ lower verdict_str)%string;
                     ("agent_id:" ++ fmt agent_id)%string;
                     ("reason:" ++ fmt reason30)%string]);;
            tell (StatsdGauge "autonomic.backend.cost"
                    (VFloat (estimated_cost (metrics llm_result)))
                    ["service:auditor"; ("agent_id:" ++ fmt agent_id)%string]);;
            doc_update "chats" chat_id
              [("audit_result",
                VDict [("verdict", verdict); ("reason", reason);
                       ("priority", priority); ("timestamp", VTime clock)])];;
            reason100 ← lift (py_slice 100 reason);
            log_event chat_id "AUDITOR"
              ("Verdict: " ++ fmt verdict ++ " | Priority: " ++ fmt priority
                 ++ " | Reason: " ++ fmt reason100)%string
              (if is_str "FAIL" verdict then "WARNING" else "SUCCESS") None;;
            (* step 4: escalate if failed *)
            if is_str "FAIL" verdict then
              log_event chat_id "AUDITOR" "Escalating to Refiner..." "CRITICAL" None;;
              let refine_payload :=
                [("chat_id", chat_id);
                 ("agent_id", agent_id);
                 ("failure_reason", reason);
                 ("original_input", user_input);
                 ("bad_response", bot_response);
                 ("full_history", history);
                 ("priority", priority)] in
              publish_background_event TOPIC_REFINE refine_payload;;
              log_event chat_id "AUDITOR" "Refine job queued." "INFO" None
            else
              log_event chat_id "AUDITOR" "Case closed. No action needed." "SUCCESS" None
        end)
       (fun e =>
          log_event chat_id "AUDITOR" ("Error: " ++ exn_name e)%string "ERROR" None;;
          return_)).

End Auditor.

(** ** src/services/gateway_service.py *)

Section Gateway.
Context `{Runtime}.

Definition nl : string := String "010" "".

Record ChatRequest : Type := {
  user_message : string;
  chat_id : string;
  agent_id : string
}.

(** [perform_seed()]: the initial agent of the family and its pointer.
    [SERVER_TIMESTAMP] is the reading of the clock. *)
Definition seed_agent_data : dict :=
  let agent_id := "carsalesman101" in
  let version := 1 in
  [("agent_id", VStr agent_id);
   ("version", VInt version);
   ("created_at", VTime clock);
   ("metadata",
     VDict [("name", VStr "Car Auto Concierge");
            ("description", VStr "A car salesman chatbot for X Industries.");
            ("creator", VStr "X");
            ("agentid", VStr agent_id);
            ("version", VInt version);
            ("deployment_state", VStr "ACTIVE");
            ("upgrade_reason", VStr "Initial deployment")]);
   ("config",
     VDict [("model_id", VStr "gemini-2.5-flash");
            ("temperature", VFloat (2 # 10));
            ("max_tokens", VInt 800)]);
   ("economics",
     VDict [("likes", VInt 0);
            ("dislikes", VInt 0);
            ("input_token_count_prompt", VInt 420);
            ("budget_per_message", VStr "0.5$")]);
   ("prompt",
     VDict [("persona",
              VDict [("role", VStr "Senior Sales Concierge");
                     ("tone", VStr "High-Energy, Consultative")]);
            ("style_guide",
              VList [VStr "Use Markdown."; VStr "Be definitive.";
                     VStr "Keep responses under 100 words."]);
            ("objectives",
              VList [VStr "Help users find and purchase cars quickly."]);
            ("operational_guidelines",
              VList [VStr "PROTOCOL 1: Always be polite."])]);
   ("resources",
     VDict [("knowledge_base_text",
              VStr "INVENTORY: Model X (0 Stock, Incoming). Model Y (5 Stock, Available Now).");
            ("policy_text",
              VStr "LEGAL: Deposits are 100% refundable. Test drives require valid ID.")]);
   ("upgrade_config",
     VDict [("auditor_rules",
              VList [VStr "CRITICAL FAIL if the user asks about a vehicle (Price, Specs, Availability) and the agent DOES NOT explicitly ask for an email address or phone number.";
                     VStr "FAIL if the agent mentions a vehicle model (like Model Z) that is NOT listed in the INVENTORY.";
                     VStr "FAIL if the agent response is longer than 100 words.";
                     VStr "FAIL if the agent uses the words 'sorry' or 'apologize' more than once."]);
            ("evaluator_rubric",
              VList [VStr "Did the agent strictly follow the 'Ask for Email' protocol?";
                     VStr "Did the agent offer the 'Incoming' Model X if asked?";
                     VStr "Was the response concise and high-energy?"])])].

Definition seed_pointer_data : dict :=
  let agent_id := "carsalesman101" in
  [("agentid", VStr agent_id);
   ("current_version", VInt 1);
   ("reason", VStr "Initial Seed");
   ("active_agent_doc_ref", VStr agent_id);
   ("last_updated", VTime clock)].

Definition perform_seed : py unit :=
  doc_set "agents" "carsalesman101" seed_agent_data;;
  doc_set "pointers" "carsalesman101" seed_pointer_data.

Definition COLLECTIONS_TO_DELETE : list string := ["chats"; "logs"; "agents"; "pointers"].

Definition delete_collection_recursive (logs_count : Z) (collection_name : string) : py Z :=
  recursive_delete logs_count collection_name.

(** The loop of [reset_database] over the collections. *)
Fixpoint delete_collections (logs_count : Z) (names : list string) (total_deleted : Z)
  : py Z :=
  match names with
  | [] => mret total_deleted
  | name :: rest =>
      deleted ← delete_collection_recursive logs_count name;
      delete_collections logs_count rest (total_deleted + deleted)
  end.

(** [reset_database(x_admin_key)]; the header is [None] when the request
    has none. *)
Definition reset_database (logs_count : Z) (x_admin_key : option string) : py dict :=
  if negb (match x_admin_key with
           | Some k => String.eqb k "hackathon-secret"
           | None => false
           end)
  then
    log_event (VStr "SYSTEM") "RESET" "Unauthorized reset attempt denied" "WARNING" None;;
    raise (HTTPException 403)
  else
    try_except
      (log_event (VStr "SYSTEM") "RESET" "Starting Full Database Reset..." "WARNING" None;;
       (* 1. delete all collections *)
       total_deleted ← delete_collections logs_count COLLECTIONS_TO_DELETE 0;
       (* 2. seed fresh data *)
       perform_seed;;
       log_event (VStr "SYSTEM") "RESET"
         ("Reset Complete. Deleted " ++ pretty total_deleted ++ " docs and re-seeded.")%string
         "SUCCESS" None;;
       mret [("status", VStr "success");
             ("message", VStr "Database reset and seeded successfully.");
             ("docs_deleted", VInt total_deleted)])
      (fun e =>
         log_event (VStr "SYSTEM") "RESET" ("Reset failed: " ++ exn_name e)%string
           "ERROR" None;;
         raise (HTTPException 500)).

(** ["\n".join([f"- {x}" for x in items])] *)
Definition bullet_lines (items : value) : exn + string :=
  match py_iter items with
  | inl e => inl e
  | inr l => inr (join nl (map (fun x => ("- " ++ fmt x)%string) l))
  end.

Definition build_system_prompt (agent_config : dict) : py string :=
  prompt_data ← lift_opt KeyError (dict_get "prompt" agent_config);
  resources ← mret (dict_get_default "resources" (VDict []) agent_config);
  persona ← lift (py_getitem "persona" prompt_data);
  role ← lift (py_getitem "role" persona);
  tone ← lift (py_getitem "tone" persona);
  objectives ← lift (py_getitem "objectives" prompt_data);
  objectives ← lift (bullet_lines objectives);
  guidelines ← lift (py_getitem "operational_guidelines" prompt_data);
  guidelines ← lift (bullet_lines guidelines);
  style_guide ← lift (py_getitem "style_guide" prompt_data);
  style_guide ← lift (bullet_lines style_guide);
  resources ← lift (as_dict resources);
  let knowledge_base := dict_get_default "knowledge_base_text" (VStr "") resources in
  let policies := dict_get_default "policy_text" (VStr "") resources in
  let system_prompt :=
    ("You are a " ++ fmt role ++ " with a " ++ fmt tone ++ " tone." ++ nl
       ++ nl ++ "OBJECTIVES:" ++ nl ++ objectives ++ nl
       ++ nl ++ "OPERATIONAL GUIDELINES:" ++ nl ++ guidelines ++ nl
       ++ nl ++ "STYLE GUIDE:" ++ nl ++ style_guide ++ nl)%string in
  let system_prompt :=
    if py_truthy knowledge_base
    then (system_prompt ++ nl ++ nl ++ "KNOWLEDGE BASE:" ++ nl
            ++ fmt knowledge_base ++ nl)%string
    else system_prompt in
  let system_prompt :=
    if py_truthy policies
    then (system_prompt ++ nl ++ nl ++ "LEGAL POLICIES & CONSTRAINTS:" ++ nl
            ++ fmt policies ++ nl
            ++ "You MUST follow these policies strictly. Do not deviate." ++ nl)%string
    else system_prompt in
  mret system_prompt.

(** [chat_endpoint(request, background_tasks)]; [reply] is what
    [generate_response] gives when it is called. The value is the JSON
    body of the answer; any failure leaves as [HTTPException(500)]. *)
Definition chat_endpoint (reply : option llm_result) (request : ChatRequest) : py dict :=
  let cid := VStr (chat_id request) in
  let aid := VStr (agent_id request) in
  log_event cid "GATEWAY"
    ("Request received for agent: " ++ agent_id request)%string "INFO" None;;
  try_except
    ((* step 1: fetch config *)
     log_event cid "GATEWAY" "Fetching agent configuration..." "INFO" None;;
     agent_config ← get_current_agent_config aid;
     let raw_version := dict_get_default "version" (VInt 1) agent_config in
     let version := ("v" ++ fmt raw_version)%string in
     system_prompt ← build_system_prompt agent_config;
     config ← lift_opt KeyError (dict_get "config" agent_config);
     model_id ← lift (py_getitem "model_id" config);
     log_event cid "GATEWAY"
       ("Config loaded: " ++ version ++ " using " ++ fmt model_id)%string "INFO"
       (Some [("version", VStr version); ("model", model_id)]);;
     (* step 2: generate response *)
     log_event cid "GATEWAY" "Calling LLM..." "INFO" None;;
     ai_result ← lift_opt GenerationError reply;
     let bot_text := text ai_result in
     let m := metrics ai_result in
     log_event cid "GATEWAY"
       ("LLM responded in " ++ fmt (VFloat (latency_ms m)) ++ "ms")%string "SUCCESS"
       (Some [("latency_ms", VFloat (latency_ms m));
              ("cost", VFloat (estimated_cost m));
              ("output_length", VInt (Z.of_nat (String.length bot_text)))]);;
     (* step 3: save log *)
     log_event cid "GATEWAY" "Saving chat history..." "INFO" None;;
     save_chat_log (chat_id request) (agent_id request) version
       (user_message request) bot_text (metrics_dict m);;
     (* step 4: smart audit triggering *)
     log_event cid "GATEWAY" "Checking if audit needed..." "INFO" None;;
     trigger ← should_trigger_audit (chat_id request);
     (if trigger : bool then
        log_event cid "GATEWAY" "Queuing audit job..." "INFO" None;;
        let audit_payload :=
          [("chat_id", cid);
           ("agent_id", aid);
           ("agent_version", VStr version);
           ("user_input", VStr (user_message request));
           ("bot_response", VStr bot_text);
           ("prompt_used", VStr system_prompt)] in
        tell (BackgroundTask TOPIC_AUDIT audit_payload);;
        log_event cid "GATEWAY" "Audit queued." "SUCCESS" None
      else
        log_event cid "GATEWAY"
          "Audit skipped (previous audit failed - awaiting fix)." "WARNING" None);;
     (* metrics tracking *)
     let tag_agent := ("agent_id:" ++ agent_id request)%string in
     let tag_chat := ("chat_id:" ++ chat_id request)%string in
     let tag_version := ("version:" ++ version)%string in
     tell (StatsdIncrement "autonomic.chat.count" [tag_agent; tag_version]);;
     tell (StatsdHistogram "autonomic.agent.latency" (VFloat (latency_ms m)) [tag_agent]);;
     tell (StatsdGauge "autonomic.agent.cost" (VFloat (estimated_cost m))
             [tag_agent; tag_version]);;
     tell (StatsdGauge "autonomic.agent.current_version" raw_version [tag_agent]);;
     tell (StatsdGauge "autonomic.agent.tokens.input" (VInt (input_tokens m))
             [tag_agent; tag_chat]);;
     tell (StatsdGauge "autonomic.agent.tokens.output" (VInt (output_tokens m))
             [tag_agent; tag_chat]);;
     (if negb (Qle_bool (estimated_cost m) (10 # 100)) then
        tell (StatsdIncrement "autonomic.budget.breach" [tag_agent; tag_chat]);;
        tell (StatsdGauge "autonomic.budget.breach.amount" (VFloat (estimated_cost m))
                [tag_agent; tag_chat;
                 ("input_tokens:" ++ pretty (input_tokens m))%string;
                 ("output_tokens:" ++ pretty (output_tokens m))%string])
      else mret tt);;
     log_event cid "GATEWAY" "Metrics sent to Datadog" "INFO" None;;
     (* step 6: return *)
     mret [("response", VStr bot_text);
           ("meta", VDict [("agent_version", VStr version);
                           ("latency_ms", VFloat (latency_ms m));
                           ("cost", VFloat (estimated_cost m))])])
    (fun e =>
       log_event cid "GATEWAY" ("Error: " ++ exn_name e)%string "ERROR"
         (Some [("error_type", VStr (exn_name e))]);;
       raise (HTTPException 500)).

End Gateway.

(** ** src/core/pubsub.py *)

Section PubSub.
Context `{Runtime}.

(** The [wrapper] that [listen_to_topic] subscribes, on a message whose
    data is the text [data]. The callbacks of the repository begin with
    [payload.get(...)], which raises [AttributeError] on a payload that
    is not an object, before anything else is done. *)
Definition wrapper (callback_func : dict -> py unit) (data : string) : py unit :=
  try_except
    (payload ← lift_opt JSONDecodeError (json_loads data);
     payload ← lift (as_dict payload);
     call (callback_func payload);;
     tell Ack)
    (fun e =>
       tell (Stdout ("Worker Error: " ++ exn_name e));;
       tell Nack).

End PubSub.

(** ** src/services/feedback_worker.py *)

Section Feedback.
Context `{Runtime}.

(** [process_feedback(payload)]; [feedback_id] is the identifier drawn
    for the new feedback document. The client refuses an update that
    names no field. *)
Definition process_feedback (feedback_id : string) (payload : dict) : py unit :=
  let agent_v_id := dict_get_default "agent_version_id" VNone payload in
  let score := dict_get_default "score" VNone payload in
  (* step 1: log the detail *)
  chat_id ← lift_opt KeyError (dict_get "chat_id" payload);
  doc_add "feedback" feedback_id
    [("chat_id", chat_id);
     ("score", score);
     ("comment", dict_get_default "comment" (VStr "") payload);
     ("timestamp", VTime clock)];;
  (* step 2: update the genome *)
  agent_ref ← document agent_v_id;
  liked ← lift_opt TypeError (py_gt_int score 0);
  updates ←
    (if liked : bool then mret (Some "likes")
     else
       disliked ← lift_opt TypeError (py_lt_int score 0);
       mret (if disliked : bool then Some "dislikes" else None));
  match updates with
  | Some counter => ref_increment "agents" agent_ref "stats" counter 1
  | None => raise ValueError
  end;;
  tell (Stdout ("Updated Genome " ++ fmt agent_v_id ++ ": Score logged.")).

End Feedback.

(** ** dataseeder/seed.py *)

Section Seeder.
Context `{Runtime}.

(** [seed_database()]: the documents are those of [perform_seed]. *)
Definition seed_database : py unit :=
  tell (Stdout "Starting Firestore seed...");;
  try_except
    (doc_set "agents" "carsalesman101" seed_agent_data;;
     tell (Stdout "Created Agent Doc: agents/carsalesman101");;
     doc_set "pointers" "carsalesman101" seed_pointer_data;;
     tell (Stdout "Created Pointer Doc: pointers/carsalesman101");;
     tell (Stdout "Database Seed Complete! Auditor rules are now strictly configured."))
    (fun e => tell (Stdout ("Error seeding database: " ++ exn_name e))).

End Seeder.

(** ** A concrete runtime for running the model

    [json_fragment] reads the JSON texts made of objects, arrays,
    strings without escapes, integers, [true], [false] and [null]; on
    these it agrees with [json.loads], and like [json.loads] it refuses
    text that is not JSON. *)

Inductive token : Type :=
| TLBrace | TRBrace | TLBrack | TRBrack | TColon | TComma
| TString (s : string)
| TInt (z : Z)
| TTrue | TFalse | TNull.

Definition is_json_space (c : ascii) : bool :=
  let n := nat_of_ascii c in
  ((n =? 32) || (n =? 9) || (n =? 10) || (n =? 13))%nat.

Definition digit_of (c : ascii) : option Z :=
  let n := nat_of_ascii c in
  if ((48 <=? n) && (n <=? 57))%nat then Some (Z.of_nat (n - 48)) else None.

(** The characters of a string literal up to its closing quote. *)
Fixpoint read_string (s : string) : option (string * string) :=
  match s with
  | EmptyString => None
  | String c s' =>
      if Ascii.eqb c "034"%char then Some (EmptyString, s')
      else if Ascii.eqb c "\"%char then None
      else if (nat_of_ascii c <? 32)%nat then None
      else match read_string s' with
           | Some (body, rest) => Some (String c body, rest)
           | None => None
           end
  end.

Fixpoint read_digits (acc : Z) (s : string) : Z * string :=
  match s with
  | EmptyString => (acc, s)
  | String c s' =>
      match digit_of c with
      | Some d => read_digits (10 * acc + d) s'
      | None => (acc, s)
      end
  end.

(** An integer literal: no sign but [-], no leading zero. *)
Definition read_int (s : string) : option (Z * string) :=
  let '(neg, body) :=
    match s with
    | String "-"%char s' => (true, s')
    | _ => (false, s)
    end in
  match body with
  | String c rest =>
      match digit_of c with
      | Some 0 =>
          match rest with
          | String c' _ =>
              match digit_of c' with
              | Some _ => None
              | None => Some (0, rest)
              end
          | EmptyString => Some (0, rest)
          end
      | Some d =>
          let '(n, rest') := read_digits d rest in
          Some (if neg : bool then - n else n, rest')
      | None => None
      end
  | EmptyString => None
  end.

Fixpoint lex (fuel : nat) (s : string) : option (list token) :=
  match fuel with
  | O => None
  | S fuel' =>
      match s with
      | EmptyString => Some []
      | String c s' =>
          let cons t rest := option_map (cons t) (lex fuel' rest) in
          if is_json_space c then lex fuel' s'
          else if Ascii.eqb c "{"%char then cons TLBrace s'
          else if Ascii.eqb c "}"%char then cons TRBrace s'
          else if Ascii.eqb c "["%char then cons TLBrack s'
          else if Ascii.eqb c "]"%char then cons TRBrack s'
          else if Ascii.eqb c ":"%char then cons TColon s'
          else if Ascii.eqb c ","%char then cons TComma s'
          else if Ascii.eqb c "034"%char then
            match read_string s' with
            | Some (body, rest) => cons (TString body) rest
            | None => None
            end
          else if starts_with "true" s then cons TTrue (str_drop 4 s)
          else if starts_with "false" s then cons TFalse (str_drop 5 s)
          else if starts_with "null" s then cons TNull (str_drop 4 s)
          else
            match read_int s with
            | Some (z, rest) => cons (TInt z) rest
            | None => None
            end
      end
  end.

Fixpoint parse_value (fuel : nat) (ts : list token) : option (value * list token) :=
  match fuel with
  | O => None
  | S fuel' =>
      match ts with
      | TString s :: r => Some (VStr s, r)
      | TInt z :: r => Some (VInt z, r)
      | TTrue :: r => Some (VBool true, r)
      | TFalse :: r => Some (VBool false, r)
      | TNull :: r => Some (VNone, r)
      | TLBrack :: TRBrack :: r => Some (VList [], r)
      | TLBrack :: r =>
          match parse_elements fuel' r with
          | Some (l, r') => Some (VList l, r')
          | None => None
          end
      | TLBrace :: TRBrace :: r => Some (VDict [], r)
      | TLBrace :: r =>
          match parse_members fuel' [] r with
          | Some (d, r') => Some (VDict d, r')
          | None => None
          end
      | _ => None
      end
  end
with parse_elements (fuel : nat) (ts : list token) : option (list value * list token) :=
  match fuel with
  | O => None
  | S fuel' =>
      match parse_value fuel' ts with
      | Some (v, TComma :: r) =>
          match parse_elements fuel' r with
          | Some (l, r') => Some (v :: l, r')
          | None => None
          end
      | Some (v, TRBrack :: r) => Some ([v], r)
      | _ => None
      end
  end
with parse_members (fuel : nat) (acc : dict) (ts : list token)
  : option (dict * list token) :=
  match fuel with
  | O => None
  | S fuel' =>
      match ts with
      | TString k :: TColon :: r =>
          match parse_value fuel' r with
          | Some (v, TComma :: r') => parse_members fuel' (dict_set k v acc) r'
          | Some (v, TRBrace :: r') => Some (dict_set k v acc, r')
          | _ => None
          end
      | _ => None
      end
  end.

Definition json_fragment (s : string) : option value :=
  match lex (S (String.length s)) s with
  | Some ts =>
      match parse_value (2 * List.length ts + 2) ts with
      | Some (v, []) => Some v
      | _ => None
      end
  | None => None
  end.

(** The store accepts the documents whose top-level field names are not
    empty; containers, floats and datetimes are printed as a
    placeholder. *)
Definition demo_runtime : Runtime := {|
  json_loads := json_fragment;
  repr_ext := fun _ => "<object>";
  clock := 1700000000 # 1;
  storable := forallb (fun kv => negb (String.eqb (fst kv) ""))
|}.

(** * Properties *)

(** The events a computation added to the trace. *)
Definition new_events (w w' : world) : list event :=
  drop (length (trace w)) (trace w').

(** The chat has a stored audit result whose verdict reads [v], in any
    letter case. *)
Definition stored_verdict (v : string) (w : world) (chat_id : string) : Prop :=
  exists chat_data audit s,
    store w !! (COL_CHATS, chat_id) = Some chat_data /\
    dict_get "audit_result" chat_data = Some (VDict audit) /\
    dict_get "verdict" audit = Some (VStr s) /\
    upper s = v.

(** The chat has no stored audit result. *)
Definition no_audit_result (w : world) (chat_id : string) : Prop :=
  match store w !! (COL_CHATS, chat_id) with
  | None => True
  | Some chat_data => dict_get "audit_result" chat_data = None
  end.

(** The stored [audit_result] field of a chat, [None] when there is none. *)
Definition audit_field (docs : gmap (string * string) dict) (chat_id : string) : value :=
  match docs !! (COL_CHATS, chat_id) with
  | Some chat_data => dict_get_default "audit_result" VNone chat_data
  | None => VNone
  end.

(** What the judge's raw answer is read as: the synthetic FAIL records
    for an empty or unparseable answer, the parsed object otherwise. *)
Definition judged_as `{Runtime} (raw : string) (audit : dict) : Prop :=
  (judge_clean raw = "" /\
   audit = [("verdict", VStr "FAIL");
            ("reason", VStr "LLM evaluation failed - empty response");
            ("priority", VStr "HIGH")]) \/
  (judge_clean raw <> "" /\ json_loads (judge_clean raw) = None /\
   audit = [("verdict", VStr "FAIL");
            ("reason", VStr "LLM evaluation failed - invalid JSON output.");
            ("priority", VStr "HIGH")]) \/
  (judge_clean raw <> "" /\ json_loads (judge_clean raw) = Some (VDict audit)).

(** The RefineJob the Auditor publishes for a judgment [audit]. *)
Definition refine_payload_of (cid : string) (agent_id : value) (chat_data : dict)
    (user_input bot_response : value) (audit : dict) : dict :=
  [("chat_id", VStr cid);
   ("agent_id", agent_id);
   ("failure_reason", dict_get_default "reason" (VStr "Unknown error") audit);
   ("original_input", user_input);
   ("bad_response", bot_response);
   ("full_history", dict_get_default "history" (VList []) chat_data);
   ("priority", dict_get_default "priority" (VStr "LOW") audit)].

(** The fields the Auditor writes into the chat for a judgment [audit]. *)
Definition audit_record `{Runtime} (audit : dict) : dict :=
  [("audit_result",
    VDict [("verdict", dict_get_default "verdict" (VStr "FAIL") audit);
           ("reason", dict_get_default "reason" (VStr "Unknown error") audit);
           ("priority", dict_get_default "priority" (VStr "LOW") audit);
           ("timestamp", VTime clock)])].

(** The id of the candidate derived from the document [a] at version
    [newv]. *)
Definition candidate_id `{Runtime} (a : string) (newv : value) : string :=
  (split_head "_v" a ++ "_v" ++ fmt newv)%string.

(** The candidate document the Refiner builds from [parent]: [meta] is
    the parent's metadata, [prompt'] the updated prompt. *)
Definition candidate_of `{Runtime} (payload : dict) (a : string)
    (parent meta prompt' : dict) (newv : value) : dict :=
  dict_set "prompt" (VDict prompt')
    (dict_set "metadata"
       (VDict
          (dict_set "deployment_state" (VStr "TEST_CANDIDATE")
             (dict_set "upgrade_reason"
                (VStr ("Refinement fix for: "
                         ++ fmt (dict_get_default "failure_reason" VNone payload)))
                (dict_set "agentid" (VStr (candidate_id a newv))
                   (dict_set "version" newv meta)))))
       (dict_set "created_at" (VTime clock)
          (dict_set "agent_id" (VStr (candidate_id a newv))
             (dict_set "version" newv parent)))).

(** The EvaluateJob the Refiner publishes for it. *)
Definition evaluate_job_of `{Runtime} (payload : dict) (a : string) (newv : value) : dict :=
  [("target_agent_id", VStr (candidate_id a newv));
   ("original_agent_id", VStr (split_head "_v" a));
   ("chat_id", dict_get_default "chat_id" VNone payload);
   ("trigger_reason", dict_get_default "failure_reason" VNone payload);
   ("refinement_depth", dict_get_default "refinement_depth" (VInt 0) payload);
   ("version", newv)].

(** The fields the promotion writes into the family's pointer. *)
Definition pointer_fields `{Runtime} (payload : dict) (cand_id : string)
    (candidate : dict) : dict :=
  [("active_agent_doc_ref", VStr cand_id);
   ("current_version", dict_get_default "version" VNone candidate);
   ("last_updated", VFloat clock);
   ("reason",
    VStr ("Auto-fixed: " ++ fmt (dict_get_default "trigger_reason" VNone payload)))].

(** An event that is only a log line, a timing or a printed traceback. *)
Definition quiet (e : event) : Prop :=
  match e with
  | Log _ _ _ _ _ _ | StatsdTimed _ _ | PrintTraceback => True
  | _ => False
  end.

(** The store writes among some events, in order. *)
Definition db_writes (events : list event) : list event :=
  List.filter (fun e => match e with DbWrite _ _ _ _ => true | _ => false end) events.

(** The cost in millionths of a dollar. *)
Definition cost_micros (i o : Z) : Z := round_half_even ((3 * i + 25 * o) # 10).

(** The family of an agent document id: what the Refiner calls
    [base_id]. *)
Definition family (id : string) : string := split_head "_v" id.

(** An agent document is filed under its version: version 1 under the
    family's name, a version [v >= 2] under [<family>_v<v>]. *)
Definition filed_by_version (id : string) (doc : dict) : Prop :=
  (id = family id /\ dict_get "version" doc = Some (VInt 1)) \/
  (exists v, 2 <= v /\ id = (family id ++ "_v" ++ pretty v)%string /\
             dict_get "version" doc = Some (VInt v)).

Definition versions_consistent (docs : gmap (string * string) dict) : Prop :=
  forall id doc, docs !! (COL_AGENTS, id) = Some doc -> filed_by_version id doc.

(** Every pointer names an agent document that exists. *)
Definition pointers_resolve (docs : gmap (string * string) dict) : Prop :=
  forall fam pointer,
    docs !! (COL_ROUTER, fam) = Some pointer ->
    exists id doc,
      dict_get "active_agent_doc_ref" pointer = Some (VStr id) /\
      docs !! (COL_AGENTS, id) = Some doc.

(** One request served or one message processed, by any of the
    services, with any input and any answer of the model. *)
Inductive pipeline_step `{Runtime} : world -> world -> Prop :=
| step_seed w :
    pipeline_step w (perform_seed w).2
| step_reset logs_count key w :
    pipeline_step w (reset_database logs_count key w).2
| step_chat reply request w :
    pipeline_step w (chat_endpoint reply request w).2
| step_audit reply data w :
    pipeline_step w (wrapper (evaluate_interaction reply) data w).2
| step_refine reply data w :
    pipeline_step w (wrapper (refine_agent reply) data w).2
| step_evaluate replay perf comp data w :
    pipeline_step w (wrapper (run_evaluation replay perf comp) data w).2
| step_feedback feedback_id data w :
    pipeline_step w (wrapper (process_feedback feedback_id) data w).2.

(** The worlds the services reach from an empty database. *)
Inductive reachable `{Runtime} : world -> Prop :=
| reachable_empty : reachable {| store := ∅; trace := [] |}
| reachable_step w w' : reachable w -> pipeline_step w w' -> reachable w'.

(** From [docs] to [docs']: no agent document is created or deleted and
    each keeps its version; each pointer is unchanged or names an agent
    document that exists. *)
Definition config_kept (docs docs' : gmap (string * string) dict) : Prop :=
  (forall id,
     match docs' !! (COL_AGENTS, id), docs !! (COL_AGENTS, id) with
     | Some doc', Some doc => dict_get "version" doc' = dict_get "version" doc
     | None, None => True
     | _, _ => False
     end) /\
  (forall fam pointer',
     docs' !! (COL_ROUTER, fam) = Some pointer' ->
     docs !! (COL_ROUTER, fam) = Some pointer' \/
     exists id doc,
       dict_get "active_agent_doc_ref" pointer' = Some (VStr id) /\
       docs' !! (COL_AGENTS, id) = Some doc).

(** The two turns [save_chat_log] adds to a chat. *)
Definition new_turns `{Runtime} (user_msg bot_msg : string) (metrics : dict) : list value :=
  [VDict [("role", VStr "user"); ("content", VStr user_msg);
          ("timestamp", VFloat clock)];
   VDict [("role", VStr "model"); ("content", VStr bot_msg);
          ("metrics", VDict metrics); ("timestamp", VFloat clock)]].

(** The data [save_chat_log] hands to [set]. *)
Definition chat_log_data `{Runtime} (aid version user_msg bot_msg : string)
    (metrics : dict) : dict :=
  [("metadata", VDict [("agent_id", VStr aid); ("version", VStr version);
                       ("last_active", VFloat clock)]);
   ("history", VList (new_turns user_msg bot_msg metrics))].

(** A turn of the exchange [user_msg], [bot_msg], stamped with some
    time. *)
Definition turn_of_exchange (user_msg bot_msg : string) (metrics : dict) (turn : value)
  : Prop :=
  exists t : Q,
    turn = VDict [("role", VStr "user"); ("content", VStr user_msg);
                  ("timestamp", VFloat t)] \/
    turn = VDict [("role", VStr "model"); ("content", VStr bot_msg);
                  ("metrics", VDict metrics); ("timestamp", VFloat t)].

(** The same collaborators at another reading [t] of the clock. *)
Definition at_time (t : Q) (R : Runtime) : Runtime :=
  {| json_loads := @json_loads R;
     repr_ext := @repr_ext R;
     clock := t;
     storable := @storable R |}.

(** ** A run of the pipeline on the seeded family *)

Module Demo.

#[local] Existing Instance demo_runtime.

(** A JSON object of string fields, as text. *)
Definition dq : string := String "034" "".

Definition json_field (kv : string * string) : string :=
  dq ++ fst kv ++ dq ++ ": " ++ dq ++ snd kv ++ dq.

Definition json_object (fields : list (string * string)) : string :=
  "{" ++ join ", " (map json_field fields) ++ "}".

Definition answer (s : string) (tokens_in tokens_out : Z) : llm_result :=
  generate_response "" "" "gemini-2.5-flash" 1
    {| response_text := s; usage_metadata := Some (tokens_in, tokens_out) |}.

Definition empty_world : world := {| store := ∅; trace := [] |}.

Definition seeded : world := (perform_seed empty_world).2.

Definition request : ChatRequest :=
  {| user_message := "How much is the Model Y?";
     chat_id := "chat-1";
     agent_id := "carsalesman101" |}.

Definition reply_turn : llm_result := answer "The Model Y is in stock." 420 8.

(** The world after one Gateway turn. *)
Definition after_turn : world := (chat_endpoint (Some reply_turn) request seeded).2.

Definition audit_job : dict :=
  [("chat_id", VStr "chat-1");
   ("agent_id", VStr "carsalesman101");
   ("agent_version", VStr "v1");
   ("user_input", VStr "How much is the Model Y?");
   ("bot_response", VStr "The Model Y is in stock.")].

Definition verdict_fail : llm_result :=
  answer (json_object [("verdict", "FAIL"); ("reason", "missing email ask");
                       ("priority", "MEDIUM")]) 900 20.

(** The world after the Auditor judged the turn a FAIL. *)
Definition after_audit : world :=
  (run (evaluate_interaction (Some verdict_fail) audit_job) after_turn).2.

Definition refine_job : dict :=
  [("chat_id", VStr "chat-1");
   ("agent_id", VStr "carsalesman101");
   ("failure_reason", VStr "missing email ask");
   ("original_input", VStr "How much is the Model Y?");
   ("bad_response", VStr "The Model Y is in stock.");
   ("full_history", dict_get_default "history" (VList [])
                      (default [] (store after_turn !! ("chats", "chat-1"))));
   ("priority", VStr "MEDIUM")].

Definition rewrite_ok : llm_result :=
  answer ("{" ++ dq ++ "operational_guidelines" ++ dq ++ ": ["
            ++ dq ++ "PROTOCOL 1: Always ask for an email address." ++ dq ++ "]}") 300 40.

(** The world after the Refiner wrote the candidate of version 2. *)
Definition after_refine : world :=
  (run (refine_agent (Some rewrite_ok) refine_job) after_audit).2.

(** A rewrite that names a prompt field the parent does not have. *)
Definition rewrite_extra : llm_result :=
  answer (json_object [("closing_line", "Ask for a phone number.")]) 300 12.

Definition after_refine_extra : world :=
  (run (refine_agent (Some rewrite_extra) refine_job) after_audit).2.

Definition evaluate_job : dict :=
  [("target_agent_id", VStr "carsalesman101_v2");
   ("original_agent_id", VStr "carsalesman101");
   ("chat_id", VStr "chat-1");
   ("trigger_reason", VStr "missing email ask");
   ("refinement_depth", VInt 0);
   ("version", VInt 2)].

Definition replayed : llm_result := answer "It is 45,000 dollars. What is your email?" 200 12.

Definition verdict_pass : llm_result :=
  answer (json_object [("verdict", "PASS"); ("reason", "asks for the email")]) 400 15.

(** The world after the Evaluator promoted the candidate. *)
Definition after_promotion : world :=
  (run (run_evaluation (Some replayed) (Some verdict_pass) (Some verdict_pass) evaluate_job)
     after_refine).2.

(** An answer of a judge that is not JSON. *)
Definition not_json : llm_result := answer "I think the agent did well." 400 9.

(** The world after the Evaluator rejected the candidate at the
    performance gate instead. *)
Definition after_rejection : world :=
  (run (run_evaluation (Some replayed) (Some verdict_fail) None evaluate_job)
     after_refine).2.

(** A second conversation with the family, after the promotion. *)
Definition request2 : ChatRequest :=
  {| user_message := "Is the Model X available?";
     chat_id := "chat-2";
     agent_id := "carsalesman101" |}.

Definition reply_turn2 : llm_result := answer "The Model X is incoming." 430 7.

Definition after_turn2 : world :=
  (chat_endpoint (Some reply_turn2) request2 after_promotion).2.

Definition audit_job2 : dict :=
  [("chat_id", VStr "chat-2");
   ("agent_id", VStr "carsalesman101");
   ("agent_version", VStr "v2");
   ("user_input", VStr "Is the Model X available?");
   ("bot_response", VStr "The Model X is incoming.")].

Definition after_audit2 : world :=
  (run (evaluate_interaction (Some verdict_fail) audit_job2) after_turn2).2.

(** The RefineJob of the second audit: like the first, it names the
    family's seed document. *)
Definition refine_job2 : dict :=
  [("chat_id", VStr "chat-2");
   ("agent_id", VStr "carsalesman101");
   ("failure_reason", VStr "missing email ask");
   ("original_input", VStr "Is the Model X available?");
   ("bad_response", VStr "The Model X is incoming.");
   ("full_history", dict_get_default "history" (VList [])
                      (default [] (store after_turn2 !! ("chats", "chat-2"))));
   ("priority", VStr "MEDIUM")].

Definition after_refine2 : world :=
  (run (refine_agent (Some rewrite_ok) refine_job2) after_audit2).2.

End Demo.

Lemma new_events_app (w : world) (s : gmap (string * string) dict) (l : list event) :
  new_events w {| store := s; trace := trace w ++ l |} = l.
Proof. unfold new_events; simpl. apply drop_app_length. Qed.

Ltac py_unfold :=
  unfold log_event, statsd_event, publish_background_event, doc_set, doc_update,
    doc_update_path, doc_existing, doc_get, document, read_store, write_doc,
    timed, try_except, try_except_json, run,
    tell, raise, return_, lift, lift_opt,
    mbind, py_bind, mret, py_ret, emit in *; simpl in *.

Ltac norm_trace :=
  rewrite <- ?app_assoc; simpl; rewrite ?new_events_app.

Ltac destruct_inner :=
  match goal with
  | |- context [match ?x with _ => _ end] =>
      lazymatch x with
      | context [match _ with _ => _ end] => fail
      | _ => destruct x eqn:?
      end
  end.

Ltac split_in H :=
  repeat (rewrite in_app_iff in H; simpl in H);
  simpl in H; decompose [or] H; clear H; try discriminate; try contradiction.

Section DepthBound.
Context `{Runtime}.

Lemma handle_failure_retry chat_id agent_id audit_reason d reason w :
  d < 2 -> json_ok chat_id = true -> json_ok agent_id = true ->
  handle_failure chat_id agent_id (VInt d) reason audit_reason w =
  (Normal tt,
   {| store := store w;
      trace := trace w ++
        [Log chat_id "EVALUATOR" ("Candidate Rejected. Reason: " ++ reason)%string
           "WARNING" None (py_truthy chat_id || false || false);
         Publish TOPIC_REFINE
           [("chat_id", chat_id); ("agent_id", agent_id);
            ("failure_reason", VStr reason); ("refinement_depth", VInt (d + 1))];
         Log chat_id "EVALUATOR" "Sent back to Refiner for retry." "INFO" None
           (py_truthy chat_id || false || false)] |}).
Proof.
  intros Hd Hc Ha. unfold handle_failure. py_unfold.
  apply Z.ltb_lt in Hd. rewrite Hd, Hc, Ha. simpl. now rewrite <- !app_assoc.
Qed.

Lemma handle_failure_alert chat_id agent_id audit_reason d reason w :
  2 <= d ->
  handle_failure chat_id agent_id (VInt d) reason audit_reason w =
  (Raised TypeError,
   {| store := store w;
      trace := trace w ++
        [Log chat_id "EVALUATOR" ("Candidate Rejected. Reason: " ++ reason)%string
           "WARNING" None (py_truthy chat_id || false || false);
         Log chat_id "EVALUATOR"
           ("OPTIMIZATION FAILED for " ++ fmt agent_id
              ++ " after 2 attempts. Manual Fix Required.")%string
           "CRITICAL" None (py_truthy chat_id || false || true);
         StatsdIncrement "autonomic.optimization.failed"
           [("agent_id:" ++ fmt agent_id)%string; "reason:max_depth_exceeded"];
         StatsdIncrement "autonomic.optimization.failed"
           [("agent_id:" ++ fmt agent_id)%string;
            ("chat_id:" ++ fmt chat_id)%string;
            ("audit_reason:" ++ fmt audit_reason)%string;
            ("evaluator_reason:" ++ reason)%string]] |}).
Proof.
  intros Hd. unfold handle_failure. py_unfold.
  apply Z.ltb_ge in Hd. rewrite Hd. simpl. now rewrite <- !app_assoc.
Qed.

Lemma handle_failure_publishes chat_id agent_id audit_reason d reason w topic p :
  In (Publish topic p)
     (new_events w (handle_failure chat_id agent_id (VInt d) reason audit_reason w).2) ->
  d < 2 /\ topic = TOPIC_REFINE /\
  p = [("chat_id", chat_id); ("agent_id", agent_id);
       ("failure_reason", VStr reason); ("refinement_depth", VInt (d + 1))].
Proof.
  destruct (Z.lt_ge_cases d 2) as [Hd | Hd].
  - unfold handle_failure. py_unfold.
    pose proof Hd as Hd'. apply Z.ltb_lt in Hd'. rewrite Hd'.
    destruct (json_ok chat_id && (json_ok agent_id && true)); simpl; norm_trace.
    + intros [E | [E | [E | []]]]; try discriminate. inversion E. auto.
    + intros [E | []]; discriminate.
  - rewrite handle_failure_alert by assumption. simpl. norm_trace.
    intros [E | [E | [E | [E | []]]]]; discriminate.
Qed.

End DepthBound.

Section RefinerGuard.
Context `{Runtime}.

Lemma refine_agent_guard reply payload d w :
  dict_get "refinement_depth" payload = Some (VInt d) -> 2 <= d ->
  run (refine_agent reply payload) w =
  (None,
   {| store := store w;
      trace := trace w ++
        [Log (dict_get_default "chat_id" VNone payload) "REFINER"
           ("STOPPING: Refinement loop detected. Agent "
              ++ fmt (dict_get_default "agent_id" VNone payload)
              ++ " failed optimization twice.")%string
           "CRITICAL"
           (Some [("action", VStr "email_alert");
                  ("recipient", VStr "admin@user.com");
                  ("reason", VStr "Automatic fix failed to resolve issue.")])
           (py_truthy (dict_get_default "chat_id" VNone payload) || false || true);
         StatsdTimed "autonomic.refiner.latency"
           [("agent_id:" ++ fmt (dict_get_default "agent_id" VNone payload))%string]] |}).
Proof.
  intros Hp Hd. unfold refine_agent, dict_get_default. rewrite Hp. py_unfold.
  apply Z.leb_le in Hd. rewrite Hd. simpl. now rewrite <- !app_assoc.
Qed.

End RefinerGuard.

Section EvalPublishes.
Context `{Runtime}.

Lemma handle_failure_effect chat_id agent_id audit_reason d reason w :
  exists r l,
    handle_failure chat_id agent_id (VInt d) reason audit_reason w =
      (r, {| store := store w; trace := trace w ++ l |}) /\
    forall topic p, In (Publish topic p) l ->
      d < 2 /\ topic = TOPIC_REFINE /\
      p = [("chat_id", chat_id); ("agent_id", agent_id);
           ("failure_reason", VStr reason); ("refinement_depth", VInt (d + 1))].
Proof.
  destruct (Z.lt_ge_cases d 2) as [Hd | Hd].
  - unfold handle_failure. py_unfold.
    pose proof Hd as Hd'. apply Z.ltb_lt in Hd'. rewrite Hd'.
    destruct (json_ok chat_id && (json_ok agent_id && true)); simpl;
      rewrite <- ?app_assoc; simpl; eexists _, _; (split; [reflexivity |]).
    + intros topic p [E | [E | [E | []]]]; try discriminate. inversion E. auto.
    + intros topic p [E | []]; discriminate.
  - rewrite handle_failure_alert by assumption. eexists _, _; split; [reflexivity |].
    intros topic p [E | [E | [E | [E | []]]]]; discriminate.
Qed.

Lemma run_evaluation_publishes replay perf comp payload d w topic p :
  dict_get_default "refinement_depth" (VInt 0) payload = VInt d ->
  In (Publish topic p) (new_events w (run (run_evaluation replay perf comp payload) w).2) ->
  d < 2 /\ topic = TOPIC_REFINE /\ dict_get "refinement_depth" p = Some (VInt (d + 1)).
Proof.
  intros Hd. unfold run_evaluation. rewrite Hd. py_unfold.
  repeat first
    [ match goal with
      | |- context [handle_failure ?a ?b (VInt ?d) ?rsn ?ar ?w0] =>
          let r := fresh "r" in let l := fresh "l" in
          let E := fresh "E" in let Hl := fresh "Hl" in
          destruct (handle_failure_effect a b ar d rsn w0) as (r & l & E & Hl);
          rewrite E; simpl in *
      end
    | destruct_inner; simpl ].
  all: rewrite <- ?app_assoc; rewrite ?new_events_app; intros HIn; split_in HIn.
  all: match goal with
       | Hl : forall topic p, In _ ?l -> _, HI : In _ ?l |- _ =>
           destruct (Hl _ _ HI) as (? & ? & ->); auto
       end.
Qed.
End EvalPublishes.

(** ** Depth bound *)

Section DepthBoundClaim.
Context `{Runtime}.

(** C1. The refinement depth never exceeds 2. For an integer depth [d]:
    every job [handle_failure] publishes is a RefineJob whose
    [refinement_depth] is [d + 1], and it is published only when
    [d < 2], so its depth is at most 2 (the same holds for every job a
    whole [run_evaluation] publishes); when [d < 2] the retry is
    published; when [d >= 2] nothing is published and the store is
    untouched: the terminal alert is the CRITICAL log line and the two
    increments of [autonomic.optimization.failed], the second tagged
    with both reasons, after which the call of [statsd.event] raises
    [TypeError] and sends no event; and the Refiner, given a job of
    depth [d >= 2], only logs the CRITICAL loop-detected alert: no
    candidate is written and nothing is published. *)
Theorem depth_bound (chat_id agent_id audit_reason : value) (reason : string)
    (d : Z) (w : world) (reply replay perf comp : option llm_result)
    (payload : dict) :
  let w' := (handle_failure chat_id agent_id (VInt d) reason audit_reason w).2 in
  (forall topic p, In (Publish topic p) (new_events w w') ->
     topic = TOPIC_REFINE /\ d < 2 /\
     dict_get "refinement_depth" p = Some (VInt (d + 1)) /\ d + 1 <= 2) /\
  (d < 2 -> json_ok chat_id = true -> json_ok agent_id = true ->
     In (Publish TOPIC_REFINE
           [("chat_id", chat_id); ("agent_id", agent_id);
            ("failure_reason", VStr reason); ("refinement_depth", VInt (d + 1))])
        (new_events w w')) /\
  (2 <= d ->
     store w' = store w /\
     new_events w w' =
       [Log chat_id "EVALUATOR" ("Candidate Rejected. Reason: " ++ reason)%string
          "WARNING" None (py_truthy chat_id || false || false);
        Log chat_id "EVALUATOR"
          ("OPTIMIZATION FAILED for " ++ fmt agent_id
             ++ " after 2 attempts. Manual Fix Required.")%string
          "CRITICAL" None (py_truthy chat_id || false || true);
        StatsdIncrement "autonomic.optimization.failed"
          [("agent_id:" ++ fmt agent_id)%string; "reason:max_depth_exceeded"];
        StatsdIncrement "autonomic.optimization.failed"
          [("agent_id:" ++ fmt agent_id)%string;
           ("chat_id:" ++ fmt chat_id)%string;
           ("audit_reason:" ++ fmt audit_reason)%string;
           ("evaluator_reason:" ++ reason)%string]] /\
     (handle_failure chat_id agent_id (VInt d) reason audit_reason w).1 =
       Raised TypeError) /\
  (dict_get_default "refinement_depth" (VInt 0) payload = VInt d ->
   forall topic p,
     In (Publish topic p)
        (new_events w (run (run_evaluation replay perf comp payload) w).2) ->
     topic = TOPIC_REFINE /\
     dict_get "refinement_depth" p = Some (VInt (d + 1)) /\ d + 1 <= 2) /\
  (dict_get "refinement_depth" payload = Some (VInt d) -> 2 <= d ->
     let '(escaped, wr) := run (refine_agent reply payload) w in
     escaped = None /\ store wr = store w /\
     new_events w wr =
       [Log (dict_get_default "chat_id" VNone payload) "REFINER"
          ("STOPPING: Refinement loop detected. Agent "
             ++ fmt (dict_get_default "agent_id" VNone payload)
             ++ " failed optimization twice.")%string
          "CRITICAL"
          (Some [("action", VStr "email_alert");
                 ("recipient", VStr "admin@user.com");
                 ("reason", VStr "Automatic fix failed to resolve issue.")])
          (py_truthy (dict_get_default "chat_id" VNone payload) || false || true);
        StatsdTimed "autonomic.refiner.latency"
          [("agent_id:" ++ fmt (dict_get_default "agent_id" VNone payload))%string]]).
Proof.
  intros w'. subst w'. repeat split.
  - apply (handle_failure_publishes _ _ _ _ _ _ _ _ H0).
  - apply (handle_failure_publishes _ _ _ _ _ _ _ _ H0).
  - destruct (handle_failure_publishes _ _ _ _ _ _ _ _ H0) as (_ & _ & ->).
    reflexivity.
  - destruct (handle_failure_publishes _ _ _ _ _ _ _ _ H0) as (Hd & _). lia.
  - intros Hd Hc Ha. rewrite handle_failure_retry by assumption. simpl.
    rewrite new_events_app. simpl. auto.
  - rewrite handle_failure_alert by assumption. reflexivity.
  - rewrite handle_failure_alert by assumption. simpl. apply new_events_app.
  - rewrite handle_failure_alert by assumption. reflexivity.
  - apply (run_evaluation_publishes _ _ _ _ _ _ _ _ H0 H1).
  - apply (run_evaluation_publishes _ _ _ _ _ _ _ _ H0 H1).
  - destruct (run_evaluation_publishes _ _ _ _ _ _ _ _ H0 H1) as (Hd & _). lia.
  - intros Hp Hd. rewrite (refine_agent_guard _ _ _ _ Hp Hd).
    repeat split. apply new_events_app.
Qed.

End DepthBoundClaim.

Lemma dict_get_set (k k' : string) (v : value) (d : dict) :
  dict_get k (dict_set k' v d) = if String.eqb k k' then Some v else dict_get k d.
Proof.
  induction d as [| [k0 v0] d IH]; simpl.
  - reflexivity.
  - destruct (String.eqb k' k0) eqn:E1; simpl.
    + apply String.eqb_eq in E1. subst k0.
      destruct (String.eqb k k'); reflexivity.
    + destruct (String.eqb k k0) eqn:E2.
      * apply String.eqb_eq in E2. subst k0.
        rewrite String.eqb_sym in E1. now rewrite E1.
      * exact IH.
Qed.

Lemma dict_get_default_set (k k' : string) (dflt v : value) (d : dict) :
  dict_get_default k dflt (dict_set k' v d) =
  if String.eqb k k' then v else dict_get_default k dflt d.
Proof.
  unfold dict_get_default. rewrite dict_get_set. now destruct (String.eqb k k').
Qed.

Ltac calm_simpl :=
  with_strategy opaque
    [get_current_agent_config build_system_prompt save_chat_log
     should_trigger_audit handle_failure fmt str_take str_drop strip replace
     split_head upper lower judge_clean refiner_clean dict_update]
    simpl.

Section AuditSuppression.
Context `{Runtime}.

Lemma get_current_agent_config_read id w :
  get_current_agent_config id w =
  ((get_current_agent_config id {| store := store w; trace := [] |}).1, w).
Proof.
  unfold get_current_agent_config. py_unfold.
  repeat (destruct_inner; simpl); reflexivity.
Qed.

Lemma build_system_prompt_read cfg w :
  build_system_prompt cfg w =
  ((build_system_prompt cfg {| store := ∅; trace := [] |}).1, w).
Proof.
  unfold build_system_prompt. py_unfold.
  repeat (destruct_inner; simpl); reflexivity.
Qed.

Lemma should_trigger_audit_read cid w :
  should_trigger_audit cid w =
  ((should_trigger_audit cid {| store := store w; trace := [] |}).1, w).
Proof.
  unfold should_trigger_audit. py_unfold.
  repeat (destruct_inner; simpl); reflexivity.
Qed.

Lemma should_trigger_audit_field cid w w' :
  audit_field (store w) cid = audit_field (store w') cid ->
  (should_trigger_audit cid w).1 = (should_trigger_audit cid w').1.
Proof.
  unfold audit_field, should_trigger_audit. py_unfold.
  destruct (store w !! (COL_CHATS, cid)) as [c1 |] eqn:E1;
    destruct (store w' !! (COL_CHATS, cid)) as [c2 |] eqn:E2; simpl.
  - intros ->. repeat (destruct_inner; simpl); reflexivity.
  - intros ->. reflexivity.
  - intros <-. reflexivity.
  - reflexivity.
Qed.

Lemma should_trigger_audit_false cid w :
  should_trigger_audit cid w = (Normal false, w) <-> stored_verdict "FAIL" w cid.
Proof.
  unfold should_trigger_audit, stored_verdict. py_unfold. split.
  - destruct (store w !! (COL_CHATS, cid)) as [chat_data |] eqn:Hc; [| discriminate].
    unfold dict_get_default.
    destruct (dict_get "audit_result" chat_data) as [a |] eqn:Ha; simpl; [| discriminate].
    destruct (py_truthy a) eqn:Ht; simpl; [| discriminate].
    destruct a; simpl; try discriminate.
    destruct (dict_get "verdict" d) as [v |] eqn:Hv; simpl; [| discriminate].
    destruct v; simpl; try discriminate.
    destruct (String.eqb (upper s) "PASS") eqn:Hp; [discriminate |].
    destruct (String.eqb (upper s) "FAIL") eqn:Hf; [| discriminate].
    intros _. exists chat_data, d, s. apply String.eqb_eq in Hf. auto.
  - intros (chat_data & audit & s & Hc & Ha & Hv & Hs).
    unfold COL_CHATS in *. rewrite Hc. unfold dict_get_default. rewrite Ha. simpl.
    destruct audit as [| [k0 v0] audit]; [discriminate |]. simpl in *.
    rewrite Hv. simpl. rewrite Hs. reflexivity.
Qed.

Lemma save_chat_log_effect cid aid version user_msg bot_msg m w :
  save_chat_log cid aid version user_msg bot_msg m w = (Raised ValueError, w) \/
  exists merged data,
    save_chat_log cid aid version user_msg bot_msg m w =
      (Normal tt,
       {| store := <[(COL_CHATS, cid) := merged]> (store w);
          trace := trace w ++ [DbWrite OpSetMerge COL_CHATS cid data] |}) /\
    audit_field (<[(COL_CHATS, cid) := merged]> (store w)) cid = audit_field (store w) cid.
Proof.
  unfold save_chat_log. py_unfold.
  match goal with |- context [storable ?d] => destruct (storable d) end;
    [right | left; reflexivity].
  eexists _, _. split; [reflexivity |].
  unfold audit_field. rewrite lookup_insert_eq.
  rewrite !dict_get_default_set. simpl.
  destruct (store w !! (COL_CHATS, cid)); reflexivity.
Qed.


End AuditSuppression.

Ltac read_step :=
  match goal with
  | |- context [get_current_agent_config ?i ?w0] =>
      lazymatch w0 with
      | {| store := _; trace := [] |} => fail
      | _ => rewrite (get_current_agent_config_read i w0); calm_simpl
      end
  | |- context [build_system_prompt ?c ?w0] =>
      lazymatch w0 with
      | {| store := _; trace := [] |} => fail
      | _ => rewrite (build_system_prompt_read c w0); calm_simpl
      end
  | |- context [should_trigger_audit ?c ?w0] =>
      lazymatch w0 with
      | {| store := _; trace := [] |} => fail
      | _ => rewrite (should_trigger_audit_read c w0); calm_simpl
      end
  | |- context [save_chat_log ?a ?b ?c ?d ?e ?m ?w0] =>
      let merged := fresh "merged" in let data := fresh "data" in
      let E := fresh "E" in let Hm := fresh "Hm" in
      destruct (save_chat_log_effect a b c d e m w0) as [E | (merged & data & E & Hm)];
      rewrite E; calm_simpl
  end.

Ltac py_open :=
  unfold log_event, statsd_event, publish_background_event, doc_set, doc_update,
    doc_update_path, doc_existing, doc_get, document, read_store, write_doc,
    timed, try_except, try_except_json, run,
    tell, raise, return_, lift, lift_opt,
    mbind, py_bind, mret, py_ret, emit; calm_simpl.

Ltac py_cases := repeat first [ read_step | destruct_inner; calm_simpl ].

Section GatewayTurn.
Context `{Runtime}.

Lemma chat_endpoint_enqueues_only_if reply request w topic p :
  In (BackgroundTask topic p) (new_events w (chat_endpoint reply request w).2) ->
  (should_trigger_audit (chat_id request) w).1 = Normal true.
Proof.
  unfold chat_endpoint.
  unfold log_event, tell, raise, return_, lift, lift_opt, try_except,
    mbind, py_bind, mret, py_ret, emit. calm_simpl.
  repeat first [ read_step | destruct_inner; calm_simpl ].
  all: rewrite <- ?app_assoc; rewrite ?new_events_app; intros HIn; split_in HIn.
  all: match goal with
       | Hs : (should_trigger_audit _ _).1 = Normal true |- _ =>
           rewrite <- Hs; apply should_trigger_audit_field; symmetry; exact Hm
       end.
Qed.

Lemma chat_endpoint_enqueues_if reply request w resp :
  (chat_endpoint reply request w).1 = Normal resp ->
  (should_trigger_audit (chat_id request) w).1 = Normal true ->
  exists p,
    In (BackgroundTask TOPIC_AUDIT p) (new_events w (chat_endpoint reply request w).2) /\
    dict_get "chat_id" p = Some (VStr (chat_id request)) /\
    dict_get "agent_id" p = Some (VStr (agent_id request)) /\
    dict_get "user_input" p = Some (VStr (user_message request)) /\
    dict_get "bot_response" p = dict_get "response" resp.
Proof.
  intros Hresp Htrig. revert Hresp.
  unfold chat_endpoint.
  unfold log_event, tell, raise, return_, lift, lift_opt, try_except,
    mbind, py_bind, mret, py_ret, emit. calm_simpl.
  repeat first [ read_step | destruct_inner; calm_simpl ].
  all: try discriminate.
  all: intros Hresp.
  all: match goal with
       | Hs : (should_trigger_audit ?c {| store := <[_ := _]> _; trace := _ |}).1 = Normal ?b
         |- _ =>
           assert (Hsame : (should_trigger_audit c w).1 = Normal b)
             by (rewrite <- Hs; apply should_trigger_audit_field; symmetry; exact Hm);
           rewrite Htrig in Hsame
       end.
  all: try discriminate.
  all: injection Hresp as <-.
  all: eexists; split;
    [ rewrite <- ?app_assoc; rewrite new_events_app; simpl; auto 20
    | repeat split; reflexivity ].
Qed.

End GatewayTurn.

Section TriggerCases.
Context `{Runtime}.

Lemma should_trigger_audit_other cid w chat_data audit v :
  store w !! (COL_CHATS, cid) = Some chat_data ->
  dict_get "audit_result" chat_data = Some (VDict audit) ->
  dict_get_default "verdict" (VStr "") audit = VStr v ->
  upper v <> "FAIL" ->
  should_trigger_audit cid w = (Normal true, w).
Proof.
  intros Hc Ha Hv Hne. unfold should_trigger_audit, COL_CHATS in *.
  unfold doc_get, document, read_store, lift, mbind, py_bind, mret, py_ret, raise.
  rewrite Hc.
  replace (dict_get_default "audit_result" VNone chat_data) with (VDict audit)
    by (unfold dict_get_default; now rewrite Ha).
  destruct (negb (py_truthy (VDict audit))); [reflexivity |].
  cbn [as_dict]. rewrite Hv. cbn [as_str].
  destruct (String.eqb (upper v) "PASS"); [reflexivity |].
  destruct (String.eqb (upper v) "FAIL") eqn:Hf; [| reflexivity].
  apply String.eqb_eq in Hf. contradiction.
Qed.

Lemma should_trigger_audit_absent cid w :
  no_audit_result w cid -> should_trigger_audit cid w = (Normal true, w).
Proof.
  unfold no_audit_result, should_trigger_audit, COL_CHATS. py_unfold.
  destruct (store w !! ("chats", cid)) as [chat_data |]; [| reflexivity].
  intros Ha. unfold dict_get_default. rewrite Ha. reflexivity.
Qed.

Lemma should_trigger_audit_pass cid w :
  stored_verdict "PASS" w cid -> should_trigger_audit cid w = (Normal true, w).
Proof.
  intros (chat_data & audit & s & Hc & Ha & Hv & Hs).
  apply (should_trigger_audit_other cid w chat_data audit s Hc Ha).
  - unfold dict_get_default. now rewrite Hv.
  - rewrite Hs. discriminate.
Qed.

End TriggerCases.

(** ** Audit suppression *)

Section AuditSuppressionClaims.
Context `{Runtime}.

(** C3. [should_trigger_audit] returns False exactly when the chat has a
    stored audit result whose verdict is FAIL; a Gateway turn on such a
    chat enqueues no AuditJob; a Gateway turn that is answered, on a chat
    whose audit result is absent or has verdict PASS, enqueues an
    AuditJob for this chat, agent and exchange. *)
Theorem audit_suppression (reply : option llm_result) (request : ChatRequest)
    (w : world) :
  (should_trigger_audit (chat_id request) w = (Normal false, w) <->
     stored_verdict "FAIL" w (chat_id request)) /\
  (stored_verdict "FAIL" w (chat_id request) ->
     forall topic p,
       ~ In (BackgroundTask topic p) (new_events w (chat_endpoint reply request w).2)) /\
  (no_audit_result w (chat_id request) \/ stored_verdict "PASS" w (chat_id request) ->
     forall resp, (chat_endpoint reply request w).1 = Normal resp ->
     exists p,
       In (BackgroundTask TOPIC_AUDIT p) (new_events w (chat_endpoint reply request w).2) /\
       dict_get "chat_id" p = Some (VStr (chat_id request)) /\
       dict_get "agent_id" p = Some (VStr (agent_id request)) /\
       dict_get "user_input" p = Some (VStr (user_message request)) /\
       dict_get "bot_response" p = dict_get "response" resp).
Proof.
  split; [apply should_trigger_audit_false |]. split.
  - intros Hfail topic p Hin.
    apply chat_endpoint_enqueues_only_if in Hin.
    apply should_trigger_audit_false in Hfail. rewrite Hfail in Hin. discriminate.
  - intros Hok resp Hresp.
    apply (chat_endpoint_enqueues_if _ _ _ _ Hresp).
    destruct Hok as [Hnone | Hpass].
    + now rewrite should_trigger_audit_absent.
    + now rewrite should_trigger_audit_pass.
Qed.

(** C9. [should_trigger_audit] returns True when the chat document does
    not exist, when it has no [audit_result], and when the verdict of
    its audit result, uppercased, is any string other than FAIL (a
    missing verdict reads as the empty string): an unknown or malformed
    verdict triggers a new audit. *)
Theorem unknown_verdict_triggers (chat_id : string) (w : world) :
  (store w !! (COL_CHATS, chat_id) = None ->
     should_trigger_audit chat_id w = (Normal true, w)) /\
  (forall chat_data,
     store w !! (COL_CHATS, chat_id) = Some chat_data ->
     dict_get "audit_result" chat_data = None ->
     should_trigger_audit chat_id w = (Normal true, w)) /\
  (forall chat_data audit v,
     store w !! (COL_CHATS, chat_id) = Some chat_data ->
     dict_get "audit_result" chat_data = Some (VDict audit) ->
     dict_get_default "verdict" (VStr "") audit = VStr v ->
     upper v <> "FAIL" ->
     should_trigger_audit chat_id w = (Normal true, w)).
Proof.
  repeat split.
  - intros Hc. apply should_trigger_audit_absent. unfold no_audit_result. now rewrite Hc.
  - intros chat_data Hc Ha. apply should_trigger_audit_absent.
    unfold no_audit_result. now rewrite Hc.
  - intros chat_data audit v. apply should_trigger_audit_other.
Qed.

End AuditSuppressionClaims.

Section AuditorRun.
Context `{Runtime}.
Variables (w : world) (payload : dict) (cid : string) (agent_id : value).
Variables (chat_data agent_config upgrade_config resources : dict).
Variables (user_input bot_response : value) (r : llm_result).
Variables (rules rubric : list value).

Hypothesis Hcid : dict_get_default "chat_id" VNone payload = VStr cid.
Hypothesis Haid : dict_get_default "agent_id" VNone payload = agent_id.
Hypothesis Hchat : store w !! ("chats", cid) = Some chat_data.
Hypothesis Hprev :
  py_truthy (dict_get_default "audit_result" VNone chat_data) = true ->
  exists previous, dict_get_default "audit_result" VNone chat_data = VDict previous.
Hypothesis Hcfg : (get_current_agent_config agent_id w).1 = Normal agent_config.
Hypothesis Hup :
  as_dict (dict_get_default "upgrade_config" (VDict []) agent_config) = inr upgrade_config.
Hypothesis Hrules :
  rules_or_default (dict_get_default "auditor_rules" (VList []) upgrade_config)
    "Check for helpfulness and accuracy." = inr rules.
Hypothesis Hrubric :
  rules_or_default (dict_get_default "evaluator_rubric" (VList []) upgrade_config)
    "Agent provided correct information." = inr rubric.
Hypothesis Hres :
  as_dict (dict_get_default "resources" (VDict []) agent_config) = inr resources.
Hypothesis Hin : dict_get "user_input" payload = Some user_input.
Hypothesis Hout : dict_get "bot_response" payload = Some bot_response.
Hypothesis Hhist :
  py_truthy (dict_get_default "history" (VList []) chat_data) = true ->
  exists turns,
    py_iter (dict_get_default "history" (VList []) chat_data) = inr turns /\
    audit_history_check turns = inr tt.

Lemma evaluate_interaction_records audit verdict reason30 :
  judged_as (text r) audit ->
  as_str (dict_get_default "verdict" (VStr "FAIL") audit) = inr verdict ->
  py_slice 30 (dict_get_default "reason" (VStr "Unknown error") audit) = inr reason30 ->
  storable (audit_record audit) = true ->
  let w' := (run (evaluate_interaction (Some r) payload) w).2 in
  store w' = <[("chats", cid) := dict_update chat_data (audit_record audit)]> (store w) /\
  (verdict = "FAIL" -> json_ok (VDict (refine_payload_of cid agent_id chat_data user_input bot_response audit)) = true ->
     In (Publish TOPIC_REFINE (refine_payload_of cid agent_id chat_data user_input bot_response audit)) (new_events w w')) /\
  (forall topic p, In (Publish topic p) (new_events w w') ->
     verdict = "FAIL" /\ topic = TOPIC_REFINE /\ p = refine_payload_of cid agent_id chat_data user_input bot_response audit).
Proof.
  intros Hj Hv Hr Hs. unfold audit_record, refine_payload_of in *.
  rewrite (get_current_agent_config_read agent_id w) in Hcfg. simpl in Hcfg.
  assert (Hr100 : exists r100,
    py_slice 100 (dict_get_default "reason" (VStr "Unknown error") audit) = inr r100).
  { destruct (dict_get_default "reason" (VStr "Unknown error") audit);
      try discriminate Hr; simpl; eauto. }
  destruct Hr100 as [r100 Hr100].
  assert (Hfail : is_str "FAIL" (dict_get_default "verdict" (VStr "FAIL") audit) = true
                  <-> verdict = "FAIL").
  { destruct (dict_get_default "verdict" (VStr "FAIL") audit); try discriminate Hv.
    injection Hv as ->. simpl. apply String.eqb_eq. }
  unfold evaluate_interaction. rewrite Hcid, Haid. py_open.
  rewrite Hchat. calm_simpl.
  destruct (py_truthy (dict_get_default "audit_result" VNone chat_data)) eqn:Hp;
    [ destruct (Hprev eq_refl) as (previous & Hpd); rewrite Hpd; calm_simpl | ].
  all: calm_simpl; read_step; rewrite Hcfg; calm_simpl; rewrite Hup; calm_simpl;
    rewrite Hrules; calm_simpl; rewrite Hrubric; calm_simpl; rewrite Hres; calm_simpl;
    rewrite Hin; calm_simpl; rewrite Hout; calm_simpl.
  all: destruct (py_truthy (dict_get_default "history" (VList []) chat_data)) eqn:Ht;
    [ destruct (Hhist eq_refl) as (turns & Hit & Hok);
      rewrite Hit; calm_simpl; rewrite Hok; calm_simpl | ].
  all: destruct Hj as [(Hc & Ha) | [(Hc & Hl & Ha) | (Hc & Hl)]];
    [ rewrite Hc; rewrite <- Ha; calm_simpl
    | destruct (String.eqb_spec (judge_clean (text r)) "") as [? | _]; [contradiction |];
      rewrite Hl; rewrite <- Ha; calm_simpl
    | destruct (String.eqb_spec (judge_clean (text r)) "") as [? | _]; [contradiction |];
      rewrite Hl; calm_simpl ].
  all: rewrite Hv; calm_simpl; rewrite Hr; calm_simpl; rewrite Hs; calm_simpl.
  all: rewrite Hchat; calm_simpl; rewrite Hr100; calm_simpl.
  all: destruct (is_str "FAIL" (dict_get_default "verdict" (VStr "FAIL") audit)) eqn:HF;
    calm_simpl.
  all: try match goal with
       | |- context [if ?b then _ else _] => destruct b eqn:HJ; calm_simpl
       end.
  all: rewrite <- ?app_assoc; (split; [reflexivity |]); rewrite new_events_app.
  all: split;
    [ intros Hvf Hjok; try discriminate Hjok;
      try (apply Hfail in Hvf; discriminate Hvf);
      simpl; repeat (try (left; reflexivity); right)
    | intros topic p HIn; split_in HIn;
      match goal with
      | E : Publish _ _ = Publish _ _ |- _ =>
          injection E as <- <-; repeat split; try reflexivity; now apply Hfail
      end ].
Qed.

End AuditorRun.

Section AuditorJobs.
Context `{Runtime}.

Lemma evaluate_interaction_publishes reply payload w topic p :
  In (Publish topic p) (new_events w (run (evaluate_interaction reply payload) w).2) ->
  topic = TOPIC_REFINE /\
  map fst p = ["chat_id"; "agent_id"; "failure_reason"; "original_input";
               "bad_response"; "full_history"; "priority"] /\
  dict_get "chat_id" p = Some (dict_get_default "chat_id" VNone payload) /\
  dict_get "agent_id" p = Some (dict_get_default "agent_id" VNone payload).
Proof.
  unfold evaluate_interaction. py_open. py_cases.
  all: rewrite <- ?app_assoc; rewrite ?new_events_app; intros HIn; split_in HIn.
  all: match goal with
       | E : Publish _ _ = Publish _ _ |- _ =>
           injection E as <- <-; repeat split; reflexivity
       end.
Qed.

End AuditorJobs.


(** ** Auditor verdicts *)

Section AuditorClaims.
Context `{Runtime}.

(** C10. When the Auditor's run reaches the judge and the judge's output
    parses as a JSON object, each missing key is defaulted: verdict to
    FAIL, reason to "Unknown error", priority to LOW. An object with
    none of the three keys is recorded as a FAIL of priority LOW (and
    escalated with that priority), whereas an empty or unparseable
    output is recorded as the synthetic FAIL of priority HIGH. *)
Theorem incomplete_judgment_defaults (w : world) (payload : dict) (cid : string)
    (agent_id : value) (chat_data agent_config upgrade_config resources : dict)
    (user_input bot_response : value) (r : llm_result) (rules rubric : list value) :
  dict_get_default "chat_id" VNone payload = VStr cid ->
  dict_get_default "agent_id" VNone payload = agent_id ->
  store w !! ("chats", cid) = Some chat_data ->
  (py_truthy (dict_get_default "audit_result" VNone chat_data) = true ->
   exists previous, dict_get_default "audit_result" VNone chat_data = VDict previous) ->
  (get_current_agent_config agent_id w).1 = Normal agent_config ->
  as_dict (dict_get_default "upgrade_config" (VDict []) agent_config) = inr upgrade_config ->
  rules_or_default (dict_get_default "auditor_rules" (VList []) upgrade_config)
    "Check for helpfulness and accuracy." = inr rules ->
  rules_or_default (dict_get_default "evaluator_rubric" (VList []) upgrade_config)
    "Agent provided correct information." = inr rubric ->
  as_dict (dict_get_default "resources" (VDict []) agent_config) = inr resources ->
  dict_get "user_input" payload = Some user_input ->
  dict_get "bot_response" payload = Some bot_response ->
  (py_truthy (dict_get_default "history" (VList []) chat_data) = true ->
   exists turns,
     py_iter (dict_get_default "history" (VList []) chat_data) = inr turns /\
     audit_history_check turns = inr tt) ->
  let w' := (run (evaluate_interaction (Some r) payload) w).2 in
  let recorded verdict reason priority :=
    store w' !! ("chats", cid) =
    Some (dict_update chat_data
            [("audit_result",
              VDict [("verdict", verdict); ("reason", reason);
                     ("priority", priority); ("timestamp", VTime clock)])]) in
  (* an object that parsed: every missing key takes its default *)
  (forall audit verdict reason30,
     judge_clean (text r) <> "" ->
     json_loads (judge_clean (text r)) = Some (VDict audit) ->
     as_str (dict_get_default "verdict" (VStr "FAIL") audit) = inr verdict ->
     py_slice 30 (dict_get_default "reason" (VStr "Unknown error") audit) = inr reason30 ->
     storable (audit_record audit) = true ->
     recorded (dict_get_default "verdict" (VStr "FAIL") audit)
              (dict_get_default "reason" (VStr "Unknown error") audit)
              (dict_get_default "priority" (VStr "LOW") audit)) /\
  (* an object with none of the keys: FAIL, Unknown error, LOW, escalated *)
  (forall audit,
     judge_clean (text r) <> "" ->
     json_loads (judge_clean (text r)) = Some (VDict audit) ->
     dict_get "verdict" audit = None -> dict_get "reason" audit = None ->
     dict_get "priority" audit = None ->
     storable (audit_record audit) = true ->
     recorded (VStr "FAIL") (VStr "Unknown error") (VStr "LOW") /\
     (json_ok (VDict (refine_payload_of cid agent_id chat_data user_input bot_response audit))
        = true ->
      exists p, In (Publish TOPIC_REFINE p) (new_events w w') /\
                dict_get "priority" p = Some (VStr "LOW"))) /\
  (* an empty output: the synthetic FAIL of priority HIGH *)
  (judge_clean (text r) = "" ->
   storable (audit_record
               [("verdict", VStr "FAIL");
                ("reason", VStr "LLM evaluation failed - empty response");
                ("priority", VStr "HIGH")]) = true ->
   recorded (VStr "FAIL") (VStr "LLM evaluation failed - empty response") (VStr "HIGH")) /\
  (* an unparseable output: the synthetic FAIL of priority HIGH *)
  (judge_clean (text r) <> "" ->
   json_loads (judge_clean (text r)) = None ->
   storable (audit_record
               [("verdict", VStr "FAIL");
                ("reason", VStr "LLM evaluation failed - invalid JSON output.");
                ("priority", VStr "HIGH")]) = true ->
   recorded (VStr "FAIL") (VStr "LLM evaluation failed - invalid JSON output.")
            (VStr "HIGH")).
Proof.
  intros Hcid Haid Hchat Hprev Hcfg Hup Hrules Hrubric Hres Hin Hout Hhist w' recorded.
  pose proof (evaluate_interaction_records w payload cid agent_id chat_data agent_config
                upgrade_config resources user_input bot_response r rules rubric
                Hcid Haid Hchat Hprev Hcfg Hup Hrules Hrubric Hres Hin Hout Hhist)
    as Hrec.
  subst recorded. cbv beta. split; [| split; [| split]].
  - intros audit verdict reason30 Hne Hl Hv Hr Hs.
    destruct (Hrec audit verdict reason30) as (Hst & _); auto.
    { right. right. auto. }
    subst w'. rewrite Hst. apply lookup_insert_eq.
  - intros audit Hne Hl Hv0 Hr0 Hp0 Hs.
    assert (Hd : dict_get_default "verdict" (VStr "FAIL") audit = VStr "FAIL"
                 /\ dict_get_default "reason" (VStr "Unknown error") audit
                    = VStr "Unknown error"
                 /\ dict_get_default "priority" (VStr "LOW") audit = VStr "LOW").
    { unfold dict_get_default. now rewrite Hv0, Hr0, Hp0. }
    destruct Hd as (Hdv & Hdr & Hdp).
    destruct (Hrec audit "FAIL" (VStr (str_take 30 "Unknown error"))) as (Hst & Hpub & _).
    { right. right. auto. }
    { now rewrite Hdv. }
    { now rewrite Hdr. }
    { exact Hs. }
    split.
    + subst w'. rewrite Hst. rewrite lookup_insert_eq. unfold audit_record.
      now rewrite Hdv, Hdr, Hdp.
    + intros Hjs. eexists. split; [apply Hpub; [reflexivity | exact Hjs] |].
      unfold refine_payload_of. simpl. now rewrite Hdp.
  - intros Hc Hs.
    edestruct (Hrec [("verdict", VStr "FAIL");
                     ("reason", VStr "LLM evaluation failed - empty response");
                     ("priority", VStr "HIGH")] "FAIL") as (Hst & _);
      [ left; split; [exact Hc | reflexivity] | reflexivity | reflexivity | exact Hs | ].
    subst w'. rewrite Hst. now rewrite lookup_insert_eq.
  - intros Hc Hl Hs.
    edestruct (Hrec [("verdict", VStr "FAIL");
                     ("reason", VStr "LLM evaluation failed - invalid JSON output.");
                     ("priority", VStr "HIGH")] "FAIL") as (Hst & _);
      [ right; left; split; [exact Hc | split; [exact Hl | reflexivity]]
      | reflexivity | reflexivity | exact Hs | ].
    subst w'. rewrite Hst. now rewrite lookup_insert_eq.
Qed.

End AuditorClaims.

Section RefinerRun.
Context `{Runtime}.

Lemma refine_agent_writes reply payload w op coll id data :
  In (DbWrite op coll id data) (new_events w (run (refine_agent reply payload) w).2) ->
  exists a parent r cfg newv meta prompt prompt',
    dict_get_default "agent_id" VNone payload = VStr a /\
    store w !! ("agents", a) = Some parent /\
    reply = Some r /\
    json_loads (refiner_clean (text r)) = Some cfg /\
    py_add1 (dict_get_default "version" (VInt 1) parent) = Some newv /\
    dict_get "metadata" parent = Some (VDict meta) /\
    dict_get "prompt" parent = Some (VDict prompt) /\
    py_dict_update prompt cfg = inr (prompt', false) /\
    op = OpSet /\ coll = "agents" /\
    id = (split_head "_v" a ++ "_v" ++ fmt newv)%string /\
    data =
      dict_set "prompt" (VDict prompt')
        (dict_set "metadata"
           (VDict
              (dict_set "deployment_state" (VStr "TEST_CANDIDATE")
                 (dict_set "upgrade_reason"
                    (VStr ("Refinement fix for: "
                             ++ fmt (dict_get_default "failure_reason" VNone payload)))
                    (dict_set "agentid" (VStr id)
                       (dict_set "version" newv meta)))))
           (dict_set "created_at" (VTime clock)
              (dict_set "agent_id" (VStr id)
                 (dict_set "version" newv parent)))).
Proof.
  unfold refine_agent. py_open. py_cases.
  all: rewrite <- ?app_assoc; rewrite ?new_events_app; intros HIn; split_in HIn.
  all: repeat match goal with
       | Hg : context [dict_get _ (dict_set _ _ _)] |- _ =>
           rewrite dict_get_set in Hg; simpl in Hg
       end.
  all: match goal with
       | Hd : as_dict ?v = inr _ |- _ =>
           destruct v; try discriminate Hd; injection Hd as ->
       end.
  all: match goal with
       | E : DbWrite _ _ _ _ = DbWrite _ _ _ _ |- _ => injection E as <- <- <- <-
       end.
  all: do 8 eexists; repeat split; eauto.
Qed.

Lemma refine_agent_store reply payload w :
  let w' := (run (refine_agent reply payload) w).2 in
  (store w' = store w /\
   forall op coll id data, ~ In (DbWrite op coll id data) (new_events w w')) \/
  (exists id data,
     In (DbWrite OpSet "agents" id data) (new_events w w') /\
     store w' = <[("agents", id) := data]> (store w)).
Proof.
  unfold refine_agent. py_open. py_cases.
  all: rewrite <- ?app_assoc; rewrite ?new_events_app.
  all: first
    [ left; split; [reflexivity |];
      intros op coll id data HIn; split_in HIn; fail
    | right; eexists _, _; split; [| reflexivity];
      simpl; repeat (try (left; reflexivity); right) ].
Qed.

Lemma refine_agent_publishes reply payload w topic p :
  In (Publish topic p) (new_events w (run (refine_agent reply payload) w).2) ->
  exists id base data version,
    In (DbWrite OpSet "agents" id data) (new_events w (run (refine_agent reply payload) w).2) /\
    topic = TOPIC_EVALUATE /\
    dict_get "version" data = Some version /\
    p = [("target_agent_id", VStr id);
         ("original_agent_id", VStr base);
         ("chat_id", dict_get_default "chat_id" VNone payload);
         ("trigger_reason", dict_get_default "failure_reason" VNone payload);
         ("refinement_depth", dict_get_default "refinement_depth" (VInt 0) payload);
         ("version", version)].
Proof.
  unfold refine_agent. py_open. py_cases.
  all: rewrite <- ?app_assoc; rewrite ?new_events_app; intros HIn; split_in HIn.
  all: match goal with
       | E : Publish _ _ = Publish _ _ |- _ => injection E as <- <-
       end.
  all: eexists _, _, _, _; split; [simpl; repeat (try (left; reflexivity); right) |].
  all: split; [reflexivity |]; split; [| reflexivity].
  all: rewrite !dict_get_set; reflexivity.
Qed.

Lemma refine_agent_parse_failure r payload w :
  json_loads (refiner_clean (text r)) = None ->
  let w' := (run (refine_agent (Some r) payload) w).2 in
  store w' = store w /\ Forall quiet (new_events w w').
Proof.
  intros Hl. unfold refine_agent. py_open. rewrite Hl. py_cases.
  all: rewrite <- ?app_assoc; rewrite ?new_events_app.
  all: split; [reflexivity | repeat constructor].
Qed.

End RefinerRun.

Section RefinerSuccess.
Context `{Runtime}.
Variables (w : world) (payload : dict) (a : string) (parent meta prompt prompt' : dict).
Variables (r : llm_result) (cfg newv : value).

Hypothesis Hdepth :
  py_ge_int (dict_get_default "refinement_depth" (VInt 0) payload) 2 = Some false.
Hypothesis Hagent : dict_get_default "agent_id" VNone payload = VStr a.
Hypothesis Hparent : store w !! ("agents", a) = Some parent.
Hypothesis Hprompt : dict_get "prompt" parent = Some (VDict prompt).
Hypothesis Hmutable :
  json_ok (VDict [("persona", dict_get_default "persona" VNone prompt);
                  ("style_guide", dict_get_default "style_guide" VNone prompt);
                  ("objectives", dict_get_default "objectives" VNone prompt);
                  ("operational_guidelines",
                    dict_get_default "operational_guidelines" VNone prompt)]) = true.
Hypothesis Hparse : json_loads (refiner_clean (text r)) = Some cfg.
Hypothesis Hversion : py_add1 (dict_get_default "version" (VInt 1) parent) = Some newv.
Hypothesis Hmeta : dict_get "metadata" parent = Some (VDict meta).
Hypothesis Hupdate : py_dict_update prompt cfg = inr (prompt', false).
Hypothesis Hstorable : storable (candidate_of payload a parent meta prompt' newv) = true.
Hypothesis Hjob : json_ok (VDict (evaluate_job_of payload a newv)) = true.

Lemma refine_agent_success :
  let w' := (run (refine_agent (Some r) payload) w).2 in
  store w' =
    <[("agents", candidate_id a newv) := candidate_of payload a parent meta prompt' newv]>
      (store w) /\
  In (DbWrite OpSet "agents" (candidate_id a newv)
        (candidate_of payload a parent meta prompt' newv)) (new_events w w') /\
  In (Publish TOPIC_EVALUATE (evaluate_job_of payload a newv)) (new_events w w').
Proof.
  unfold candidate_of, evaluate_job_of, candidate_id in *.
  unfold refine_agent. rewrite Hagent. py_open. rewrite Hdepth. calm_simpl.
  rewrite Hparent. calm_simpl.
  replace (dict_get_default "prompt" (VDict []) parent) with (VDict prompt)
    by (unfold dict_get_default; now rewrite Hprompt).
  calm_simpl. revert Hmutable Hjob. calm_simpl. intros Hmutable Hjob.
  rewrite Hmutable. calm_simpl. rewrite Hparse. calm_simpl. rewrite Hversion. calm_simpl.
  rewrite !dict_get_set. calm_simpl. rewrite Hmeta. calm_simpl.
  rewrite !dict_get_set. calm_simpl. rewrite Hprompt. calm_simpl.
  rewrite Hupdate. calm_simpl. rewrite Hstorable. calm_simpl.
  rewrite Hjob. calm_simpl.
  rewrite <- ?app_assoc. rewrite new_events_app.
  split; [reflexivity |].
  split; simpl; repeat (try (left; reflexivity); right).
Qed.



End RefinerSuccess.

Section EvaluatorFrame.
Context `{Runtime}.

Lemma run_evaluation_perf_parse_failure replay r comp payload w :
  json_loads (judge_clean (text r)) = None ->
  let w' := (run (run_evaluation replay (Some r) comp payload) w).2 in
  store w' = store w /\ Forall quiet (new_events w w').
Proof.
  intros Hl. unfold run_evaluation. py_open. rewrite Hl. py_cases.
  all: rewrite <- ?app_assoc; rewrite ?new_events_app.
  all: split; [reflexivity | repeat constructor].
Qed.

Lemma handle_failure_frame chat_id agent_id depth reason audit_reason w :
  exists r l,
    handle_failure chat_id agent_id depth reason audit_reason w =
      (r, {| store := store w; trace := trace w ++ l |}) /\
    forall op coll id data, ~ In (DbWrite op coll id data) l.
Proof.
  unfold handle_failure. py_open. py_cases.
  all: rewrite <- ?app_assoc; eexists _, _; (split; [reflexivity |]).
  all: intros op coll id data HIn; split_in HIn.
Qed.

End EvaluatorFrame.

Ltac failure_step :=
  match goal with
  | |- context [handle_failure ?a ?b ?d ?rsn ?ar ?w0] =>
      let r := fresh "r" in let l := fresh "l" in
      let E := fresh "E" in let Hl := fresh "Hl" in
      destruct (handle_failure_frame a b d rsn ar w0) as (r & l & E & Hl);
      rewrite E; calm_simpl
  end.

Section EvaluatorRun.
Context `{Runtime}.

Lemma run_evaluation_comp_parse_failure replay perf r payload w :
  json_loads (judge_clean (text r)) = None ->
  let w' := (run (run_evaluation replay perf (Some r) payload) w).2 in
  store w' = store w /\
  forall op coll id data, ~ In (DbWrite op coll id data) (new_events w w').
Proof.
  intros Hl. unfold run_evaluation. py_open.
  repeat first [ failure_step | read_step | destruct_inner; calm_simpl ].
  all: try discriminate.
  all: rewrite <- ?app_assoc; rewrite ?new_events_app.
  all: try (split; [reflexivity |]; intros op coll id data HIn; split_in HIn;
            match goal with
            | Hf : forall op coll id data, ~ In _ ?l, HI : In _ ?l |- _ =>
                exact (Hf _ _ _ _ HI)
            end).
  all: discriminate.
Qed.

End EvaluatorRun.

Section Promotion.
Context `{Runtime}.
Variables (w : world) (payload : dict) (cid cand_id fam : string).
Variables (chat_data audit_prev candidate prompt_cfg upgrade_cfg persona : dict).
Variables (perf_json comp_json pointer : dict) (turns rules : list value) (u : value).
Variables (replay_r perf_r comp_r : llm_result).

Hypothesis Hcid : dict_get_default "chat_id" VNone payload = VStr cid.
Hypothesis Hcand : dict_get_default "target_agent_id" VNone payload = VStr cand_id.
Hypothesis Hfam : dict_get_default "original_agent_id" VNone payload = VStr fam.
Hypothesis Hchat : store w !! ("chats", cid) = Some chat_data.
Hypothesis Haudit :
  as_dict (dict_get_default "audit_result" (VDict []) chat_data) = inr audit_prev.
Hypothesis Hturns : py_iter (dict_get_default "history" (VList []) chat_data) = inr turns.
Hypothesis Hlast : last_user_turn turns (VStr "") = inr u.
Hypothesis Hinput : py_truthy u = true.
Hypothesis Hdoc : store w !! ("agents", cand_id) = Some candidate.
Hypothesis Hprompt :
  as_dict (dict_get_default "prompt" (VDict []) candidate) = inr prompt_cfg.
Hypothesis Hupgrade :
  as_dict (dict_get_default "upgrade_config" (VDict []) candidate) = inr upgrade_cfg.
Hypothesis Hpersona :
  as_dict (dict_get_default "persona" (VDict []) prompt_cfg) = inr persona.
Hypothesis Hperf : json_loads (judge_clean (text perf_r)) = Some (VDict perf_json).
Hypothesis Hperf_pass :
  is_str "FAIL" (dict_get_default "verdict" VNone perf_json) = false.
Hypothesis Hrules :
  py_iter (dict_get_default "auditor_rules" (VList []) upgrade_cfg) = inr rules.
Hypothesis Hdump : json_ok (VDict prompt_cfg) = true.
Hypothesis Hcomp : json_loads (judge_clean (text comp_r)) = Some (VDict comp_json).
Hypothesis Hcomp_pass :
  is_str "FAIL" (dict_get_default "verdict" VNone comp_json) = false.
Hypothesis Hpointer : store w !! ("pointers", fam) = Some pointer.
Hypothesis Hstorable : storable (pointer_fields payload cand_id candidate) = true.

Lemma run_evaluation_promotes :
  let w' :=
    (run (run_evaluation (Some replay_r) (Some perf_r) (Some comp_r) payload) w).2 in
  let promoted :=
    set_field_path "metadata" "deployment_state" (VStr "ACTIVE") candidate in
  db_writes (new_events w w') =
    [DbWrite OpUpdate "pointers" fam (pointer_fields payload cand_id candidate);
     DbWrite OpUpdate "agents" cand_id [("metadata.deployment_state", VStr "ACTIVE")]] /\
  store w' =
    <[("agents", cand_id) := promoted]>
      (<[("pointers", fam) :=
           dict_update pointer (pointer_fields payload cand_id candidate)]> (store w)) /\
  get_current_agent_config (VStr fam) w' = (Normal promoted, w').
Proof.
  unfold pointer_fields in *.
  assert (Hstep :
    (run (run_evaluation (Some replay_r) (Some perf_r) (Some comp_r) payload) w).2 =
    {| store :=
         <[("agents", cand_id) :=
             set_field_path "metadata" "deployment_state" (VStr "ACTIVE") candidate]>
           (<[("pointers", fam) :=
                dict_update pointer
                  [("active_agent_doc_ref", VStr cand_id);
                   ("current_version", dict_get_default "version" VNone candidate);
                   ("last_updated", VFloat clock);
                   ("reason",
                    VStr ("Auto-fixed: "
                            ++ fmt (dict_get_default "trigger_reason" VNone payload)))]]>
              (store w));
       trace := trace (run (run_evaluation (Some replay_r) (Some perf_r) (Some comp_r)
                              payload) w).2 |} /\
    db_writes (new_events w
                 (run (run_evaluation (Some replay_r) (Some perf_r) (Some comp_r)
                         payload) w).2) =
    [DbWrite OpUpdate "pointers" fam
       [("active_agent_doc_ref", VStr cand_id);
        ("current_version", dict_get_default "version" VNone candidate);
        ("last_updated", VFloat clock);
        ("reason",
         VStr ("Auto-fixed: "
                 ++ fmt (dict_get_default "trigger_reason" VNone payload)))];
     DbWrite OpUpdate "agents" cand_id [("metadata.deployment_state", VStr "ACTIVE")]]).
  { unfold run_evaluation. rewrite Hcid, Hcand, Hfam. py_open.
    rewrite Hchat. calm_simpl. rewrite Haudit. calm_simpl. rewrite Hturns. calm_simpl.
    rewrite Hlast. calm_simpl. rewrite Hinput. calm_simpl. rewrite Hdoc. calm_simpl.
    rewrite Hprompt. calm_simpl. rewrite Hupgrade. calm_simpl. rewrite Hpersona.
    calm_simpl. rewrite Hperf. calm_simpl.
    rewrite Hperf_pass. calm_simpl. rewrite Hrules. calm_simpl.
    revert Hdump. calm_simpl. intros Hdump. rewrite Hdump. calm_simpl.
    rewrite Hcomp. calm_simpl.
    rewrite Hcomp_pass. calm_simpl. rewrite Hstorable. calm_simpl. rewrite Hpointer. calm_simpl.
    rewrite lookup_insert_ne by discriminate. rewrite Hdoc. calm_simpl.
    rewrite <- ?app_assoc. rewrite new_events_app. split; reflexivity. }
  destruct Hstep as [Hw' Hwrites]. cbv zeta. split; [exact Hwrites |].
  split; [now rewrite Hw' |].
  rewrite get_current_agent_config_read. f_equal.
  rewrite Hw'. cbn [store]. unfold get_current_agent_config. py_open.
  rewrite lookup_insert_ne by discriminate. rewrite lookup_insert_eq. calm_simpl.
  unfold dict_update. simpl. rewrite !dict_get_set. simpl.
  rewrite lookup_insert_eq. reflexivity.
Qed.

End Promotion.

(** ** Cost of a generation call *)

Lemma round_half_even_comp (x y : Q) :
  (x == y)%Q -> round_half_even x = round_half_even y.
Proof.
  intros E. unfold round_half_even.
  rewrite (Qfloor_comp x y E).
  assert (Ec : ((x - inject_Z (Qfloor y)) ?= 1 # 2)%Q = ((y - inject_Z (Qfloor y)) ?= 1 # 2)%Q).
  { now rewrite E. }
  now rewrite Ec.
Qed.

(** Rounding a number of tenths. *)
Lemma round_half_even_tenths (n : Z) :
  round_half_even (n # 10) =
  if n mod 10 <? 5 then n / 10
  else if 5 <? n mod 10 then n / 10 + 1
  else if Z.even (n / 10) then n / 10 else n / 10 + 1.
Proof.
  unfold round_half_even. cbn [Qfloor].
  change (Z.pos 10) with 10.
  pose proof (Z.div_mod n 10 ltac:(lia)) as Hdm.
  pose proof (Z.mod_pos_bound n 10 ltac:(lia)) as Hb.
  set (f := n / 10) in *. set (m := n mod 10) in *.
  unfold Qcompare, Qminus, Qplus, Qopp, inject_Z. cbn [Qnum Qden].
  destruct (Z.compare_spec ((n * 1 + - f * 10) * 2) (1 * Z.pos (10 * 1))) as [E | E | E];
    change (Z.pos (10 * 1)) with 10 in E.
  - assert (m = 5) by lia. subst m.
    destruct (n mod 10 <? 5) eqn:E1; [apply Z.ltb_lt in E1; lia |].
    destruct (5 <? n mod 10) eqn:E2; [apply Z.ltb_lt in E2; lia |]. reflexivity.
  - destruct (m <? 5) eqn:E1; [reflexivity | apply Z.ltb_ge in E1; lia].
  - destruct (m <? 5) eqn:E1; [apply Z.ltb_lt in E1; lia |].
    destruct (5 <? m) eqn:E2; [reflexivity | apply Z.ltb_ge in E2; lia].
Qed.

Lemma total_cost_tenths (i o : Z) :
  (total_cost i o * inject_Z (10 ^ Z.of_nat 6) == (3 * i + 25 * o) # 10)%Q.
Proof.
  unfold total_cost, INPUT_PRICE_PER_1M, OUTPUT_PRICE_PER_1M.
  change (10 ^ Z.of_nat 6) with 1000000.
  unfold Qeq, Qmult, Qplus, Qdiv, Qinv, inject_Z. cbn [Qnum Qden].
  simpl. lia.
Qed.

Lemma estimated_cost_micros (i o : Z) :
  py_round (total_cost i o) 6 = cost_micros i o # 1000000.
Proof.
  unfold py_round, cost_micros. rewrite (round_half_even_comp _ _ (total_cost_tenths i o)).
  reflexivity.
Qed.

Lemma cost_micros_spec (i o : Z) :
  0 <= i -> 0 <= o ->
  0 <= cost_micros i o /\
  -5 <= 10 * cost_micros i o - (3 * i + 25 * o) <= 5 /\
  (0 < cost_micros i o <-> 6 <= 3 * i + 25 * o).
Proof.
  intros Hi Ho. unfold cost_micros. rewrite round_half_even_tenths.
  set (n := 3 * i + 25 * o).
  assert (Hn : 0 <= n) by (unfold n; lia).
  pose proof (Z.div_mod n 10 ltac:(lia)) as Hdm.
  pose proof (Z.mod_pos_bound n 10 ltac:(lia)) as Hb.
  pose proof (Z.div_pos n 10 Hn ltac:(lia)) as Hf.
  destruct (n mod 10 <? 5) eqn:E1.
  - apply Z.ltb_lt in E1. lia.
  - apply Z.ltb_ge in E1. destruct (5 <? n mod 10) eqn:E2.
    + apply Z.ltb_lt in E2. lia.
    + apply Z.ltb_ge in E2. destruct (Z.even (n / 10)) eqn:E3; [lia |].
      assert (n / 10 <> 0) by (intros E0; rewrite E0 in E3; discriminate). lia.
Qed.

Lemma generate_response_cost user_input system_prompt model_name elapsed response :
  let m := metrics (generate_response user_input system_prompt model_name elapsed response) in
  estimated_cost m = cost_micros (input_tokens m) (output_tokens m) # 1000000.
Proof.
  unfold generate_response.
  destruct (usage_metadata response) as [[i o] |]; cbn [metrics estimated_cost input_tokens
    output_tokens]; apply estimated_cost_micros.
Qed.

(** C8, as the code has it. The estimated cost is the cost formula
    [inputTokens * 0.30/1e6 + outputTokens * 2.50/1e6] rounded to six
    decimals: for non-negative token counts it is a non-negative whole
    number of millionths, within half a millionth of the formula, and it
    is positive exactly when [3 * inputTokens + 25 * outputTokens >= 6].
    It depends on the two token counts alone: any other call that
    reports the same counts has the same cost, whatever the model. *)
Theorem cost_rounded (user_input system_prompt model_name : string) (elapsed : Q)
    (response : api_response) :
  let m := metrics (generate_response user_input system_prompt model_name elapsed response) in
  let i := input_tokens m in
  let o := output_tokens m in
  0 <= i -> 0 <= o ->
  (exists k : Z, 0 <= k /\ estimated_cost m = k # 1000000) /\
  (estimated_cost m - total_cost i o <= 1 # 2000000)%Q /\
  (total_cost i o - estimated_cost m <= 1 # 2000000)%Q /\
  ((0 < estimated_cost m)%Q <-> 6 <= 3 * i + 25 * o) /\
  (forall user_input' system_prompt' model_name' elapsed' response',
     let m' := metrics (generate_response user_input' system_prompt' model_name'
                          elapsed' response') in
     input_tokens m' = i -> output_tokens m' = o ->
     estimated_cost m' = estimated_cost m).
Proof.
  intros m i o Hi Ho.
  pose proof (generate_response_cost user_input system_prompt model_name elapsed response)
    as Hc. cbv zeta in Hc. fold m in Hc. fold i o in Hc.
  destruct (cost_micros_spec i o Hi Ho) as (Hk0 & Hk & Hpos).
  rewrite Hc. split; [eauto |].
  assert (Ht : (total_cost i o == (3 * i + 25 * o) # 10000000)%Q).
  { unfold total_cost, INPUT_PRICE_PER_1M, OUTPUT_PRICE_PER_1M.
    unfold Qeq, Qmult, Qplus, Qdiv, Qinv, inject_Z. cbn [Qnum Qden]. simpl. lia. }
  split; [| split; [| split]].
  - rewrite Ht. unfold Qle, Qminus, Qplus, Qopp. cbn [Qnum Qden]. lia.
  - rewrite Ht. unfold Qle, Qminus, Qplus, Qopp. cbn [Qnum Qden]. lia.
  - rewrite <- Hpos. unfold Qlt. cbn [Qnum Qden]. lia.
  - intros u' s' mn' e' r' m' Hi' Ho'.
    pose proof (generate_response_cost u' s' mn' e' r') as Hc'. cbv zeta in Hc'.
    fold m' in Hc'. rewrite Hc', Hi', Ho'. reflexivity.
Qed.

(** The fallback estimate: a short exchange costs nothing although the
    response is not empty; and with one token each way the rounded cost
    differs from the formula. *)
Lemma cost_rounded_counterexample :
  let res := generate_response "hello" "" "gemini-2.5-flash" 1
               {| response_text := "ok"; usage_metadata := None |} in
  let res' := generate_response "hello" "" "gemini-2.5-flash" 1
                {| response_text := "ok"; usage_metadata := Some (1, 1) |} in
  text res <> "" /\ ~ (0 < estimated_cost (metrics res))%Q /\
  ~ (estimated_cost (metrics res') ==
     inject_Z (input_tokens (metrics res')) * INPUT_PRICE_PER_1M / inject_Z 1000000
     + inject_Z (output_tokens (metrics res')) * OUTPUT_PRICE_PER_1M / inject_Z 1000000)%Q.
Proof.
  cbv zeta. split; [discriminate |]. split.
  - vm_compute. intros E. discriminate E.
  - vm_compute. intros E. discriminate E.
Qed.

Lemma cost_rounded_witness :
  let m := metrics (generate_response "How much is the Model Y?" "You are a Quality Judge."
                      "gemini-2.5-flash" (3 # 2)
                      {| response_text := "The Model Y is available now.";
                         usage_metadata := Some (120, 12) |}) in
  (0 < estimated_cost m)%Q.
Proof.
  cbv zeta.
  apply (cost_rounded "How much is the Model Y?" "You are a Quality Judge."
           "gemini-2.5-flash" (3 # 2)
           {| response_text := "The Model Y is available now.";
              usage_metadata := Some (120, 12) |});
    vm_compute; try reflexivity; intros E; discriminate E.
Defined.

Lemma dict_update_get_other (k : string) (d o : dict) :
  dict_get k o = None -> dict_get k (dict_update d o) = dict_get k d.
Proof.
  unfold dict_update. revert d.
  induction o as [| [k' v] o IH]; intros d Hk; simpl in *.
  - reflexivity.
  - destruct (String.eqb k k') eqn:E; [discriminate |].
    rewrite IH by assumption. rewrite dict_get_set, E. reflexivity.
Qed.

Lemma dict_update_get_named (k : string) (d o : dict) :
  dict_get k o <> None ->
  exists v, In (k, v) o /\ dict_get k (dict_update d o) = Some v.
Proof.
  revert d. induction o as [| [k' v'] o IH]; intros d Hk; simpl in Hk.
  - contradiction.
  - change (dict_update d ((k', v') :: o)) with (dict_update (dict_set k' v' d) o).
    destruct (dict_get k o) as [x |] eqn:Ho.
    + destruct (IH (dict_set k' v' d)) as (v & Hin & Hv); [congruence |].
      exists v. split; [now right | exact Hv].
    + destruct (String.eqb_spec k k') as [<- | Hne]; [| contradiction].
      exists v'. split; [now left |].
      rewrite dict_update_get_other by assumption.
      now rewrite dict_get_set, String.eqb_refl.
Qed.

Section RefinerCandidates.
Context `{Runtime}.

Lemma refine_agent_candidate reply payload w op coll id data :
  In (DbWrite op coll id data) (new_events w (run (refine_agent reply payload) w).2) ->
  store (run (refine_agent reply payload) w).2 = <[("agents", id) := data]> (store w).
Proof.
  unfold refine_agent. py_open. py_cases.
  all: rewrite <- ?app_assoc; rewrite ?new_events_app; intros HIn; split_in HIn.
  all: match goal with
       | E : DbWrite _ _ _ _ = DbWrite _ _ _ _ |- _ => injection E as <- <- <- <-
       end.
  all: reflexivity.
Qed.

(** C2. Every candidate document a Refiner run writes is derived from
    the document named by the job's [agent_id] (its parent) and is stored
    under the candidate's id. Its rules ([upgrade_config]), its
    [resources] and its model settings ([config]) are those of the
    parent, as is every top-level field other than the bookkeeping fields
    [version], [agent_id], [created_at], [metadata] and the [prompt]. The
    prompt is the parent's prompt updated with the model's output: when
    that output is an object, every prompt field it does not name is the
    parent's, and every field it names, whether or not it is one of
    [persona], [style_guide], [objectives] and [operational_guidelines],
    has a value the output gives it. *)
Theorem immutable_fields (reply : option llm_result) (payload : dict) (w : world)
    (op : db_op) (coll id : string) (data : dict) :
  In (DbWrite op coll id data) (new_events w (run (refine_agent reply payload) w).2) ->
  exists a parent prompt prompt' r cfg,
    dict_get_default "agent_id" VNone payload = VStr a /\
    store w !! ("agents", a) = Some parent /\
    op = OpSet /\ coll = "agents" /\
    store (run (refine_agent reply payload) w).2 !! ("agents", id) = Some data /\
    dict_get "upgrade_config" data = dict_get "upgrade_config" parent /\
    dict_get "resources" data = dict_get "resources" parent /\
    dict_get "config" data = dict_get "config" parent /\
    (forall k,
       ~ In k ["version"; "agent_id"; "created_at"; "metadata"; "prompt"] ->
       dict_get k data = dict_get k parent) /\
    dict_get "prompt" parent = Some (VDict prompt) /\
    dict_get "prompt" data = Some (VDict prompt') /\
    reply = Some r /\
    json_loads (refiner_clean (text r)) = Some cfg /\
    py_dict_update prompt cfg = inr (prompt', false) /\
    (forall c k, cfg = VDict c -> dict_get k c = None ->
       dict_get k prompt' = dict_get k prompt) /\
    (forall c k, cfg = VDict c -> dict_get k c <> None ->
       exists v, In (k, v) c /\ dict_get k prompt' = Some v).
Proof.
  intros HIn.
  pose proof (refine_agent_candidate _ _ _ _ _ _ _ HIn) as Hstore.
  destruct (refine_agent_writes _ _ _ _ _ _ _ HIn)
    as (a & parent & r & cfg & newv & meta & prompt & prompt' &
        Ha & Hparent & Hr & Hcfg & Hv & Hmeta & Hprompt & Hupd & -> & -> & Hid & Hdata).
  exists a, parent, prompt, prompt', r, cfg.
  assert (Hother : forall k,
            ~ In k ["version"; "agent_id"; "created_at"; "metadata"; "prompt"] ->
            dict_get k data = dict_get k parent).
  { intros k Hk. rewrite Hdata, !dict_get_set.
    repeat match goal with
           | |- context [String.eqb k ?lit] =>
               destruct (String.eqb_spec k lit) as [-> | _];
               [exfalso; apply Hk; simpl; tauto |]
           end.
    reflexivity. }
  repeat split; try assumption.
  - rewrite Hstore. apply lookup_insert_eq.
  - apply Hother. simpl. intros [E | [E | [E | [E | [E | []]]]]]; discriminate E.
  - apply Hother. simpl. intros [E | [E | [E | [E | [E | []]]]]]; discriminate E.
  - apply Hother. simpl. intros [E | [E | [E | [E | [E | []]]]]]; discriminate E.
  - rewrite Hdata, dict_get_set. reflexivity.
  - intros c k -> Hk. simpl in Hupd. injection Hupd as <-.
    now apply dict_update_get_other.
  - intros c k -> Hk. simpl in Hupd. injection Hupd as <-.
    now apply dict_update_get_named.
Qed.

End RefinerCandidates.

(** ** Families and versions *)

Lemma starts_with_sep (c : ascii) (s : string) :
  starts_with "_v" (String c s) =
  Ascii.eqb "_" c && match s with String c' _ => Ascii.eqb "v" c' | EmptyString => false end.
Proof.
  destruct s; cbn [starts_with]; [reflexivity |]. now rewrite andb_true_r.
Qed.

Lemma split_head_cons (c : ascii) (s : string) :
  split_head "_v" (String c s) = String c s ->
  starts_with "_v" (String c s) = false /\ split_head "_v" s = s.
Proof.
  cbn [split_head]. destruct (starts_with "_v" (String c s)); [discriminate |].
  intros E. injection E as E. auto.
Qed.

(** A string without the separator, followed by the separator: the part
    before the first separator is that string. *)
Lemma family_of_candidate (s t : string) :
  split_head "_v" s = s -> split_head "_v" (s ++ "_v" ++ t) = s.
Proof.
  induction s as [| c s IH]; intros Hs.
  - reflexivity.
  - destruct (split_head_cons c s Hs) as [Hc Hs'].
    change ((String c s ++ "_v" ++ t)%string) with (String c (s ++ "_v" ++ t)).
    cbn [split_head].
    assert (Hn : starts_with "_v" (String c (s ++ "_v" ++ t)) = false).
    { rewrite starts_with_sep in *.
      destruct (Ascii.eqb "_" c); [| reflexivity]. cbn [andb] in *.
      destruct s as [| c' s]; [reflexivity | exact Hc]. }
    rewrite Hn. f_equal. now apply IH.
Qed.

Lemma family_idem (s : string) : family (family s) = family s.
Proof.
  unfold family. induction s as [| c s IH].
  - reflexivity.
  - cbn [split_head]. destruct (starts_with "_v" (String c s)) eqn:Hc.
    + reflexivity.
    + cbn [split_head].
      assert (Hn : starts_with "_v" (String c (split_head "_v" s)) = false).
      { rewrite starts_with_sep in *.
        destruct (Ascii.eqb "_" c); [| reflexivity]. cbn [andb] in *.
        destruct s as [| c' s]; [reflexivity |].
        cbn [split_head]. destruct (starts_with "_v" (String c' s)); [reflexivity | exact Hc]. }
      rewrite Hn. now rewrite IH.
Qed.

Lemma family_candidate_id (a t : string) :
  family (family a ++ "_v" ++ t) = family a.
Proof. unfold family. apply family_of_candidate. apply family_idem. Qed.

(** In a store whose agent documents are filed by version, a family and
    a version name at most one document. *)
Lemma versions_consistent_unique docs id1 id2 d1 d2 :
  versions_consistent docs ->
  docs !! (COL_AGENTS, id1) = Some d1 -> docs !! (COL_AGENTS, id2) = Some d2 ->
  family id1 = family id2 -> dict_get "version" d1 = dict_get "version" d2 ->
  id1 = id2.
Proof.
  intros Hc H1 H2 Hf Hv.
  destruct (Hc _ _ H1) as [(E1 & V1) | (v1 & L1 & E1 & V1)];
    destruct (Hc _ _ H2) as [(E2 & V2) | (v2 & L2 & E2 & V2)].
  - congruence.
  - rewrite V1, V2 in Hv. injection Hv as <-. lia.
  - rewrite V1, V2 in Hv. injection Hv as ->. lia.
  - rewrite V1, V2 in Hv. injection Hv as ->. congruence.
Qed.

Lemma versions_consistent_insert_other docs coll id doc :
  coll <> COL_AGENTS -> versions_consistent docs ->
  versions_consistent (<[(coll, id) := doc]> docs).
Proof.
  intros Hne Hc id0 doc0. rewrite lookup_insert_ne by congruence. apply Hc.
Qed.

Lemma versions_consistent_insert docs id doc :
  filed_by_version id doc -> versions_consistent docs ->
  versions_consistent (<[(COL_AGENTS, id) := doc]> docs).
Proof.
  intros Hd Hc id0 doc0. destruct (decide (id0 = id)) as [-> | Hne].
  - rewrite lookup_insert_eq. now intros [= <-].
  - rewrite lookup_insert_ne by congruence. apply Hc.
Qed.

Section RefinerVersions.
Context `{Runtime}.

Lemma candidate_filed a parent newv id data :
  filed_by_version a parent ->
  py_add1 (dict_get_default "version" (VInt 1) parent) = Some newv ->
  id = (split_head "_v" a ++ "_v" ++ fmt newv)%string ->
  dict_get "version" data = Some newv ->
  filed_by_version id data.
Proof.
  intros Hp Hv -> Hd. right.
  assert (exists v, 1 <= v /\ dict_get "version" parent = Some (VInt v)) as (v & Hv1 & Hpv).
  { destruct Hp as [(_ & V) | (v & L & _ & V)]; [exists 1 | exists v]; split; auto; lia. }
  unfold dict_get_default in Hv. rewrite Hpv in Hv. simpl in Hv. injection Hv as <-.
  exists (v + 1). split; [lia |]. split; [| exact Hd].
  change (split_head "_v" a) with (family a). cbn [fmt].
  now rewrite family_candidate_id.
Qed.

Lemma refine_agent_consistent reply payload w :
  versions_consistent (store w) ->
  versions_consistent (store (run (refine_agent reply payload) w).2).
Proof.
  intros Hc.
  destruct (refine_agent_store reply payload w) as [(Hs & _) | (id & data & HIn & Hs)];
    cbv zeta in *.
  - now rewrite Hs.
  - rewrite Hs.
    destruct (refine_agent_writes _ _ _ _ _ _ _ HIn)
      as (a & parent & r & cfg & newv & meta & prompt & prompt' &
          Ha & Hparent & Hr & Hcfg & Hv & Hmeta & Hprompt & Hupd & _ & _ & Hid & Hdata).
    apply versions_consistent_insert; [| exact Hc].
    apply (candidate_filed a parent newv id data);
      [ apply Hc; exact Hparent | exact Hv | exact Hid
      | rewrite Hdata, !dict_get_set; reflexivity ].
Qed.

(** C5, as the code has it. A Refiner run that writes a candidate takes
    its version from the document named by the job's [agent_id] (its
    parent): the parent's version plus one, whatever other versions the
    family has. The candidate is stored under [<family>_v<version>],
    replacing any document already stored there. When the agent
    documents are filed by version before the run, they are after it,
    and no other document of the family carries the candidate's
    version. *)
Theorem version_from_parent (reply : option llm_result) (payload : dict) (w : world)
    (op : db_op) (coll id : string) (data : dict) :
  In (DbWrite op coll id data) (new_events w (run (refine_agent reply payload) w).2) ->
  let w' := (run (refine_agent reply payload) w).2 in
  exists a parent newv,
    dict_get_default "agent_id" VNone payload = VStr a /\
    store w !! ("agents", a) = Some parent /\
    py_add1 (dict_get_default "version" (VInt 1) parent) = Some newv /\
    dict_get "version" data = Some newv /\
    id = (family a ++ "_v" ++ fmt newv)%string /\
    dict_get "agent_id" data = Some (VStr id) /\
    store w' = <[("agents", id) := data]> (store w) /\
    (versions_consistent (store w) ->
     versions_consistent (store w') /\
     forall id' doc',
       store w' !! ("agents", id') = Some doc' ->
       family id' = family id ->
       dict_get "version" doc' = Some newv ->
       id' = id).
Proof.
  intros HIn w'. subst w'.
  pose proof (refine_agent_candidate _ _ _ _ _ _ _ HIn) as Hstore.
  destruct (refine_agent_writes _ _ _ _ _ _ _ HIn)
    as (a & parent & r & cfg & newv & meta & prompt & prompt' &
        Ha & Hparent & Hr & Hcfg & Hv & Hmeta & Hprompt & Hupd & _ & _ & Hid & Hdata).
  assert (Hversion : dict_get "version" data = Some newv).
  { rewrite Hdata, !dict_get_set. reflexivity. }
  exists a, parent, newv. repeat split; try assumption.
  - rewrite Hdata, !dict_get_set. reflexivity.
  - now apply refine_agent_consistent.
  - intros id' doc' Hdoc Hfam Hv'.
    apply (versions_consistent_unique
             (store (run (refine_agent reply payload) w).2) id' id doc' data); auto.
    + now apply refine_agent_consistent.
    + rewrite Hstore. apply lookup_insert_eq.
    + congruence.
Qed.

End RefinerVersions.

Lemma dict_get_not_in (k : string) (d : dict) :
  ~ In k (map fst d) -> dict_get k d = None.
Proof.
  induction d as [| [k' v] d IH]; simpl; intros Hk.
  - reflexivity.
  - destruct (String.eqb_spec k k') as [-> | _]; [exfalso; auto |]. apply IH. auto.
Qed.

(** ** Promotion *)

Section PromotionClaim.
Context `{Runtime}.

(** C4. When a run of the Evaluator reaches both gates and both judges
    answer PASS, the run makes exactly two store writes, in this order:
    it updates the family's pointer ([active_agent_doc_ref] to the
    candidate's id, [current_version] to the candidate's version,
    [last_updated], [reason]), then it sets the candidate's
    [metadata.deployment_state] to ACTIVE. Afterwards the pointer names
    the candidate, the candidate differs from what it was in its metadata
    only, and [get_current_agent_config] for the family returns the
    candidate's document. *)
Theorem promotion_order (w : world) (payload : dict) (cid cand_id fam : string)
    (chat_data audit_prev candidate prompt_cfg upgrade_cfg persona : dict)
    (perf_json comp_json pointer : dict) (turns rules : list value) (u : value)
    (replay_r perf_r comp_r : llm_result) :
  dict_get_default "chat_id" VNone payload = VStr cid ->
  dict_get_default "target_agent_id" VNone payload = VStr cand_id ->
  dict_get_default "original_agent_id" VNone payload = VStr fam ->
  store w !! ("chats", cid) = Some chat_data ->
  as_dict (dict_get_default "audit_result" (VDict []) chat_data) = inr audit_prev ->
  py_iter (dict_get_default "history" (VList []) chat_data) = inr turns ->
  last_user_turn turns (VStr "") = inr u ->
  py_truthy u = true ->
  store w !! ("agents", cand_id) = Some candidate ->
  as_dict (dict_get_default "prompt" (VDict []) candidate) = inr prompt_cfg ->
  as_dict (dict_get_default "upgrade_config" (VDict []) candidate) = inr upgrade_cfg ->
  as_dict (dict_get_default "persona" (VDict []) prompt_cfg) = inr persona ->
  py_iter (dict_get_default "auditor_rules" (VList []) upgrade_cfg) = inr rules ->
  json_ok (VDict prompt_cfg) = true ->
  store w !! ("pointers", fam) = Some pointer ->
  storable (pointer_fields payload cand_id candidate) = true ->
  (* both gates answer PASS *)
  json_loads (judge_clean (text perf_r)) = Some (VDict perf_json) ->
  dict_get "verdict" perf_json = Some (VStr "PASS") ->
  json_loads (judge_clean (text comp_r)) = Some (VDict comp_json) ->
  dict_get "verdict" comp_json = Some (VStr "PASS") ->
  let w' :=
    (run (run_evaluation (Some replay_r) (Some perf_r) (Some comp_r) payload) w).2 in
  let promoted :=
    set_field_path "metadata" "deployment_state" (VStr "ACTIVE") candidate in
  let pointer' := dict_update pointer (pointer_fields payload cand_id candidate) in
  db_writes (new_events w w') =
    [DbWrite OpUpdate "pointers" fam (pointer_fields payload cand_id candidate);
     DbWrite OpUpdate "agents" cand_id [("metadata.deployment_state", VStr "ACTIVE")]] /\
  store w' !! ("pointers", fam) = Some pointer' /\
  dict_get "active_agent_doc_ref" pointer' = Some (VStr cand_id) /\
  dict_get "current_version" pointer' = Some (dict_get_default "version" VNone candidate) /\
  store w' !! ("agents", cand_id) = Some promoted /\
  (exists meta, dict_get "metadata" promoted = Some (VDict meta) /\
                dict_get "deployment_state" meta = Some (VStr "ACTIVE")) /\
  (forall k, k <> "metadata" -> dict_get k promoted = dict_get k candidate) /\
  get_current_agent_config (VStr fam) w' = (Normal promoted, w').
Proof.
  intros Hcid Hcand Hfam Hchat Haudit Hturns Hlast Hinput Hdoc Hprompt Hupgrade Hpersona
    Hrules Hdump Hpointer Hstorable Hperf Hperf_pass Hcomp Hcomp_pass w' promoted pointer'.
  assert (Hp : is_str "FAIL" (dict_get_default "verdict" VNone perf_json) = false).
  { unfold dict_get_default. now rewrite Hperf_pass. }
  assert (Hc : is_str "FAIL" (dict_get_default "verdict" VNone comp_json) = false).
  { unfold dict_get_default. now rewrite Hcomp_pass. }
  destruct (run_evaluation_promotes w payload cid cand_id fam chat_data audit_prev candidate
              prompt_cfg upgrade_cfg persona perf_json comp_json pointer turns rules u
              replay_r perf_r comp_r Hcid Hcand Hfam Hchat Haudit Hturns Hlast Hinput Hdoc
              Hprompt Hupgrade Hpersona Hperf Hp Hrules Hdump Hcomp Hc Hpointer Hstorable)
    as (Hwrites & Hstore & Hread).
  fold w' in Hwrites, Hstore, Hread. fold promoted in Hstore, Hread.
  fold pointer' in Hstore.
  split; [exact Hwrites |].
  split. { rewrite Hstore. rewrite lookup_insert_ne by discriminate. apply lookup_insert_eq. }
  split. { subst pointer'. unfold pointer_fields, dict_update. simpl.
           now rewrite !dict_get_set. }
  split. { subst pointer'. unfold pointer_fields, dict_update. simpl.
           now rewrite !dict_get_set. }
  split. { rewrite Hstore. apply lookup_insert_eq. }
  split. { subst promoted. unfold set_field_path. eexists. rewrite dict_get_set. simpl.
           split; [reflexivity |]. now rewrite dict_get_set. }
  split; [| exact Hread].
  intros k Hk. subst promoted. unfold set_field_path. rewrite dict_get_set.
  destruct (String.eqb_spec k "metadata"); [contradiction | reflexivity].
Qed.

End PromotionClaim.

(** ** Output that does not parse *)

Section ParseFailures.
Context `{Runtime}.

Lemma run_evaluation_comp_parse_quiet replay rp pj r payload w :
  json_loads (judge_clean (text rp)) = Some (VDict pj) ->
  is_str "FAIL" (dict_get_default "verdict" VNone pj) = false ->
  json_loads (judge_clean (text r)) = None ->
  let w' := (run (run_evaluation replay (Some rp) (Some r) payload) w).2 in
  store w' = store w /\ Forall quiet (new_events w w').
Proof.
  intros Hp Hv Hl. unfold run_evaluation. py_open. rewrite Hp. calm_simpl.
  rewrite Hv. calm_simpl. rewrite Hl. py_cases.
  all: rewrite <- ?app_assoc; rewrite ?new_events_app.
  all: split; [reflexivity | repeat constructor].
Qed.

(** C6, as the code has it. When the model's output does not parse as
    JSON, the Refiner ends the job: the store is unchanged (no candidate
    is written) and it does nothing but log (no EvaluateJob is
    published). The Evaluator ends the job in the same way, whether the
    output is the performance judge's or, after a passed performance
    gate, the compliance judge's: the store is unchanged and the run does
    nothing but log, so the failure is not given to [handle_failure],
    which would publish a retry or send the alert metrics. *)
Theorem parse_failure_handling (r : llm_result) (payload : dict) (w : world)
    (replay comp : option llm_result) (perf_r : llm_result) (perf_json : dict) :
  (json_loads (refiner_clean (text r)) = None ->
   let w' := (run (refine_agent (Some r) payload) w).2 in
   store w' = store w /\ Forall quiet (new_events w w')) /\
  (json_loads (judge_clean (text r)) = None ->
   let w' := (run (run_evaluation replay (Some r) comp payload) w).2 in
   store w' = store w /\ Forall quiet (new_events w w')) /\
  (json_loads (judge_clean (text perf_r)) = Some (VDict perf_json) ->
   is_str "FAIL" (dict_get_default "verdict" VNone perf_json) = false ->
   json_loads (judge_clean (text r)) = None ->
   let w' := (run (run_evaluation replay (Some perf_r) (Some r) payload) w).2 in
   store w' = store w /\ Forall quiet (new_events w w')).
Proof.
  split; [| split].
  - apply refine_agent_parse_failure.
  - apply run_evaluation_perf_parse_failure.
  - apply run_evaluation_comp_parse_quiet.
Qed.

End ParseFailures.

(** ** The fields of a RefineJob *)

Section RefineJobs.
Context `{Runtime}.

Lemma handle_failure_job chat_id agent_id depth reason audit_reason w topic p :
  In (Publish topic p)
     (new_events w (handle_failure chat_id agent_id depth reason audit_reason w).2) ->
  topic = TOPIC_REFINE /\
  exists depth',
    py_lt_int depth 2 = Some true /\ py_add1 depth = Some depth' /\
    p = [("chat_id", chat_id); ("agent_id", agent_id);
         ("failure_reason", VStr reason); ("refinement_depth", depth')].
Proof.
  unfold handle_failure.
  unfold log_event, publish_background_event, tell, raise, lift_opt,
    mbind, py_bind, mret, py_ret, emit.
  with_strategy opaque [py_lt_int py_add1 fmt] simpl.
  repeat (destruct_inner; with_strategy opaque [py_lt_int py_add1 fmt] simpl).
  all: rewrite <- ?app_assoc; rewrite ?new_events_app; intros HIn; split_in HIn.
  all: match goal with
       | E : Publish _ _ = Publish _ _ |- _ => injection E as <- <-
       end.
  all: split; [reflexivity |]; eexists; repeat split; eauto.
Qed.

(** C7, as the code has it. The RefineJob the Auditor publishes has the
    fields [chat_id], [agent_id], [failure_reason], [original_input],
    [bad_response], [full_history] and [priority]: it has no
    [refinement_depth], which the Refiner then reads as 0, its default.
    The RefineJob the Evaluator publishes for a retry has the fields
    [chat_id], [agent_id], [failure_reason] and [refinement_depth] (the
    incoming depth plus one), and none of [original_input],
    [bad_response] and [full_history]. *)
Theorem refine_job_fields (reply : option llm_result) (payload : dict) (w : world)
    (chat_id agent_id depth audit_reason : value) (reason : string) :
  (forall topic p,
     In (Publish topic p) (new_events w (run (evaluate_interaction reply payload) w).2) ->
     topic = TOPIC_REFINE /\
     map fst p = ["chat_id"; "agent_id"; "failure_reason"; "original_input";
                  "bad_response"; "full_history"; "priority"] /\
     dict_get "refinement_depth" p = None /\
     dict_get_default "refinement_depth" (VInt 0) p = VInt 0) /\
  (forall topic p,
     In (Publish topic p)
        (new_events w (handle_failure chat_id agent_id depth reason audit_reason w).2) ->
     topic = TOPIC_REFINE /\
     map fst p = ["chat_id"; "agent_id"; "failure_reason"; "refinement_depth"] /\
     (exists depth', py_add1 depth = Some depth' /\
                     dict_get "refinement_depth" p = Some depth') /\
     dict_get "original_input" p = None /\
     dict_get "bad_response" p = None /\
     dict_get "full_history" p = None).
Proof.
  split.
  - intros topic p HIn.
    destruct (evaluate_interaction_publishes _ _ _ _ _ HIn) as (-> & Hkeys & _).
    assert (Hnone : dict_get "refinement_depth" p = None).
    { apply dict_get_not_in. rewrite Hkeys. simpl.
      intros [E | [E | [E | [E | [E | [E | [E | []]]]]]]]; discriminate E. }
    repeat split; auto. unfold dict_get_default. now rewrite Hnone.
  - intros topic p HIn.
    destruct (handle_failure_job _ _ _ _ _ _ _ _ HIn) as (-> & depth' & _ & Hadd & ->).
    repeat split; eauto.
Qed.

End RefineJobs.

(** ** The properties on the run of the seeded family *)

Ltac find_in := vm_compute; repeat (first [left; reflexivity | right]).

Section Scenario.
#[local] Existing Instance demo_runtime.

Lemma depth_bound_witness :
  let w := Demo.after_refine in
  let reason := "Performance Check Failed: missing email ask" in
  let rejected depth :=
    (handle_failure (VStr "chat-1") (VStr "carsalesman101_v2") (VInt depth) reason
       (VStr "missing email ask") w).2 in
  In (Publish TOPIC_REFINE
        [("chat_id", VStr "chat-1"); ("agent_id", VStr "carsalesman101_v2");
         ("failure_reason", VStr reason); ("refinement_depth", VInt 1)])
     (new_events w (rejected 0)) /\
  store (rejected 2) = store w /\
  (forall topic p, ~ In (Publish topic p) (new_events w (rejected 2))) /\
  (handle_failure (VStr "chat-1") (VStr "carsalesman101_v2") (VInt 2) reason
     (VStr "missing email ask") w).1 = Raised TypeError.
Proof.
  cbv zeta.
  pose proof (depth_bound (VStr "chat-1") (VStr "carsalesman101_v2")
                (VStr "missing email ask") "Performance Check Failed: missing email ask"
                0 Demo.after_refine None None None None []) as H0.
  pose proof (depth_bound (VStr "chat-1") (VStr "carsalesman101_v2")
                (VStr "missing email ask") "Performance Check Failed: missing email ask"
                2 Demo.after_refine None None None None []) as H2.
  cbv zeta in H0, H2.
  destruct H0 as (_ & H0 & _). destruct H2 as (Hpub & _ & H2 & _).
  destruct (H2 ltac:(lia)) as (Hstore & _ & Hflow).
  split; [apply H0; [lia | reflexivity | reflexivity] |].
  split; [exact Hstore |]. split; [| exact Hflow].
  intros topic p Hin. destruct (Hpub topic p Hin) as (_ & Hd & _). lia.
Defined.

Lemma immutable_fields_witness :
  exists parent data,
    store Demo.after_audit !! ("agents", "carsalesman101") = Some parent /\
    store Demo.after_refine !! ("agents", "carsalesman101_v2") = Some data /\
    dict_get "upgrade_config" data = dict_get "upgrade_config" parent /\
    dict_get "resources" data = dict_get "resources" parent /\
    dict_get "config" data = dict_get "config" parent.
Proof.
  assert (HIn : In (DbWrite OpSet "agents" "carsalesman101_v2"
                      (default [] (store Demo.after_refine !! ("agents", "carsalesman101_v2"))))
                   (new_events Demo.after_audit
                      (run (refine_agent (Some Demo.rewrite_ok) Demo.refine_job)
                         Demo.after_audit).2)) by find_in.
  destruct (immutable_fields _ _ _ _ _ _ _ HIn)
    as (a & parent & prompt & prompt' & r & cfg & Ha & Hparent & _ & _ & Hdata &
        Hrules & Hres & Hcfg & _).
  vm_compute in Ha. injection Ha as <-.
  eexists parent, _. split; [exact Hparent |]. split; [exact Hdata |]. auto.
Defined.

(** The model answers with an object that names [closing_line]: the
    candidate's prompt has this field, the parent's prompt has not, and
    it is none of the four mutable fields. *)
Lemma immutable_fields_counterexample :
  exists parent data prompt prompt',
    store Demo.after_audit !! ("agents", "carsalesman101") = Some parent /\
    store Demo.after_refine_extra !! ("agents", "carsalesman101_v2") = Some data /\
    In (DbWrite OpSet "agents" "carsalesman101_v2" data)
       (new_events Demo.after_audit Demo.after_refine_extra) /\
    dict_get "prompt" parent = Some (VDict prompt) /\
    dict_get "prompt" data = Some (VDict prompt') /\
    existsb (String.eqb "closing_line")
      ["persona"; "style_guide"; "objectives"; "operational_guidelines"] = false /\
    dict_get "closing_line" prompt = None /\
    dict_get "closing_line" prompt' = Some (VStr "Ask for a phone number.").
Proof.
  eexists _, _, _, _.
  split; [vm_compute; reflexivity |]. split; [vm_compute; reflexivity |].
  split; [find_in |].
  split; [vm_compute; reflexivity |]. split; [vm_compute; reflexivity |].
  split; [reflexivity |]. split; vm_compute; reflexivity.
Qed.

Lemma audit_suppression_witness :
  stored_verdict "FAIL" Demo.after_audit "chat-1" /\
  (forall topic p,
     ~ In (BackgroundTask topic p)
          (new_events Demo.after_audit
             (chat_endpoint (Some Demo.reply_turn) Demo.request Demo.after_audit).2)) /\
  (exists p,
     In (BackgroundTask TOPIC_AUDIT p)
        (new_events Demo.seeded
           (chat_endpoint (Some Demo.reply_turn) Demo.request Demo.seeded).2) /\
     dict_get "chat_id" p = Some (VStr "chat-1")).
Proof.
  assert (Hfail : stored_verdict "FAIL" Demo.after_audit "chat-1").
  { eexists _, _, "FAIL". split; [| split; [| split]]; vm_compute; reflexivity. }
  split; [exact Hfail |]. split.
  - apply (audit_suppression (Some Demo.reply_turn) Demo.request Demo.after_audit).
    exact Hfail.
  - destruct (audit_suppression (Some Demo.reply_turn) Demo.request Demo.seeded)
      as (_ & _ & Hok).
    edestruct Hok as (p & Hin & Hcid & _).
    + left. vm_compute. exact I.
    + vm_compute. reflexivity.
    + exists p. auto.
Defined.


Lemma promotion_order_witness :
  exists promoted,
    get_current_agent_config (VStr "carsalesman101") Demo.after_promotion =
      (Normal promoted, Demo.after_promotion) /\
    store Demo.after_promotion !! ("agents", "carsalesman101_v2") = Some promoted /\
    exists fields,
      db_writes (new_events Demo.after_refine Demo.after_promotion) =
        [DbWrite OpUpdate "pointers" "carsalesman101" fields;
         DbWrite OpUpdate "agents" "carsalesman101_v2"
           [("metadata.deployment_state", VStr "ACTIVE")]].
Proof.
  edestruct (promotion_order Demo.after_refine Demo.evaluate_job
               "chat-1" "carsalesman101_v2" "carsalesman101")
    with (replay_r := Demo.replayed) (perf_r := Demo.verdict_pass)
         (comp_r := Demo.verdict_pass)
    as (Hwrites & _ & _ & _ & Hdoc & _ & _ & Hread);
    try (vm_compute; reflexivity).
  eexists. split; [exact Hread |]. split; [exact Hdoc |]. eexists. exact Hwrites.
Defined.

(** The second audit's RefineJob names the seed document again: the
    Refiner derives version 2 from it although the family already has a
    version 2, and the promoted document is replaced by the candidate. *)
Lemma version_from_parent_counterexample :
  let w := Demo.after_audit2 in
  let w' := (run (refine_agent (Some Demo.rewrite_ok) Demo.refine_job2) w).2 in
  In (Publish TOPIC_REFINE Demo.refine_job2) (new_events Demo.after_turn2 w) /\
  option_map (dict_get "version") (store w !! ("agents", "carsalesman101")) =
    Some (Some (VInt 1)) /\
  option_map (dict_get "version") (store w !! ("agents", "carsalesman101_v2")) =
    Some (Some (VInt 2)) /\
  (exists data,
     db_writes (new_events w w') = [DbWrite OpSet "agents" "carsalesman101_v2" data] /\
     dict_get "version" data = Some (VInt 2)) /\
  (exists live meta,
     get_current_agent_config (VStr "carsalesman101") w' = (Normal live, w') /\
     dict_get "metadata" live = Some (VDict meta) /\
     dict_get "deployment_state" meta = Some (VStr "TEST_CANDIDATE")).
Proof.
  cbv zeta. split; [find_in |].
  split; [vm_compute; reflexivity |]. split; [vm_compute; reflexivity |]. split.
  - eexists. split; vm_compute; reflexivity.
  - eexists _, _. split; [| split]; vm_compute; reflexivity.
Qed.

Lemma version_from_parent_witness :
  exists data,
    In (DbWrite OpSet "agents" "carsalesman101_v2" data)
       (new_events Demo.after_audit Demo.after_refine) /\
    dict_get "version" data = Some (VInt 2) /\
    store Demo.after_refine =
      <[("agents", "carsalesman101_v2") := data]> (store Demo.after_audit).
Proof.
  assert (HIn : In (DbWrite OpSet "agents" "carsalesman101_v2"
                      (default [] (store Demo.after_refine !! ("agents", "carsalesman101_v2"))))
                   (new_events Demo.after_audit
                      (run (refine_agent (Some Demo.rewrite_ok) Demo.refine_job)
                         Demo.after_audit).2)) by find_in.
  destruct (version_from_parent _ _ _ _ _ _ _ HIn)
    as (a & parent & newv & Ha & Hparent & Hadd & Hversion & _ & _ & Hstore & _).
  vm_compute in Ha. injection Ha as <-.
  vm_compute in Hparent. injection Hparent as <-.
  vm_compute in Hadd. injection Hadd as <-.
  eexists. split; [exact HIn |]. split; [exact Hversion | exact Hstore].
Defined.

(** The performance judge's answer is not JSON: the Evaluator logs the
    error and stops. It publishes no retry and sends no alert, as
    [handle_failure] would have. *)
Lemma parse_failure_handling_counterexample :
  let w := Demo.after_refine in
  let w' :=
    (run (run_evaluation (Some Demo.replayed) (Some Demo.not_json)
            (Some Demo.verdict_pass) Demo.evaluate_job) w).2 in
  json_loads (judge_clean (text Demo.not_json)) = None /\
  In (Log (VStr "chat-1") "EVALUATOR" "Critical Error: JSONDecodeError" "ERROR" None true)
     (new_events w w') /\
  Forall quiet (new_events w w') /\
  store w' = store w.
Proof.
  cbv zeta. split; [vm_compute; reflexivity |]. split; [find_in |].
  assert (Hq : Forall quiet
                 (new_events Demo.after_refine
                    (run (run_evaluation (Some Demo.replayed) (Some Demo.not_json)
                            (Some Demo.verdict_pass) Demo.evaluate_job)
                       Demo.after_refine).2)).
  { apply run_evaluation_perf_parse_failure. vm_compute. reflexivity. }
  split; [exact Hq |].
  apply run_evaluation_perf_parse_failure. vm_compute. reflexivity.
Qed.

Lemma parse_failure_handling_witness :
  let w := Demo.after_audit in
  let w' := (run (refine_agent (Some Demo.not_json) Demo.refine_job) w).2 in
  store w' = store w /\ Forall quiet (new_events w w').
Proof.
  cbv zeta.
  destruct (parse_failure_handling Demo.not_json Demo.refine_job Demo.after_audit
              None None Demo.not_json []) as (Hrefiner & _).
  apply Hrefiner. vm_compute. reflexivity.
Defined.

(** The Auditor's RefineJob has no [refinement_depth]; the Evaluator's
    retry has none of [original_input], [bad_response] and
    [full_history]. *)
Lemma refine_job_fields_counterexample :
  (exists p,
     In (Publish TOPIC_REFINE p) (new_events Demo.after_turn Demo.after_audit) /\
     dict_get "refinement_depth" p = None) /\
  (exists p,
     In (Publish TOPIC_REFINE p) (new_events Demo.after_refine Demo.after_rejection) /\
     dict_get "original_input" p = None /\
     dict_get "bad_response" p = None /\
     dict_get "full_history" p = None).
Proof.
  split.
  - exists Demo.refine_job. split; [find_in | reflexivity].
  - exists [("chat_id", VStr "chat-1"); ("agent_id", VStr "carsalesman101_v2");
            ("failure_reason", VStr "Performance Check Failed: missing email ask");
            ("refinement_depth", VInt 1)].
    split; [find_in | repeat split].
Qed.

Lemma refine_job_fields_witness :
  In (Publish TOPIC_REFINE Demo.refine_job) (new_events Demo.after_turn Demo.after_audit) /\
  dict_get_default "refinement_depth" (VInt 0) Demo.refine_job = VInt 0.
Proof.
  assert (HIn : In (Publish TOPIC_REFINE Demo.refine_job)
                   (new_events Demo.after_turn
                      (run (evaluate_interaction (Some Demo.verdict_fail) Demo.audit_job)
                         Demo.after_turn).2)) by find_in.
  split; [exact HIn |].
  destruct (refine_job_fields (Some Demo.verdict_fail) Demo.audit_job Demo.after_turn
              VNone VNone VNone VNone "") as (Hauditor & _).
  apply (Hauditor _ _ HIn).
Defined.

Lemma unknown_verdict_triggers_witness :
  let judged :=
    Demo.answer (Demo.json_object [("verdict", "Maybe"); ("reason", "unclear")]) 900 20 in
  let w := (run (evaluate_interaction (Some judged) Demo.audit_job) Demo.after_turn).2 in
  should_trigger_audit "chat-1" w = (Normal true, w).
Proof.
  cbv zeta.
  eapply (unknown_verdict_triggers "chat-1") with (v := "Maybe").
  - vm_compute. reflexivity.
  - vm_compute. reflexivity.
  - vm_compute. reflexivity.
  - vm_compute. intros E. discriminate E.
Defined.

Lemma incomplete_judgment_defaults_witness :
  let w' :=
    (run (evaluate_interaction (Some (Demo.answer "{}" 900 2)) Demo.audit_job)
       Demo.after_turn).2 in
  exists chat,
    store w' !! ("chats", "chat-1") = Some chat /\
    dict_get "audit_result" chat =
      Some (VDict [("verdict", VStr "FAIL"); ("reason", VStr "Unknown error");
                   ("priority", VStr "LOW"); ("timestamp", VTime clock)]).
Proof.
  cbv zeta.
  edestruct (incomplete_judgment_defaults Demo.after_turn Demo.audit_job "chat-1")
    with (r := Demo.answer "{}" 900 2)
    as (_ & Hnone & _).
  1-3: vm_compute; reflexivity.
  1: vm_compute; intros E; discriminate E.
  1-7: vm_compute; reflexivity.
  1: intros _; eexists; split; vm_compute; reflexivity.
  edestruct (Hnone []) as (Hrec & _); try (vm_compute; reflexivity).
  { vm_compute. intros E. discriminate E. }
  eexists. split; [exact Hrec |]. vm_compute. reflexivity.
Defined.

End Scenario.

(** ** What each service leaves untouched *)

Section Frames.
Context `{Runtime}.

Lemma chat_endpoint_frame reply request w k :
  k <> (COL_CHATS, chat_id request) ->
  store (chat_endpoint reply request w).2 !! k = store w !! k.
Proof.
  intros Hk. unfold chat_endpoint.
  unfold log_event, tell, raise, return_, lift, lift_opt, try_except,
    mbind, py_bind, mret, py_ret, emit. calm_simpl.
  repeat first [ read_step | destruct_inner; calm_simpl ].
  all: try reflexivity.
  all: now rewrite lookup_insert_ne by congruence.
Qed.

Lemma get_current_agent_config_no_return id w :
  (get_current_agent_config id w).1 <> Returned.
Proof.
  unfold get_current_agent_config. py_unfold.
  repeat (destruct_inner; simpl); discriminate.
Qed.

Lemma build_system_prompt_no_return cfg w :
  (build_system_prompt cfg w).1 <> Returned.
Proof.
  unfold build_system_prompt. py_unfold.
  repeat (destruct_inner; simpl); discriminate.
Qed.

Lemma should_trigger_audit_no_return cid w :
  (should_trigger_audit cid w).1 <> Returned.
Proof.
  unfold should_trigger_audit. py_unfold.
  repeat (destruct_inner; simpl); discriminate.
Qed.

Lemma chat_endpoint_outcome reply request w :
  (exists resp, (chat_endpoint reply request w).1 = Normal resp) \/
  ((chat_endpoint reply request w).1 = Raised (HTTPException 500) /\
   forall topic p,
     ~ In (BackgroundTask topic p) (new_events w (chat_endpoint reply request w).2)).
Proof.
  unfold chat_endpoint.
  unfold log_event, tell, raise, return_, lift, lift_opt, try_except,
    mbind, py_bind, mret, py_ret, emit. calm_simpl.
  repeat first [ read_step | destruct_inner; calm_simpl ].
  all: try (exfalso;
            first [ solve [eapply get_current_agent_config_no_return; eassumption]
                  | solve [eapply build_system_prompt_no_return; eassumption]
                  | solve [eapply should_trigger_audit_no_return; eassumption] ]).
  all: first
    [ left; eexists; reflexivity
    | right; split; [reflexivity |];
      rewrite <- ?app_assoc; rewrite ?new_events_app;
      intros topic p HIn; split_in HIn ].
Qed.

Lemma evaluate_interaction_frame reply payload w coll id :
  coll <> "chats" ->
  store (run (evaluate_interaction reply payload) w).2 !! (coll, id) = store w !! (coll, id).
Proof.
  intros Hk. unfold evaluate_interaction. py_open. py_cases.
  all: try reflexivity.
  all: now rewrite lookup_insert_ne by congruence.
Qed.

Lemma evaluate_interaction_returns reply payload w :
  (run (evaluate_interaction reply payload) w).1 = None.
Proof.
  unfold evaluate_interaction. py_open. py_cases.
  all: reflexivity.
Qed.

Lemma refine_agent_frame reply payload w coll id :
  coll <> "agents" ->
  store (run (refine_agent reply payload) w).2 !! (coll, id) = store w !! (coll, id).
Proof.
  intros Hk.
  destruct (refine_agent_store reply payload w) as [(Hs & _) | (id' & data & _ & Hs)];
    cbv zeta in Hs; rewrite Hs; [reflexivity |].
  now rewrite lookup_insert_ne by congruence.
Qed.

Lemma refine_agent_escapes reply payload w e :
  (run (refine_agent reply payload) w).1 = Some e ->
  e = TypeError /\
  py_ge_int (dict_get_default "refinement_depth" (VInt 0) payload) 2 = None /\
  store (run (refine_agent reply payload) w).2 = store w /\
  Forall quiet (new_events w (run (refine_agent reply payload) w).2).
Proof.
  unfold refine_agent. py_open.
  destruct (py_ge_int (dict_get_default "refinement_depth" (VInt 0) payload) 2) eqn:Hg;
    calm_simpl.
  - py_cases. all: discriminate.
  - intros [= <-]. rewrite new_events_app. repeat split. repeat constructor.
Qed.

Lemma run_evaluation_returns replay perf comp payload w :
  (run (run_evaluation replay perf comp payload) w).1 = None.
Proof.
  unfold run_evaluation. py_open.
  repeat first [ failure_step | read_step | destruct_inner; calm_simpl ].
  all: reflexivity.
Qed.

Lemma run_evaluation_chats replay perf comp payload w coll id :
  coll <> "agents" -> coll <> "pointers" ->
  store (run (run_evaluation replay perf comp payload) w).2 !! (coll, id) =
  store w !! (coll, id).
Proof.
  intros Ha Hp. unfold run_evaluation. py_open.
  repeat first [ failure_step | read_step | destruct_inner; calm_simpl ].
  all: try reflexivity.
  all: now rewrite !lookup_insert_ne by congruence.
Qed.

End Frames.

(** ** The configuration store along the pipeline *)

Lemma config_kept_same docs docs' :
  (forall id, docs' !! ("agents", id) = docs !! ("agents", id)) ->
  (forall id, docs' !! ("pointers", id) = docs !! ("pointers", id)) ->
  config_kept docs docs'.
Proof.
  intros Ha Hp. split.
  - intros id. unfold COL_AGENTS. rewrite Ha. now destruct (docs !! ("agents", id)).
  - intros fam p' Hl. left. unfold COL_ROUTER in *. now rewrite <- Hp.
Qed.

Lemma config_kept_refl docs : config_kept docs docs.
Proof. now apply config_kept_same. Qed.

Lemma config_kept_versions docs docs' :
  config_kept docs docs' -> versions_consistent docs -> versions_consistent docs'.
Proof.
  intros [Ha _] Hc id doc' Hl. specialize (Ha id). rewrite Hl in Ha.
  destruct (docs !! (COL_AGENTS, id)) as [doc |] eqn:Hd; [| contradiction].
  destruct (Hc id doc Hd) as [(E & V) | (v & L & E & V)].
  - left. split; [exact E | congruence].
  - right. exists v. repeat split; try assumption. congruence.
Qed.

Lemma config_kept_pointers docs docs' :
  config_kept docs docs' -> pointers_resolve docs -> pointers_resolve docs'.
Proof.
  intros [Ha Hp] Hr fam p' Hl.
  destruct (Hp fam p' Hl) as [Hold | Hnew]; [| exact Hnew].
  destruct (Hr fam p' Hold) as (id & doc & Href & Hdoc).
  specialize (Ha id). rewrite Hdoc in Ha.
  destruct (docs' !! (COL_AGENTS, id)) as [doc' |] eqn:Hd; [| contradiction].
  eauto.
Qed.

Lemma config_kept_pointer docs fam cand p c (v1 v2 v3 : value) :
  docs !! ("agents", cand) = Some c ->
  config_kept docs
    (<[("pointers", fam) :=
         dict_update p [("active_agent_doc_ref", VStr cand); ("current_version", v1);
                        ("last_updated", v2); ("reason", v3)]]> docs).
Proof.
  intros Hc. split.
  - intros id. rewrite lookup_insert_ne by discriminate.
    now destruct (docs !! (COL_AGENTS, id)).
  - intros fam' p'. destruct (decide (fam' = fam)) as [-> | Hne].
    + unfold COL_ROUTER. rewrite lookup_insert_eq. intros [= <-]. right.
      exists cand, c. split.
      * unfold dict_update. simpl. now rewrite !dict_get_set.
      * unfold COL_AGENTS. now rewrite lookup_insert_ne by discriminate.
    + unfold COL_ROUTER. rewrite lookup_insert_ne by congruence. auto.
Qed.

Lemma config_kept_field docs docs' id doc outer inner v :
  config_kept docs docs' ->
  docs' !! ("agents", id) = Some doc -> outer <> "version" ->
  config_kept docs (<[("agents", id) := set_field_path outer inner v doc]> docs').
Proof.
  intros [Ha Hp] Hd Hne. split.
  - intros id'. destruct (decide (id' = id)) as [-> | Hid].
    + unfold COL_AGENTS. rewrite lookup_insert_eq.
      specialize (Ha id). unfold COL_AGENTS in Ha. rewrite Hd in Ha.
      destruct (docs !! ("agents", id)); [| contradiction].
      rewrite <- Ha. unfold set_field_path. rewrite dict_get_set.
      destruct (String.eqb_spec "version" outer); [congruence | reflexivity].
    + unfold COL_AGENTS. rewrite lookup_insert_ne by congruence. apply Ha.
  - intros fam p'. unfold COL_ROUTER. rewrite lookup_insert_ne by discriminate.
    intros Hl. destruct (Hp fam p' Hl) as [Hold | (id' & doc' & Href & Hdoc)];
      [now left | right].
    destruct (decide (id' = id)) as [-> | Hid].
    + eexists id, _. split; [exact Href |]. unfold COL_AGENTS. now rewrite lookup_insert_eq.
    + exists id', doc'. split; [exact Href |].
      unfold COL_AGENTS. now rewrite lookup_insert_ne by congruence.
Qed.

Section ConfigKept.
Context `{Runtime}.

Lemma chat_endpoint_config reply request w :
  config_kept (store w) (store (chat_endpoint reply request w).2).
Proof.
  apply config_kept_same; intros id; apply chat_endpoint_frame; discriminate.
Qed.

Lemma evaluate_interaction_config reply payload w :
  config_kept (store w) (store (run (evaluate_interaction reply payload) w).2).
Proof.
  apply config_kept_same; intros id; apply evaluate_interaction_frame; discriminate.
Qed.

Lemma run_evaluation_config replay perf comp payload w :
  config_kept (store w) (store (run (run_evaluation replay perf comp payload) w).2).
Proof.
  unfold run_evaluation. py_open.
  repeat first [ failure_step | read_step | destruct_inner; calm_simpl ].
  all: try apply config_kept_refl.
  all: repeat match goal with
         | Hl : <[_ := _]> _ !! _ = _ |- _ => rewrite lookup_insert_ne in Hl by discriminate
         end.
  all: first
    [ eapply config_kept_field;
        [ eapply config_kept_pointer; eassumption
        | rewrite lookup_insert_ne by discriminate; eassumption
        | discriminate ]
    | eapply config_kept_pointer; eassumption ].
Qed.

Lemma process_feedback_config feedback_id payload w :
  config_kept (store w) (store (run (process_feedback feedback_id payload) w).2).
Proof.
  unfold process_feedback, doc_add, ref_increment. py_open.
  with_strategy opaque [py_gt_int py_lt_int set_field_path fmt] simpl.
  repeat (destruct_inner; with_strategy opaque [py_gt_int py_lt_int set_field_path fmt] simpl).
  all: try apply config_kept_refl.
  all: repeat match goal with
         | Hl : <[_ := _]> _ !! _ = _ |- _ => rewrite lookup_insert_ne in Hl by discriminate
         end.
  all: first
    [ eapply config_kept_field;
        [ apply config_kept_same; intros id; now rewrite lookup_insert_ne by discriminate
        | rewrite lookup_insert_ne by discriminate; eassumption
        | discriminate ]
    | apply config_kept_same; intros id; now rewrite lookup_insert_ne by discriminate ].
Qed.

Lemma refine_agent_pointers reply payload w :
  pointers_resolve (store w) ->
  pointers_resolve (store (run (refine_agent reply payload) w).2).
Proof.
  intros Hr fam p. unfold COL_ROUTER, COL_AGENTS.
  rewrite refine_agent_frame by discriminate. intros Hl.
  destruct (Hr fam p Hl) as (id & doc & Href & Hdoc). exists id.
  destruct (refine_agent_store reply payload w) as [(Hs & _) | (id' & data & _ & Hs)];
    cbv zeta in Hs; rewrite Hs.
  - eauto.
  - destruct (decide (id = id')) as [-> | Hne].
    + exists data. split; [exact Href |]. now rewrite lookup_insert_eq.
    + exists doc. split; [exact Href |]. now rewrite lookup_insert_ne by congruence.
Qed.

Lemma wrapper_store (f : dict -> py unit) data w :
  store (wrapper f data w).2 = store w \/
  exists payload, store (wrapper f data w).2 = store (run (f payload) w).2.
Proof.
  unfold wrapper, call, run. py_open.
  destruct (json_loads data) as [v |]; simpl; [| now left].
  destruct (as_dict v) as [e | payload]; simpl; [now left |].
  right. exists payload. destruct (f payload w) as [[[] | e |] w']; reflexivity.
Qed.

End ConfigKept.

(** ** Seeding and resetting *)

Lemma lookup_filter_collection (docs : gmap (string * string) dict) name coll id :
  filter (fun kv => kv.1.1 <> name) docs !! (coll, id) =
  if decide (coll = name) then None else docs !! (coll, id).
Proof.
  apply option_eq. intros x. rewrite map_lookup_filter_Some. simpl.
  destruct (decide (coll = name)) as [-> | Hne]; split.
  - intros [_ Hc]. contradiction.
  - discriminate.
  - tauto.
  - tauto.
Qed.

Section Seeding.
Context `{Runtime}.

Lemma perform_seed_store w :
  store (perform_seed w).2 = store w \/
  store (perform_seed w).2 =
    <[("agents", "carsalesman101") := seed_agent_data]> (store w) \/
  store (perform_seed w).2 =
    <[("pointers", "carsalesman101") := seed_pointer_data]>
      (<[("agents", "carsalesman101") := seed_agent_data]> (store w)).
Proof.
  unfold perform_seed. py_open.
  destruct (storable seed_agent_data); calm_simpl; [| now left].
  destruct (storable seed_pointer_data); calm_simpl; auto.
Qed.

Lemma seed_filed : filed_by_version "carsalesman101" seed_agent_data.
Proof. left. split; reflexivity. Qed.

Lemma perform_seed_versions w :
  versions_consistent (store w) -> versions_consistent (store (perform_seed w).2).
Proof.
  intros Hc.
  destruct (perform_seed_store w) as [-> | [-> | ->]]; [exact Hc | |].
  - apply versions_consistent_insert; [apply seed_filed | exact Hc].
  - apply versions_consistent_insert_other; [discriminate |].
    apply versions_consistent_insert; [apply seed_filed | exact Hc].
Qed.

Lemma pointers_resolve_insert_agent docs id doc :
  pointers_resolve docs -> pointers_resolve (<[("agents", id) := doc]> docs).
Proof.
  intros Hr fam p. unfold COL_ROUTER, COL_AGENTS.
  rewrite lookup_insert_ne by discriminate. intros Hl.
  destruct (Hr fam p Hl) as (id' & doc' & Href & Hdoc). exists id'.
  destruct (decide (id' = id)) as [-> | Hne].
  - exists doc. split; [exact Href |]. now rewrite lookup_insert_eq.
  - exists doc'. split; [exact Href |]. now rewrite lookup_insert_ne by congruence.
Qed.

Lemma perform_seed_pointers w :
  pointers_resolve (store w) -> pointers_resolve (store (perform_seed w).2).
Proof.
  intros Hr.
  destruct (perform_seed_store w) as [-> | [-> | ->]]; [exact Hr | |].
  - now apply pointers_resolve_insert_agent.
  - intros fam p. unfold COL_ROUTER, COL_AGENTS.
    destruct (decide (fam = "carsalesman101")) as [-> | Hne].
    + rewrite lookup_insert_eq. intros [= <-].
      exists "carsalesman101", seed_agent_data. split; [reflexivity |].
      rewrite lookup_insert_ne by discriminate. apply lookup_insert_eq.
    + rewrite lookup_insert_ne by congruence. intros Hl.
      destruct (pointers_resolve_insert_agent (store w) "carsalesman101" seed_agent_data Hr
                  fam p Hl) as (id & doc & Href & Hdoc).
      exists id, doc. split; [exact Href |].
      unfold COL_AGENTS in *. now rewrite lookup_insert_ne by discriminate.
Qed.

Lemma delete_collections_store logs_count w coll id :
  store (delete_collections logs_count COLLECTIONS_TO_DELETE 0 w).2 !! (coll, id) =
  if existsb (String.eqb coll) COLLECTIONS_TO_DELETE then None else store w !! (coll, id).
Proof.
  unfold COLLECTIONS_TO_DELETE, delete_collections, delete_collection_recursive,
    recursive_delete. py_open.
  rewrite !lookup_filter_collection.
  repeat match goal with
         | |- context [decide (coll = ?n)] => destruct (decide (coll = n)) as [-> | ?]
         end; try reflexivity.
  cbn [existsb]. now rewrite !(proj2 (String.eqb_neq _ _)) by assumption.
Qed.

Lemma delete_collections_flow logs_count w :
  exists n, (delete_collections logs_count COLLECTIONS_TO_DELETE 0 w).1 = Normal n.
Proof.
  unfold COLLECTIONS_TO_DELETE, delete_collections, delete_collection_recursive,
    recursive_delete. py_open. eauto.
Qed.

Lemma cleared_versions logs_count w :
  versions_consistent (store (delete_collections logs_count COLLECTIONS_TO_DELETE 0 w).2).
Proof.
  intros id doc. unfold COL_AGENTS. rewrite delete_collections_store. discriminate.
Qed.

Lemma cleared_pointers logs_count w :
  pointers_resolve (store (delete_collections logs_count COLLECTIONS_TO_DELETE 0 w).2).
Proof.
  intros fam p. unfold COL_ROUTER. rewrite delete_collections_store. discriminate.
Qed.

Lemma reset_database_store logs_count key w :
  store (reset_database logs_count key w).2 = store w \/
  exists w0,
    store w0 = store (delete_collections logs_count COLLECTIONS_TO_DELETE 0 w).2 /\
    store (reset_database logs_count key w).2 = store (perform_seed w0).2.
Proof.
  unfold reset_database.
  destruct (negb match key with Some k => String.eqb k "hackathon-secret" | None => false end).
  - left. reflexivity.
  - right. unfold try_except, log_event, tell, raise, mbind, py_bind, mret, py_ret, emit.
    with_strategy opaque [delete_collections perform_seed] simpl.
    destruct (delete_collections_flow logs_count
                {| store := store w;
                   trace := trace w ++
                     [Log (VStr "SYSTEM") "RESET" "Starting Full Database Reset..."
                        "WARNING" None true] |}) as (n & Hn).
    destruct (delete_collections logs_count COLLECTIONS_TO_DELETE 0 _) as [f w1] eqn:Hd.
    simpl in Hn. subst f.
    eexists w1. split.
    + apply map_eq. intros [coll id].
      change w1 with
        ((Normal n, w1).2).
      rewrite <- Hd. rewrite !delete_collections_store. reflexivity.
    + destruct (perform_seed w1) as [[[] | e |] w2]; reflexivity.
Qed.

Lemma reset_database_invariants logs_count key w :
  versions_consistent (store w) /\ pointers_resolve (store w) ->
  versions_consistent (store (reset_database logs_count key w).2) /\
  pointers_resolve (store (reset_database logs_count key w).2).
Proof.
  intros Hinv.
  destruct (reset_database_store logs_count key w) as [-> | (w0 & H0 & ->)];
    [exact Hinv |].
  split.
  - apply perform_seed_versions. rewrite H0. apply cleared_versions.
  - apply perform_seed_pointers. rewrite H0. apply cleared_pointers.
Qed.

Lemma reachable_invariants w :
  reachable w -> versions_consistent (store w) /\ pointers_resolve (store w).
Proof.
  induction 1 as [| w w' _ [Hv Hp] Hstep].
  - split; intros ? ? Hl; simpl in Hl; rewrite lookup_empty in Hl; discriminate.
  - destruct Hstep.
    + split; [now apply perform_seed_versions | now apply perform_seed_pointers].
    + apply reset_database_invariants. auto.
    + pose proof (chat_endpoint_config reply request w) as Hk.
      split; [eapply config_kept_versions | eapply config_kept_pointers]; eauto.
    + destruct (wrapper_store (evaluate_interaction reply) data w) as [-> | (p & ->)];
        [auto |].
      pose proof (evaluate_interaction_config reply p w) as Hk.
      split; [eapply config_kept_versions | eapply config_kept_pointers]; eauto.
    + destruct (wrapper_store (refine_agent reply) data w) as [-> | (p & ->)]; [auto |].
      split; [now apply refine_agent_consistent | now apply refine_agent_pointers].
    + destruct (wrapper_store (run_evaluation replay perf comp) data w) as [-> | (p & ->)];
        [auto |].
      pose proof (run_evaluation_config replay perf comp p w) as Hk.
      split; [eapply config_kept_versions | eapply config_kept_pointers]; eauto.
    + destruct (wrapper_store (process_feedback feedback_id) data w) as [-> | (p & ->)];
        [auto |].
      pose proof (process_feedback_config feedback_id p w) as Hk.
      split; [eapply config_kept_versions | eapply config_kept_pointers]; eauto.
Qed.

End Seeding.

(** ** The configuration lookup and the chat log *)

Lemma array_union_extends (arr new : list value) :
  exists added, array_union arr new = (arr ++ added)%list /\ incl added new.
Proof.
  revert arr. induction new as [| x new IH]; intros arr; simpl.
  - exists []. split; [now rewrite app_nil_r | apply incl_refl].
  - destruct (existsb (value_eqb x) arr).
    + destruct (IH arr) as (added & -> & Hi). exists added. split; [reflexivity |].
      now apply incl_tl.
    + destruct (IH (arr ++ [x])%list) as (added & -> & Hi). exists (x :: added).
      split; [now rewrite <- app_assoc |].
      intros y [<- | Hy]; [now left | right; auto].
Qed.

Lemma array_union_adds (arr new : list value) :
  exists added,
    array_union arr new = (arr ++ added)%list /\ incl added new /\
    (length added <= length new)%nat.
Proof.
  revert arr. induction new as [| x new IH]; intros arr; simpl.
  - exists []. split; [now rewrite app_nil_r |]. split; [apply incl_refl | simpl; lia].
  - destruct (existsb (value_eqb x) arr).
    + destruct (IH arr) as (added & -> & Hi & Hl). exists added.
      split; [reflexivity |]. split; [now apply incl_tl | lia].
    + destruct (IH (arr ++ [x])%list) as (added & -> & Hi & Hl). exists (x :: added).
      split; [now rewrite <- app_assoc |]. split; [| simpl; lia].
      intros y [<- | Hy]; [now left | right; auto].
Qed.

Section CoreAccessors.
Context `{Runtime}.

(** X1. [get_current_agent_config] only reads: the world is returned as
    it was. It returns a document exactly when the pointer of the agent
    exists, its [active_agent_doc_ref] is a string and the agent document
    of that name exists; the document returned is that one. Otherwise it
    raises: [ValueError] when there is no pointer, and when the reference
    is [None] or names no agent document; [KeyError] when the pointer has
    no [active_agent_doc_ref]; [TypeError] when the reference is neither
    a string nor [None]. *)
Theorem config_lookup_outcomes (agent_id : string) (w : world) :
  (get_current_agent_config (VStr agent_id) w).2 = w /\
  (forall doc,
     (get_current_agent_config (VStr agent_id) w).1 = Normal doc <->
     exists pointer ref,
       store w !! ("pointers", agent_id) = Some pointer /\
       dict_get "active_agent_doc_ref" pointer = Some (VStr ref) /\
       store w !! ("agents", ref) = Some doc) /\
  (store w !! ("pointers", agent_id) = None ->
     (get_current_agent_config (VStr agent_id) w).1 = Raised ValueError) /\
  (forall pointer,
     store w !! ("pointers", agent_id) = Some pointer ->
     (dict_get "active_agent_doc_ref" pointer = None ->
        (get_current_agent_config (VStr agent_id) w).1 = Raised KeyError) /\
     (forall ref,
        dict_get "active_agent_doc_ref" pointer = Some ref ->
        match ref with
        | VStr id =>
            store w !! ("agents", id) = None ->
            (get_current_agent_config (VStr agent_id) w).1 = Raised ValueError
        | VNone => (get_current_agent_config (VStr agent_id) w).1 = Raised ValueError
        | _ => (get_current_agent_config (VStr agent_id) w).1 = Raised TypeError
        end)) /\
  (forall e,
     (get_current_agent_config (VStr agent_id) w).1 = Raised e ->
     e = ValueError \/ e = KeyError \/ e = TypeError) /\
  (get_current_agent_config (VStr agent_id) w).1 <> Returned.
Proof.
  unfold get_current_agent_config, COL_ROUTER, COL_AGENTS. py_unfold.
  destruct (store w !! ("pointers", agent_id)) as [pointer |] eqn:Hp; simpl.
  2: { split; [reflexivity |].
       split; [split; [discriminate | intros (? & ? & ? & _); discriminate] |].
       split; [reflexivity |]. split; [discriminate |].
       split; [intros e [= <-]; auto | discriminate]. }
  destruct (dict_get "active_agent_doc_ref" pointer) as [ref |] eqn:Hr; simpl.
  2: { split; [reflexivity |].
       split; [split; [discriminate | intros (? & ? & [= <-] & ? & _); congruence] |].
       split; [discriminate |].
       split; [intros ? [= <-]; split; [reflexivity | intros ? ?; congruence] |].
       split; [intros e [= <-]; auto | discriminate]. }
  destruct ref as [| | | | ref | | |]; simpl.
  5: destruct (store w !! ("agents", ref)) as [doc |] eqn:Hd; simpl.
  all: split; [reflexivity |].
  all: split;
    [ split;
      [ try discriminate; intros [= <-]; eauto
      | intros (? & ? & [= <-] & ? & ?); congruence ] |].
  all: split; [discriminate |].
  all: split;
    [ intros ? [= <-]; split;
      [ congruence | intros ? E; rewrite Hr in E; injection E as <-; try reflexivity ] |].
  all: try (intros; first [reflexivity | congruence]).
  all: split; [intros e [= <-]; auto | discriminate].
Qed.

Lemma save_chat_log_merged cid aid version user_msg bot_msg m w :
  (storable (chat_log_data aid version user_msg bot_msg m) = false /\
   save_chat_log cid aid version user_msg bot_msg m w = (Raised ValueError, w)) \/
  exists merged,
    storable (chat_log_data aid version user_msg bot_msg m) = true /\
    save_chat_log cid aid version user_msg bot_msg m w =
      (Normal tt,
       {| store := <[("chats", cid) := merged]> (store w);
          trace := trace w ++
            [DbWrite OpSetMerge "chats" cid
               (chat_log_data aid version user_msg bot_msg m)] |}) /\
    merged =
      (let old := default [] (store w !! ("chats", cid)) in
       dict_set "history"
         (VList (array_union
                   match dict_get "history" old with Some (VList h) => h | _ => [] end
                   (new_turns user_msg bot_msg m)))
         (dict_set "metadata"
            (VDict (dict_update
                      match dict_get "metadata" old with Some (VDict md) => md | _ => [] end
                      [("agent_id", VStr aid); ("version", VStr version);
                       ("last_active", VFloat clock)]))
            old)).
Proof.
  unfold save_chat_log, chat_log_data, new_turns. py_unfold.
  match goal with |- context [storable ?d] => destruct (storable d) end;
    [right | left; split; reflexivity].
  eexists. repeat split; reflexivity.
Qed.

Lemma new_turns_of_exchange user_msg bot_msg m turn :
  In turn (new_turns user_msg bot_msg m) -> turn_of_exchange user_msg bot_msg m turn.
Proof.
  intros [<- | [<- | []]]; exists clock; [left | right]; reflexivity.
Qed.

(** X2. [save_chat_log] is either refused by the store, and then it
    raises and leaves the world as it was, or it writes the chat document
    and nothing else. The document written keeps every field other than
    [metadata] and [history], the audit result among them. The history
    that was there stays, in order, and what is added after it are at
    most two turns, each a turn of this exchange (a turn equal to one
    already there is not added again). The metadata names the agent and
    the version, carries a time of last activity, and keeps the entries
    it had under other names. *)
Theorem chat_log_merge (cid aid version user_msg bot_msg : string) (m : dict) (w : world) :
  let r := save_chat_log cid aid version user_msg bot_msg m w in
  let old := default [] (store w !! ("chats", cid)) in
  r = (Raised ValueError, w) \/
  (r.1 = Normal tt /\
   exists merged,
     store r.2 = <[("chats", cid) := merged]> (store w) /\
     (forall k, k <> "metadata" -> k <> "history" -> dict_get k merged = dict_get k old) /\
     (exists added,
        dict_get "history" merged =
          Some (VList (match dict_get "history" old with Some (VList h) => h | _ => [] end
                       ++ added)%list) /\
        Forall (turn_of_exchange user_msg bot_msg m) added /\
        (length added <= 2)%nat) /\
     (exists md t,
        dict_get "metadata" merged = Some (VDict md) /\
        dict_get "agent_id" md = Some (VStr aid) /\
        dict_get "version" md = Some (VStr version) /\
        dict_get "last_active" md = Some (VFloat t) /\
        forall old_md k,
          dict_get "metadata" old = Some (VDict old_md) ->
          k <> "agent_id" -> k <> "version" -> k <> "last_active" ->
          dict_get k md = dict_get k old_md)).
Proof.
  intros r old. subst r.
  destruct (save_chat_log_merged cid aid version user_msg bot_msg m w)
    as [(_ & ->) | (merged & _ & -> & Hm)]; [left; reflexivity | right].
  split; [reflexivity |].
  cbv zeta in Hm. fold old in Hm.
  exists merged. split; [reflexivity |]. split; [| split].
  - intros k Hk1 Hk2. rewrite Hm, !dict_get_set.
    destruct (String.eqb_spec k "history"); [contradiction |].
    destruct (String.eqb_spec k "metadata"); [contradiction | reflexivity].
  - destruct (array_union_adds
                match dict_get "history" old with Some (VList h) => h | _ => [] end
                (new_turns user_msg bot_msg m)) as (added & Ha & Hi & Hl).
    exists added. split; [| split; [| exact Hl]].
    + rewrite Hm, dict_get_set, String.eqb_refl. now rewrite Ha.
    + apply List.Forall_forall. intros turn Hin. apply new_turns_of_exchange. now apply Hi.
  - eexists _, clock. split; [rewrite Hm, !dict_get_set; reflexivity |].
    unfold dict_update. simpl. rewrite !dict_get_set. simpl.
    repeat split.
    intros old_md k Hmd Hk1 Hk2 Hk3. rewrite Hmd, !dict_get_set.
    destruct (String.eqb_spec k "last_active"); [contradiction |].
    destruct (String.eqb_spec k "version"); [contradiction |].
    destruct (String.eqb_spec k "agent_id"); [contradiction | reflexivity].
Qed.

End CoreAccessors.

(** ** A Gateway turn *)

Ltac read_merged :=
  match goal with
  | |- context [get_current_agent_config ?i ?w0] =>
      lazymatch w0 with
      | {| store := _; trace := [] |} => fail
      | _ => rewrite (get_current_agent_config_read i w0); calm_simpl
      end
  | |- context [build_system_prompt ?c ?w0] =>
      lazymatch w0 with
      | {| store := _; trace := [] |} => fail
      | _ => rewrite (build_system_prompt_read c w0); calm_simpl
      end
  | |- context [should_trigger_audit ?c ?w0] =>
      lazymatch w0 with
      | {| store := _; trace := [] |} => fail
      | _ => rewrite (should_trigger_audit_read c w0); calm_simpl
      end
  | |- context [save_chat_log ?a ?b ?c ?d ?e ?m ?w0] =>
      let merged := fresh "merged" in
      let E := fresh "E" in let Hm := fresh "Hm" in
      let Hst := fresh "Hst" in
      destruct (save_chat_log_merged a b c d e m w0)
        as [(Hst & E) | (merged & Hst & E & Hm)];
      rewrite E; clear E; calm_simpl
  end.

Section GatewayAnswers.
Context `{Runtime}.

(** X3. A Gateway turn ends in one of two ways: it returns an answer, or
    it raises [HTTPException] with status 500, and then it has enqueued
    no audit job. Either way the only document of the store it may have
    changed is the chat document of the request. *)
Theorem chat_turn_outcome (reply : option llm_result) (request : ChatRequest) (w : world) :
  ((exists resp, (chat_endpoint reply request w).1 = Normal resp) \/
   ((chat_endpoint reply request w).1 = Raised (HTTPException 500) /\
    forall topic p,
      ~ In (BackgroundTask topic p) (new_events w (chat_endpoint reply request w).2))) /\
  (forall k, k <> ("chats", chat_id request) ->
     store (chat_endpoint reply request w).2 !! k = store w !! k).
Proof.
  split; [apply chat_endpoint_outcome |].
  intros k Hk. now apply chat_endpoint_frame.
Qed.

(** X4. A Gateway turn that returns an answer has resolved the active
    configuration of the agent and has got a reply from the model. The
    answer carries the text of the reply, the version tag ["v"] followed
    by the version of the configuration (1 when it has none), and the
    latency and cost of the call. The store is then what [save_chat_log]
    makes of it for this exchange and this version tag. *)
Theorem chat_turn_answer (reply : option llm_result) (request : ChatRequest) (w : world)
    (resp : dict) :
  (chat_endpoint reply request w).1 = Normal resp ->
  exists cfg r,
    (get_current_agent_config (VStr (agent_id request)) w).1 = Normal cfg /\
    reply = Some r /\
    let version := ("v" ++ fmt (dict_get_default "version" (VInt 1) cfg))%string in
    resp = [("response", VStr (text r));
            ("meta", VDict [("agent_version", VStr version);
                            ("latency_ms", VFloat (latency_ms (metrics r)));
                            ("cost", VFloat (estimated_cost (metrics r)))])] /\
    store (chat_endpoint reply request w).2 =
      store (save_chat_log (chat_id request) (agent_id request) version
               (user_message request) (text r) (metrics_dict (metrics r)) w).2.
Proof.
  remember (get_current_agent_config (VStr (agent_id request)) w).1 as cfg_flow eqn:Hcfg.
  remember (fun version r =>
              store (save_chat_log (chat_id request) (agent_id request) version
                       (user_message request) (text r) (metrics_dict (metrics r)) w).2)
    as saved eqn:Hsaved.
  assert (Hgoal :
    (chat_endpoint reply request w).1 = Normal resp ->
    exists cfg r,
      cfg_flow = Normal cfg /\ reply = Some r /\
      resp = [("response", VStr (text r));
              ("meta",
               VDict [("agent_version",
                       VStr ("v" ++ fmt (dict_get_default "version" (VInt 1) cfg)));
                      ("latency_ms", VFloat (latency_ms (metrics r)));
                      ("cost", VFloat (estimated_cost (metrics r)))])] /\
      store (chat_endpoint reply request w).2 =
        saved ("v" ++ fmt (dict_get_default "version" (VInt 1) cfg))%string r).
  { rewrite get_current_agent_config_read in Hcfg. cbn [fst] in Hcfg.
    unfold chat_endpoint.
    unfold log_event, tell, raise, return_, lift, lift_opt, try_except,
      mbind, py_bind, mret, py_ret, emit. calm_simpl.
    repeat first [ read_merged | destruct_inner; calm_simpl ].
    all: try discriminate.
    all: intros [= <-].
    all: eexists _, _; (split; [exact Hcfg |]); (split; [reflexivity |]);
      (split; [reflexivity |]).
    all: subst saved;
      match goal with
      | |- _ = store (save_chat_log ?a ?b ?c ?d ?e ?m ?w0).2 =>
          let merged := fresh "merged" in
          let E := fresh "E" in let Hm' := fresh "Hm" in
          let Hst' := fresh "Hst" in
          destruct (save_chat_log_merged a b c d e m w0)
            as [(Hst' & E) | (merged & Hst' & E & Hm')];
          [congruence | rewrite E; simpl in *; congruence]
      end. }
  intros Hresp. destruct (Hgoal Hresp) as (cfg & r & Hc & Hr & Hresp' & Hs).
  exists cfg, r. subst saved. auto.
Qed.

End GatewayAnswers.

(** ** Seeding and resetting the database *)

Lemma perform_seed_accepted `{Runtime} w :
  storable seed_agent_data = true -> storable seed_pointer_data = true ->
  perform_seed w =
  (Normal tt,
   {| store :=
        <[("pointers", "carsalesman101") := seed_pointer_data]>
          (<[("agents", "carsalesman101") := seed_agent_data]> (store w));
      trace := trace w ++
        [DbWrite OpSet "agents" "carsalesman101" seed_agent_data;
         DbWrite OpSet "pointers" "carsalesman101" seed_pointer_data] |}).
Proof.
  intros Ha Hp. unfold perform_seed. py_open. rewrite Ha. calm_simpl. rewrite Hp.
  calm_simpl. now rewrite <- app_assoc.
Qed.

Lemma seeded_config_read `{Runtime} docs w :
  store w =
    <[("pointers", "carsalesman101") := seed_pointer_data]>
      (<[("agents", "carsalesman101") := seed_agent_data]> docs) ->
  get_current_agent_config (VStr "carsalesman101") w = (Normal seed_agent_data, w).
Proof.
  intros Hs. rewrite get_current_agent_config_read. f_equal.
  unfold get_current_agent_config, COL_ROUTER, COL_AGENTS. py_open. rewrite Hs.
  rewrite lookup_insert_eq. calm_simpl.
  rewrite lookup_insert_ne by discriminate. rewrite lookup_insert_eq. reflexivity.
Qed.

(** Two writes of the seed documents, one after the other: the later
    one decides. *)
Lemma seed_overwrites (docs : gmap (string * string) dict) (a p a' p' : dict) :
  <[("pointers", "carsalesman101") := p']>
    (<[("agents", "carsalesman101") := a']>
       (<[("pointers", "carsalesman101") := p]>
          (<[("agents", "carsalesman101") := a]> docs))) =
  <[("pointers", "carsalesman101") := p']>
    (<[("agents", "carsalesman101") := a']> docs).
Proof.
  apply map_eq. intros k.
  destruct (decide (k = ("pointers", "carsalesman101"))) as [-> | Hk1].
  { now rewrite !lookup_insert_eq. }
  rewrite !(lookup_insert_ne _ ("pointers", "carsalesman101")) by congruence.
  destruct (decide (k = ("agents", "carsalesman101"))) as [-> | Hk2].
  { now rewrite !lookup_insert_eq. }
  rewrite !(lookup_insert_ne _ ("agents", "carsalesman101")) by congruence.
  now rewrite !lookup_insert_ne by congruence.
Qed.

Lemma delete_collections_events `{Runtime} logs_count w :
  exists n1 n2 n3 n4,
    delete_collections logs_count COLLECTIONS_TO_DELETE 0 w =
      (Normal (n1 + n2 + n3 + n4),
       {| store := store (delete_collections logs_count COLLECTIONS_TO_DELETE 0 w).2;
          trace := trace w ++
            [DbDelete "chats" n1; DbDelete "logs" n2;
             DbDelete "agents" n3; DbDelete "pointers" n4] |}).
Proof.
  unfold COLLECTIONS_TO_DELETE, delete_collections, delete_collection_recursive,
    recursive_delete. py_open. rewrite <- !app_assoc. cbn [app].
  eexists _, _, _, _. apply pair_equal_spec. split; cycle 1.
  { reflexivity. }
  now rewrite Z.add_0_l.
Qed.

Section SeedAndReset.
Context {rt : Runtime}.

(** X5. When the store accepts the two seed documents, [perform_seed]
    leaves a store in which the pointer of [carsalesman101] resolves to
    the seed configuration, whose version is 1, whatever the pointer
    named before. It writes the seed agent document first and the
    pointer second and touches no other document. A seeding at another
    time overwrites both documents: the store is then the one a single
    seeding at that time leaves, and the documents of the two seedings
    differ at most in [created_at] and [last_updated]. *)
Theorem seed_resolves (w : world) :
  storable seed_agent_data = true -> storable seed_pointer_data = true ->
  let w' := (perform_seed w).2 in
  get_current_agent_config (VStr "carsalesman101") w' = (Normal seed_agent_data, w') /\
  dict_get "version" seed_agent_data = Some (VInt 1) /\
  new_events w w' =
    [DbWrite OpSet "agents" "carsalesman101" seed_agent_data;
     DbWrite OpSet "pointers" "carsalesman101" seed_pointer_data] /\
  (forall k,
     k <> ("agents", "carsalesman101") -> k <> ("pointers", "carsalesman101") ->
     store w' !! k = store w !! k) /\
  (forall t,
     @storable rt (@seed_agent_data (at_time t rt)) = true ->
     @storable rt (@seed_pointer_data (at_time t rt)) = true ->
     store (@perform_seed (at_time t rt) w').2 = store (@perform_seed (at_time t rt) w).2 /\
     (forall k, k <> "created_at" ->
        dict_get k (@seed_agent_data (at_time t rt)) = dict_get k (@seed_agent_data rt)) /\
     (forall k, k <> "last_updated" ->
        dict_get k (@seed_pointer_data (at_time t rt)) =
        dict_get k (@seed_pointer_data rt))).
Proof.
  intros Ha Hp w'. subst w'. rewrite (perform_seed_accepted w Ha Hp). cbn [snd].
  split; [now eapply seeded_config_read |]. split; [reflexivity |].
  split; [apply new_events_app |]. split.
  - intros k Hk1 Hk2. cbn [store]. now rewrite !lookup_insert_ne by congruence.
  - intros t Ha' Hp'.
    rewrite !(@perform_seed_accepted (at_time t rt) _ Ha' Hp'). cbn [snd store].
    split; [apply seed_overwrites |]. split.
    + intros k Hk. unfold seed_agent_data. cbn [dict_get].
      destruct (String.eqb_spec k "created_at") as [-> | _]; [contradiction |].
      reflexivity.
    + intros k Hk. unfold seed_pointer_data. cbn [dict_get].
      destruct (String.eqb_spec k "last_updated") as [-> | _]; [contradiction |].
      reflexivity.
Qed.

(** X9. [seed_database] of the seeder script never lets an exception
    escape, and it leaves the store that [perform_seed] of the Gateway
    leaves. *)
Theorem seed_database_store (w : world) :
  (seed_database w).1 = Normal tt /\
  store (seed_database w).2 = store (perform_seed w).2.
Proof.
  unfold seed_database, perform_seed. py_open.
  destruct (storable seed_agent_data); calm_simpl; [| split; reflexivity].
  destruct (storable seed_pointer_data); calm_simpl; split; reflexivity.
Qed.

(** X6. [reset_database] without the admin key, or with a wrong one,
    raises [HTTPException] with status 403, logs the attempt and leaves
    the store as it was. With the key, and when the store accepts the
    seed documents, it answers with a success message that carries the
    number of documents deleted. What it does is, in this order: the
    four collections are deleted, the two seed documents are written,
    and the line [Reset Complete] is logged, so the [logs] collection is
    cleared but holds this last log document afterwards. The collections
    [chats], [agents] and [pointers] then hold the two seed documents
    and nothing else, the documents of the collections that are not
    deleted are as before, and the pointer of [carsalesman101] resolves
    to the seed configuration. *)
Theorem reset_outcome (logs_count : Z) (key : option string) (w : world) :
  let w' := (reset_database logs_count key w).2 in
  (key <> Some "hackathon-secret" ->
   (reset_database logs_count key w).1 = Raised (HTTPException 403) /\
   store w' = store w /\
   new_events w w' =
     [Log (VStr "SYSTEM") "RESET" "Unauthorized reset attempt denied" "WARNING" None true]) /\
  (key = Some "hackathon-secret" ->
   storable seed_agent_data = true -> storable seed_pointer_data = true ->
   (exists n1 n2 n3 n4,
      (reset_database logs_count key w).1 =
        Normal [("status", VStr "success");
                ("message", VStr "Database reset and seeded successfully.");
                ("docs_deleted", VInt (n1 + n2 + n3 + n4))] /\
      new_events w w' =
        [Log (VStr "SYSTEM") "RESET" "Starting Full Database Reset..." "WARNING" None true;
         DbDelete "chats" n1; DbDelete "logs" n2;
         DbDelete "agents" n3; DbDelete "pointers" n4;
         DbWrite OpSet "agents" "carsalesman101" seed_agent_data;
         DbWrite OpSet "pointers" "carsalesman101" seed_pointer_data;
         Log (VStr "SYSTEM") "RESET"
           ("Reset Complete. Deleted " ++ pretty (n1 + n2 + n3 + n4)
              ++ " docs and re-seeded.")%string
           "SUCCESS" None true]) /\
   (forall coll id,
      coll <> "logs" ->
      store w' !! (coll, id) =
        if decide ((coll, id) = ("pointers", "carsalesman101")) then Some seed_pointer_data
        else if decide ((coll, id) = ("agents", "carsalesman101")) then Some seed_agent_data
        else if existsb (String.eqb coll) ["chats"; "agents"; "pointers"] then None
        else store w !! (coll, id)) /\
   get_current_agent_config (VStr "carsalesman101") w' = (Normal seed_agent_data, w')).
Proof.
  intros w'. subst w'. split.
  - intros Hkey. unfold reset_database.
    assert (Hk : match key with
                 | Some k => String.eqb k "hackathon-secret"
                 | None => false
                 end = false).
    { destruct key as [k |]; [| reflexivity].
      destruct (String.eqb_spec k "hackathon-secret"); [congruence | reflexivity]. }
    rewrite Hk. py_open. rewrite new_events_app. auto.
  - intros -> Ha Hp. unfold reset_database. cbn [String.eqb Ascii.eqb Bool.eqb negb].
    change (negb ("hackathon-secret" =? "hackathon-secret")%string) with false. cbv iota.
    unfold try_except, log_event, tell, raise, mbind, py_bind, mret, py_ret, emit.
    with_strategy opaque [delete_collections perform_seed] simpl.
    pose proof (delete_collections_store logs_count
                  {| store := store w;
                     trace := trace w ++
                       [Log (VStr "SYSTEM") "RESET" "Starting Full Database Reset..."
                          "WARNING" None true] |}) as Hcleared.
    destruct (delete_collections_events logs_count
                {| store := store w;
                   trace := trace w ++
                     [Log (VStr "SYSTEM") "RESET" "Starting Full Database Reset..."
                        "WARNING" None true] |}) as (n1 & n2 & n3 & n4 & Hd).
    rewrite Hd in Hcleared |- *. cbn [fst snd store trace] in Hcleared |- *.
    rewrite (perform_seed_accepted _ Ha Hp).
    with_strategy opaque [delete_collections perform_seed] simpl.
    split; [| split].
    + exists n1, n2, n3, n4. split; [reflexivity |].
      rewrite <- !app_assoc. cbn [app]. apply new_events_app.
    + intros coll id Hlogs.
      destruct (decide ((coll, id) = ("pointers", "carsalesman101"))) as [-> | Hk1].
      { now rewrite lookup_insert_eq. }
      rewrite lookup_insert_ne by congruence.
      destruct (decide ((coll, id) = ("agents", "carsalesman101"))) as [-> | Hk2].
      { now rewrite lookup_insert_eq. }
      rewrite lookup_insert_ne by congruence. rewrite Hcleared.
      unfold COLLECTIONS_TO_DELETE. cbn [existsb].
      now rewrite (proj2 (String.eqb_neq coll "logs")) by assumption.
    + now eapply seeded_config_read.
Qed.

End SeedAndReset.

(** ** The Auditor *)

Lemma is_str_true (lit : string) (v : value) : is_str lit v = true -> v = VStr lit.
Proof.
  destruct v; simpl; try discriminate. intros E. apply String.eqb_eq in E. now subst.
Qed.

Section AuditorEffects.
Context `{Runtime}.

Lemma evaluate_interaction_chat reply payload w k :
  (forall cid, dict_get_default "chat_id" VNone payload = VStr cid -> k <> ("chats", cid)) ->
  store (run (evaluate_interaction reply payload) w).2 !! k = store w !! k.
Proof.
  intros Hk. unfold evaluate_interaction. py_open. py_cases.
  all: try reflexivity.
  all: rewrite lookup_insert_ne; [reflexivity | intros <-; eapply Hk; eauto].
Qed.

(** X7. A run of the Auditor never lets an exception escape, and the
    only document of the store it may change is the chat document named
    by the job. *)
Theorem auditor_effects (reply : option llm_result) (payload : dict) (w : world) :
  (run (evaluate_interaction reply payload) w).1 = None /\
  (forall k,
     (forall cid, dict_get_default "chat_id" VNone payload = VStr cid ->
                  k <> ("chats", cid)) ->
     store (run (evaluate_interaction reply payload) w).2 !! k = store w !! k).
Proof.
  split; [apply evaluate_interaction_returns | apply evaluate_interaction_chat].
Qed.

Lemma evaluate_interaction_escalates reply payload w topic p :
  In (Publish topic p) (new_events w (run (evaluate_interaction reply payload) w).2) ->
  exists cid chat_data reason priority,
    dict_get_default "chat_id" VNone payload = VStr cid /\
    store w !! ("chats", cid) = Some chat_data /\
    store (run (evaluate_interaction reply payload) w).2 =
      <[("chats", cid) :=
          dict_update chat_data
            [("audit_result",
              VDict [("verdict", VStr "FAIL"); ("reason", reason);
                     ("priority", priority); ("timestamp", VTime clock)])]]> (store w).
Proof.
  unfold evaluate_interaction. py_open. py_cases.
  all: rewrite <- ?app_assoc; rewrite ?new_events_app; intros HIn; split_in HIn.
  all: repeat match goal with
         | Hf : is_str "FAIL" ?v = true |- _ => apply is_str_true in Hf; rewrite ?Hf
         end.
  all: eexists _, _, _, _; split; [reflexivity |]; split; [eassumption |]; reflexivity.
Qed.

(** X8. Escalation implies suppression. When a run of the Auditor
    publishes a RefineJob, the chat named by the job has, in the store
    the run leaves, an audit result whose verdict is FAIL. So
    [should_trigger_audit] answers False for this chat, and a Gateway
    turn on it enqueues no audit job. *)
Theorem escalation_suppresses_audits (reply : option llm_result) (payload : dict)
    (w : world) (topic : string) (p : dict) :
  let w' := (run (evaluate_interaction reply payload) w).2 in
  In (Publish topic p) (new_events w w') ->
  exists cid,
    dict_get_default "chat_id" VNone payload = VStr cid /\
    stored_verdict "FAIL" w' cid /\
    should_trigger_audit cid w' = (Normal false, w') /\
    forall reply' request,
      chat_id request = cid ->
      forall topic' p',
        ~ In (BackgroundTask topic' p') (new_events w' (chat_endpoint reply' request w').2).
Proof.
  intros w' HIn. subst w'.
  destruct (evaluate_interaction_escalates _ _ _ _ _ HIn)
    as (cid & chat_data & reason & priority & Hcid & Hchat & Hstore).
  exists cid. split; [exact Hcid |].
  assert (Hfail : stored_verdict "FAIL" (run (evaluate_interaction reply payload) w).2 cid).
  { eexists _, _, "FAIL". unfold COL_CHATS. rewrite Hstore, lookup_insert_eq.
    split; [reflexivity |]. unfold dict_update. cbn [fold_left fst snd].
    rewrite dict_get_set. cbn. auto. }
  split; [exact Hfail |]. split; [now apply should_trigger_audit_false |].
  intros reply' request <- topic' p' Hin.
  apply chat_endpoint_enqueues_only_if in Hin.
  apply should_trigger_audit_false in Hfail. rewrite Hfail in Hin. discriminate.
Qed.

(** X10. When the chat named by an audit job is not in the store, the
    Auditor gives up at once: it changes nothing in the store, does
    nothing but log, and the answer of the judge plays no part. *)
Theorem audit_of_missing_chat (reply : option llm_result) (payload : dict) (w : world)
    (cid : string) :
  dict_get_default "chat_id" VNone payload = VStr cid ->
  store w !! ("chats", cid) = None ->
  let w' := (run (evaluate_interaction reply payload) w).2 in
  store w' = store w /\
  Forall quiet (new_events w w') /\
  In (Log (VStr cid) "AUDITOR" "Chat not found in DB. Skipping." "ERROR" None true)
     (new_events w w') /\
  run (evaluate_interaction reply payload) w = run (evaluate_interaction None payload) w.
Proof.
  intros Hcid Hchat. unfold evaluate_interaction. rewrite Hcid. py_open. rewrite Hchat.
  calm_simpl. rewrite <- !app_assoc. rewrite new_events_app.
  split; [reflexivity |]. split; [repeat constructor |]. split; [| reflexivity].
  simpl. rewrite orb_true_r. auto 10.
Qed.

End AuditorEffects.

(** ** The Refiner and the Evaluator *)

Section RefinerEffects.
Context `{Runtime}.

(** X11. A RefineJob below the depth bound, for an agent document that
    has a prompt and metadata, with a model output that parses and
    updates the prompt, is carried out: the run ends without an
    exception, the candidate is stored under [<family>_v<version>] as a
    TEST_CANDIDATE, and an EvaluateJob for it is published that names
    the family and carries the depth of the RefineJob unchanged. *)
Theorem refinement_carried_out (w : world) (payload : dict) (a : string)
    (parent meta prompt prompt' : dict) (r : llm_result) (cfg newv : value) :
  py_ge_int (dict_get_default "refinement_depth" (VInt 0) payload) 2 = Some false ->
  dict_get_default "agent_id" VNone payload = VStr a ->
  store w !! ("agents", a) = Some parent ->
  dict_get "prompt" parent = Some (VDict prompt) ->
  json_ok (VDict [("persona", dict_get_default "persona" VNone prompt);
                  ("style_guide", dict_get_default "style_guide" VNone prompt);
                  ("objectives", dict_get_default "objectives" VNone prompt);
                  ("operational_guidelines",
                    dict_get_default "operational_guidelines" VNone prompt)]) = true ->
  json_loads (refiner_clean (text r)) = Some cfg ->
  py_add1 (dict_get_default "version" (VInt 1) parent) = Some newv ->
  dict_get "metadata" parent = Some (VDict meta) ->
  py_dict_update prompt cfg = inr (prompt', false) ->
  storable (candidate_of payload a parent meta prompt' newv) = true ->
  json_ok (VDict (evaluate_job_of payload a newv)) = true ->
  let w' := (run (refine_agent (Some r) payload) w).2 in
  let candidate := candidate_of payload a parent meta prompt' newv in
  let job := evaluate_job_of payload a newv in
  (run (refine_agent (Some r) payload) w).1 = None /\
  store w' = <[("agents", candidate_id a newv) := candidate]> (store w) /\
  In (DbWrite OpSet "agents" (candidate_id a newv) candidate) (new_events w w') /\
  In (Publish TOPIC_EVALUATE job) (new_events w w') /\
  (exists md, dict_get "metadata" candidate = Some (VDict md) /\
              dict_get "deployment_state" md = Some (VStr "TEST_CANDIDATE")) /\
  dict_get "target_agent_id" job = Some (VStr (candidate_id a newv)) /\
  dict_get "original_agent_id" job = Some (VStr (family a)) /\
  dict_get "refinement_depth" job =
    Some (dict_get_default "refinement_depth" (VInt 0) payload).
Proof.
  intros Hdepth Hagent Hparent Hprompt Hmutable Hparse Hversion Hmeta Hupdate Hstorable
    Hjob w' candidate job.
  destruct (refine_agent_success w payload a parent meta prompt prompt' r cfg newv
              Hdepth Hagent Hparent Hprompt Hmutable Hparse Hversion Hmeta Hupdate
              Hstorable Hjob) as (Hstore & Hwrite & Hpub).
  split.
  { destruct ((run (refine_agent (Some r) payload) w).1) as [e |] eqn:He; [| reflexivity].
    destruct (refine_agent_escapes _ _ _ _ He) as (_ & Hnone & _). congruence. }
  split; [exact Hstore |]. split; [exact Hwrite |]. split; [exact Hpub |].
  split.
  { subst candidate. unfold candidate_of. eexists. split.
    - rewrite dict_get_set. change ("metadata" =? "prompt")%string with false. cbv iota.
      rewrite dict_get_set. change ("metadata" =? "metadata")%string with true. reflexivity.
    - rewrite dict_get_set. reflexivity. }
  subst job. unfold evaluate_job_of. split; [reflexivity |]. split; reflexivity.
Qed.

(** X12. Whatever the job and the answer of the model, a run of the
    Refiner lets an exception escape only when the depth of the job
    cannot be compared with 2, and then it has changed nothing. It
    changes the store by writing one candidate document, or not at all.
    Every message it publishes is an EvaluateJob for a candidate it has
    written in the same run. It changes no document outside the [agents]
    collection. *)
Theorem refiner_effects (reply : option llm_result) (payload : dict) (w : world) :
  let w' := (run (refine_agent reply payload) w).2 in
  (forall e,
     (run (refine_agent reply payload) w).1 = Some e ->
     e = TypeError /\
     py_ge_int (dict_get_default "refinement_depth" (VInt 0) payload) 2 = None /\
     store w' = store w /\ Forall quiet (new_events w w')) /\
  ((store w' = store w /\
    forall op coll id data, ~ In (DbWrite op coll id data) (new_events w w')) \/
   (exists id data,
      In (DbWrite OpSet "agents" id data) (new_events w w') /\
      store w' = <[("agents", id) := data]> (store w))) /\
  (forall topic p,
     In (Publish topic p) (new_events w w') ->
     topic = TOPIC_EVALUATE /\
     exists id data,
       In (DbWrite OpSet "agents" id data) (new_events w w') /\
       dict_get "target_agent_id" p = Some (VStr id) /\
       dict_get "version" p = dict_get "version" data) /\
  (forall coll id, coll <> "agents" -> store w' !! (coll, id) = store w !! (coll, id)).
Proof.
  intros w'. subst w'. split; [apply refine_agent_escapes |].
  split; [apply refine_agent_store |]. split.
  - intros topic p HIn.
    destruct (refine_agent_publishes _ _ _ _ _ HIn)
      as (id & base & data & version & Hw & -> & Hv & ->).
    split; [reflexivity |]. exists id, data. split; [exact Hw |]. split; [reflexivity |].
    now rewrite Hv.
  - intros coll id Hne. now apply refine_agent_frame.
Qed.

End RefinerEffects.

Section EvaluatorEffects.
Context `{Runtime}.

(** X13. Whatever the job and the answers of the model, a run of the
    Evaluator never lets an exception escape. It creates and deletes no
    agent document and changes the version of none; every pointer is
    afterwards as before or names an agent document that exists; and no
    document outside the [agents] and [pointers] collections is
    changed. *)
Theorem evaluator_effects (replay perf comp : option llm_result) (payload : dict)
    (w : world) :
  let w' := (run (run_evaluation replay perf comp payload) w).2 in
  (run (run_evaluation replay perf comp payload) w).1 = None /\
  config_kept (store w) (store w') /\
  (forall coll id,
     coll <> "agents" -> coll <> "pointers" ->
     store w' !! (coll, id) = store w !! (coll, id)).
Proof.
  intros w'. subst w'. split; [apply run_evaluation_returns |].
  split; [apply run_evaluation_config |].
  intros coll id Ha Hp. now apply run_evaluation_chats.
Qed.

Lemma stored_verdict_same v w w' cid :
  store w' !! ("chats", cid) = store w !! ("chats", cid) ->
  stored_verdict v w cid -> stored_verdict v w' cid.
Proof.
  intros Hs (chat_data & audit & s & Hc & Hrest). exists chat_data, audit, s.
  split; [| exact Hrest]. unfold COL_CHATS in *. now rewrite Hs.
Qed.

(** X14. Neither the Refiner nor the Evaluator changes a chat document.
    So the answer of [should_trigger_audit] for a chat is the same after
    a run of either as before it, and a chat whose audit result is FAIL
    still has it after its fix was refined, evaluated and promoted: the
    Gateway goes on enqueuing no audit for that chat. *)
Theorem fail_verdict_stays (reply replay perf comp : option llm_result)
    (refine_job evaluate_job : dict) (w : world) (cid : string) :
  let w1 := (run (refine_agent reply refine_job) w).2 in
  let w2 := (run (run_evaluation replay perf comp evaluate_job) w1).2 in
  store w2 !! ("chats", cid) = store w !! ("chats", cid) /\
  (should_trigger_audit cid w2).1 = (should_trigger_audit cid w).1 /\
  (stored_verdict "FAIL" w cid ->
   stored_verdict "FAIL" w2 cid /\
   forall reply' request,
     chat_id request = cid ->
     forall topic p,
       ~ In (BackgroundTask topic p) (new_events w2 (chat_endpoint reply' request w2).2)).
Proof.
  intros w1 w2.
  assert (Hsame : store w2 !! ("chats", cid) = store w !! ("chats", cid)).
  { subst w2 w1. rewrite run_evaluation_chats by discriminate.
    now rewrite refine_agent_frame by discriminate. }
  split; [exact Hsame |]. split.
  - apply should_trigger_audit_field. unfold audit_field, COL_CHATS. now rewrite Hsame.
  - intros Hfail.
    assert (Hfail2 : stored_verdict "FAIL" w2 cid) by now apply (stored_verdict_same _ w).
    split; [exact Hfail2 |].
    intros reply' request <- topic p Hin.
    apply chat_endpoint_enqueues_only_if in Hin.
    apply should_trigger_audit_false in Hfail2. rewrite Hfail2 in Hin. discriminate.
Qed.

End EvaluatorEffects.

Section Rejection.
Context `{Runtime}.
Variables (w : world) (payload : dict) (cid cand_id : string) (d : Z).
Variables (chat_data audit_prev candidate prompt_cfg upgrade_cfg persona : dict).
Variables (perf_json : dict) (turns : list value) (u : value).
Variables (replay_r perf_r : llm_result) (comp : option llm_result).

Hypothesis Hcid : dict_get_default "chat_id" VNone payload = VStr cid.
Hypothesis Hcand : dict_get_default "target_agent_id" VNone payload = VStr cand_id.
Hypothesis Hdepth : dict_get_default "refinement_depth" (VInt 0) payload = VInt d.
Hypothesis Hchat : store w !! ("chats", cid) = Some chat_data.
Hypothesis Haudit :
  as_dict (dict_get_default "audit_result" (VDict []) chat_data) = inr audit_prev.
Hypothesis Hturns : py_iter (dict_get_default "history" (VList []) chat_data) = inr turns.
Hypothesis Hlast : last_user_turn turns (VStr "") = inr u.
Hypothesis Hinput : py_truthy u = true.
Hypothesis Hdoc : store w !! ("agents", cand_id) = Some candidate.
Hypothesis Hprompt :
  as_dict (dict_get_default "prompt" (VDict []) candidate) = inr prompt_cfg.
Hypothesis Hupgrade :
  as_dict (dict_get_default "upgrade_config" (VDict []) candidate) = inr upgrade_cfg.
Hypothesis Hpersona :
  as_dict (dict_get_default "persona" (VDict []) prompt_cfg) = inr persona.
Hypothesis Hperf : json_loads (judge_clean (text perf_r)) = Some (VDict perf_json).
Hypothesis Hperf_fail : dict_get "verdict" perf_json = Some (VStr "FAIL").

Lemma run_evaluation_rejects :
  let w' := (run (run_evaluation (Some replay_r) (Some perf_r) comp payload) w).2 in
  let reason :=
    ("Performance Check Failed: " ++ fmt (dict_get_default "reason" VNone perf_json))%string in
  store w' = store w /\
  (d < 2 ->
   forall topic p,
     In (Publish topic p) (new_events w w') <->
     topic = TOPIC_REFINE /\
     p = [("chat_id", VStr cid); ("agent_id", VStr cand_id);
          ("failure_reason", VStr reason); ("refinement_depth", VInt (d + 1))]) /\
  (2 <= d ->
   (forall topic p, ~ In (Publish topic p) (new_events w w')) /\
   In (StatsdIncrement "autonomic.optimization.failed"
         [("agent_id:" ++ cand_id)%string; "reason:max_depth_exceeded"])
      (new_events w w')).
Proof.
  unfold run_evaluation. rewrite Hcid, Hcand, Hdepth. py_open.
  rewrite Hchat. calm_simpl. rewrite Haudit. calm_simpl. rewrite Hturns. calm_simpl.
  rewrite Hlast. calm_simpl. rewrite Hinput. calm_simpl. rewrite Hdoc. calm_simpl.
  rewrite Hprompt. calm_simpl. rewrite Hupgrade. calm_simpl. rewrite Hpersona.
  calm_simpl. rewrite Hperf. calm_simpl.
  replace (dict_get_default "verdict" VNone perf_json) with (VStr "FAIL")
    by (unfold dict_get_default; now rewrite Hperf_fail).
  calm_simpl.
  destruct (Z.lt_ge_cases d 2) as [Hd | Hd].
  - rewrite handle_failure_retry by (auto; reflexivity). calm_simpl.
    rewrite <- ?app_assoc. rewrite new_events_app.
    split; [reflexivity |]. split; [| intros; lia].
    intros _ topic p. split.
    + intros HIn. split_in HIn.
      match goal with
      | E : Publish _ _ = Publish _ _ |- _ => injection E as <- <-
      end. auto.
    + intros [-> ->]. simpl. auto 20.
  - rewrite handle_failure_alert by assumption. calm_simpl.
    rewrite <- ?app_assoc. rewrite new_events_app.
    split; [reflexivity |]. split; [intros; lia |].
    intros _. split.
    + intros topic p HIn. split_in HIn.
    + simpl. auto 20.
Qed.

End Rejection.

Section EvaluatorVerdicts.
Context `{Runtime}.

(** X15. When a run of the Evaluator reaches the performance gate and
    the judge answers FAIL, the candidate is not promoted: the store is
    unchanged. Below depth 2 the run publishes exactly one kind of
    message, a RefineJob whose [agent_id] is the rejected candidate (so
    the next refinement starts from it), whose reason is the judge's and
    whose depth is the incoming depth plus one. From depth 2 on it
    publishes nothing and counts the failed optimization. *)
Theorem rejection_retries_candidate (w : world) (payload : dict) (cid cand_id : string)
    (d : Z) (chat_data audit_prev candidate prompt_cfg upgrade_cfg persona : dict)
    (perf_json : dict) (turns : list value) (u : value)
    (replay_r perf_r : llm_result) (comp : option llm_result) :
  dict_get_default "chat_id" VNone payload = VStr cid ->
  dict_get_default "target_agent_id" VNone payload = VStr cand_id ->
  dict_get_default "refinement_depth" (VInt 0) payload = VInt d ->
  store w !! ("chats", cid) = Some chat_data ->
  as_dict (dict_get_default "audit_result" (VDict []) chat_data) = inr audit_prev ->
  py_iter (dict_get_default "history" (VList []) chat_data) = inr turns ->
  last_user_turn turns (VStr "") = inr u ->
  py_truthy u = true ->
  store w !! ("agents", cand_id) = Some candidate ->
  as_dict (dict_get_default "prompt" (VDict []) candidate) = inr prompt_cfg ->
  as_dict (dict_get_default "upgrade_config" (VDict []) candidate) = inr upgrade_cfg ->
  as_dict (dict_get_default "persona" (VDict []) prompt_cfg) = inr persona ->
  json_loads (judge_clean (text perf_r)) = Some (VDict perf_json) ->
  dict_get "verdict" perf_json = Some (VStr "FAIL") ->
  let w' := (run (run_evaluation (Some replay_r) (Some perf_r) comp payload) w).2 in
  let reason :=
    ("Performance Check Failed: " ++ fmt (dict_get_default "reason" VNone perf_json))%string in
  store w' = store w /\
  (d < 2 ->
   forall topic p,
     In (Publish topic p) (new_events w w') <->
     topic = TOPIC_REFINE /\
     p = [("chat_id", VStr cid); ("agent_id", VStr cand_id);
          ("failure_reason", VStr reason); ("refinement_depth", VInt (d + 1))]) /\
  (2 <= d ->
   (forall topic p, ~ In (Publish topic p) (new_events w w')) /\
   In (StatsdIncrement "autonomic.optimization.failed"
         [("agent_id:" ++ cand_id)%string; "reason:max_depth_exceeded"])
      (new_events w w')).
Proof.
  intros. eapply run_evaluation_rejects; eassumption.
Qed.

(** X16. The Evaluator takes for a pass every answer of a judge that is
    a JSON object whose [verdict] is not the string FAIL itself: PASS,
    but also a verdict in other letter case, a verdict that is not a
    string, or none at all. When a run reaches both gates and neither
    answer has the verdict FAIL, the candidate is promoted: the pointer
    is updated, then the candidate is marked ACTIVE, and the family's
    configuration is the candidate's from then on. *)
Theorem verdict_other_than_fail_promotes (w : world) (payload : dict)
    (cid cand_id fam : string)
    (chat_data audit_prev candidate prompt_cfg upgrade_cfg persona : dict)
    (perf_json comp_json pointer : dict) (turns rules : list value) (u : value)
    (replay_r perf_r comp_r : llm_result) :
  dict_get_default "chat_id" VNone payload = VStr cid ->
  dict_get_default "target_agent_id" VNone payload = VStr cand_id ->
  dict_get_default "original_agent_id" VNone payload = VStr fam ->
  store w !! ("chats", cid) = Some chat_data ->
  as_dict (dict_get_default "audit_result" (VDict []) chat_data) = inr audit_prev ->
  py_iter (dict_get_default "history" (VList []) chat_data) = inr turns ->
  last_user_turn turns (VStr "") = inr u ->
  py_truthy u = true ->
  store w !! ("agents", cand_id) = Some candidate ->
  as_dict (dict_get_default "prompt" (VDict []) candidate) = inr prompt_cfg ->
  as_dict (dict_get_default "upgrade_config" (VDict []) candidate) = inr upgrade_cfg ->
  as_dict (dict_get_default "persona" (VDict []) prompt_cfg) = inr persona ->
  py_iter (dict_get_default "auditor_rules" (VList []) upgrade_cfg) = inr rules ->
  json_ok (VDict prompt_cfg) = true ->
  store w !! ("pointers", fam) = Some pointer ->
  storable (pointer_fields payload cand_id candidate) = true ->
  json_loads (judge_clean (text perf_r)) = Some (VDict perf_json) ->
  dict_get_default "verdict" VNone perf_json <> VStr "FAIL" ->
  json_loads (judge_clean (text comp_r)) = Some (VDict comp_json) ->
  dict_get_default "verdict" VNone comp_json <> VStr "FAIL" ->
  let w' :=
    (run (run_evaluation (Some replay_r) (Some perf_r) (Some comp_r) payload) w).2 in
  let promoted :=
    set_field_path "metadata" "deployment_state" (VStr "ACTIVE") candidate in
  db_writes (new_events w w') =
    [DbWrite OpUpdate "pointers" fam (pointer_fields payload cand_id candidate);
     DbWrite OpUpdate "agents" cand_id [("metadata.deployment_state", VStr "ACTIVE")]] /\
  get_current_agent_config (VStr fam) w' = (Normal promoted, w').
Proof.
  intros Hcid Hcand Hfam Hchat Haudit Hturns Hlast Hinput Hdoc Hprompt Hupgrade Hpersona
    Hrules Hdump Hpointer Hstorable Hperf Hperf_pass Hcomp Hcomp_pass w' promoted.
  assert (Hnot : forall v, v <> VStr "FAIL" -> is_str "FAIL" v = false).
  { intros v Hv. destruct (is_str "FAIL" v) eqn:E; [| reflexivity].
    apply is_str_true in E. contradiction. }
  destruct (run_evaluation_promotes w payload cid cand_id fam chat_data audit_prev candidate
              prompt_cfg upgrade_cfg persona perf_json comp_json pointer turns rules u
              replay_r perf_r comp_r Hcid Hcand Hfam Hchat Haudit Hturns Hlast Hinput Hdoc
              Hprompt Hupgrade Hpersona Hperf (Hnot _ Hperf_pass) Hrules Hdump Hcomp
              (Hnot _ Hcomp_pass) Hpointer Hstorable)
    as (Hwrites & _ & Hread).
  split; [exact Hwrites | exact Hread].
Qed.

(** X17. In every world the services reach from an empty database, by
    requests and messages processed one after another, with any inputs
    and any answers of the model, every agent document is filed by its
    version, and two different agent documents of one family never
    carry the same version. *)
Theorem reachable_versions_unique (w : world) (id1 id2 : string) (d1 d2 : dict) :
  reachable w ->
  store w !! ("agents", id1) = Some d1 ->
  store w !! ("agents", id2) = Some d2 ->
  family id1 = family id2 ->
  id1 <> id2 ->
  filed_by_version id1 d1 /\ filed_by_version id2 d2 /\
  dict_get "version" d1 <> dict_get "version" d2.
Proof.
  intros Hr H1 H2 Hf Hne.
  destruct (reachable_invariants w Hr) as [Hv _].
  split; [now apply Hv |]. split; [now apply Hv |].
  intros Heq. apply Hne.
  now apply (versions_consistent_unique (store w) id1 id2 d1 d2).
Qed.

(** X18. In every world the services reach from an empty database, by
    requests and messages processed one after another, every pointer
    names an agent document that exists: [get_current_agent_config]
    returns that document and never finds a pointer dangling. *)
Theorem reachable_pointers_resolve (w : world) (fam : string) (pointer : dict) :
  reachable w ->
  store w !! ("pointers", fam) = Some pointer ->
  exists id doc,
    dict_get "active_agent_doc_ref" pointer = Some (VStr id) /\
    store w !! ("agents", id) = Some doc /\
    get_current_agent_config (VStr fam) w = (Normal doc, w).
Proof.
  intros Hr Hp.
  destruct (reachable_invariants w Hr) as [_ Hres].
  destruct (Hres fam pointer Hp) as (id & doc & Href & Hdoc).
  exists id, doc. split; [exact Href |]. split; [exact Hdoc |].
  rewrite get_current_agent_config_read. f_equal.
  unfold get_current_agent_config, COL_ROUTER, COL_AGENTS in *. py_open.
  rewrite Hp. calm_simpl. rewrite Href. calm_simpl. rewrite Hdoc. reflexivity.
Qed.

End EvaluatorVerdicts.

(** ** Acknowledging messages *)

Section Acknowledgement.
Context `{Runtime}.

(** X19. The wrapper of [listen_to_topic] never lets an exception
    escape and ends every message with one acknowledgement. A message
    whose data is a JSON object is given to the callback; it is acked
    when the callback ends without an exception, and nacked, after the
    error is printed, when it raises. A message that is not JSON, or is
    JSON but not an object, is nacked and leaves the store as it was. *)
Theorem message_acknowledged (callback_func : dict -> py unit) (data : string)
    (w : world) :
  let w' := (wrapper callback_func data w).2 in
  (wrapper callback_func data w).1 = Normal tt /\
  (forall payload,
     json_loads data = Some (VDict payload) ->
     match (run (callback_func payload) w).1 with
     | None => w' = emit Ack (run (callback_func payload) w).2
     | Some e =>
         w' = emit Nack (emit (Stdout ("Worker Error: " ++ exn_name e))
                           (run (callback_func payload) w).2)
     end) /\
  (json_loads data = None ->
   w' = emit Nack (emit (Stdout "Worker Error: JSONDecodeError") w)) /\
  (forall v,
     json_loads data = Some v -> (forall payload, v <> VDict payload) ->
     w' = emit Nack (emit (Stdout "Worker Error: AttributeError") w)).
Proof.
  intros w'. subst w'. unfold wrapper, call, run. py_open.
  split; [| split; [| split]].
  - destruct (json_loads data) as [v |]; simpl; [| reflexivity].
    destruct (as_dict v) as [e | payload]; simpl; [reflexivity |].
    destruct (callback_func payload w) as [[[] | e |] w1]; reflexivity.
  - intros payload ->. simpl.
    destruct (callback_func payload w) as [[[] | e |] w1]; reflexivity.
  - intros ->. reflexivity.
  - intros v -> Hv. destruct v; simpl; try reflexivity.
    exfalso. eapply Hv. reflexivity.
Qed.

(** X20. Every message that is a JSON object is acked by the Auditor
    and by the Evaluator, whatever the job and however it went: a job
    that failed inside the worker is not delivered again. The Refiner
    acks it as well, unless the depth of the job cannot be compared with
    2; then the message is nacked, with nothing done. *)
Theorem workers_ack (reply replay perf comp : option llm_result) (data : string)
    (payload : dict) (w : world) :
  json_loads data = Some (VDict payload) ->
  (wrapper (evaluate_interaction reply) data w).2 =
    emit Ack (run (evaluate_interaction reply payload) w).2 /\
  (wrapper (run_evaluation replay perf comp) data w).2 =
    emit Ack (run (run_evaluation replay perf comp payload) w).2 /\
  (py_ge_int (dict_get_default "refinement_depth" (VInt 0) payload) 2 <> None ->
   (wrapper (refine_agent reply) data w).2 =
     emit Ack (run (refine_agent reply payload) w).2) /\
  (py_ge_int (dict_get_default "refinement_depth" (VInt 0) payload) 2 = None ->
   store (wrapper (refine_agent reply) data w).2 = store w /\
   last (trace (wrapper (refine_agent reply) data w).2) = Some Nack).
Proof.
  intros Hdata.
  pose proof (message_acknowledged (evaluate_interaction reply) data w) as Ha.
  pose proof (message_acknowledged (run_evaluation replay perf comp) data w) as He.
  pose proof (message_acknowledged (refine_agent reply) data w) as Hr.
  cbv zeta in Ha, He, Hr.
  destruct Ha as (_ & Ha & _). destruct He as (_ & He & _). destruct Hr as (_ & Hr & _).
  specialize (Ha payload Hdata). specialize (He payload Hdata).
  specialize (Hr payload Hdata).
  rewrite evaluate_interaction_returns in Ha. rewrite run_evaluation_returns in He.
  split; [exact Ha |]. split; [exact He |]. split.
  - intros Hd. destruct ((run (refine_agent reply payload) w).1) as [e |] eqn:E;
      [| exact Hr].
    destruct (refine_agent_escapes _ _ _ _ E) as (_ & Hnone & _). contradiction.
  - intros Hd.
    assert (E : (run (refine_agent reply payload) w).1 = Some TypeError).
    { unfold refine_agent. py_open. rewrite Hd. reflexivity. }
    rewrite E in Hr. rewrite Hr. split.
    + cbn [emit store]. now destruct (refine_agent_escapes _ _ _ _ E) as (_ & _ & -> & _).
    + cbn [emit trace]. apply last_snoc.
Qed.

End Acknowledgement.

(** ** Feedback *)

Section FeedbackEffects.
Context `{Runtime}.

(** X21. A feedback message with a chat id, a score that is a non-zero
    integer and the id of an agent document that exists is counted: the
    feedback document is added, then the counter [stats.likes] (for a
    positive score) or [stats.dislikes] (for a negative one) of that
    agent document is incremented by one, or set to 1 when it was not a
    number. The other counter and every field of the agent document
    other than [stats] stay as they were, the [economics] counters among
    them. *)
Theorem feedback_counted (feedback_id : string) (payload : dict) (w : world)
    (c : value) (a : string) (doc : dict) (s : Z) :
  dict_get "chat_id" payload = Some c ->
  dict_get_default "agent_version_id" VNone payload = VStr a ->
  dict_get_default "score" VNone payload = VInt s ->
  s <> 0 ->
  let data :=
    [("chat_id", c); ("score", VInt s);
     ("comment", dict_get_default "comment" (VStr "") payload);
     ("timestamp", VTime clock)] in
  storable data = true ->
  store w !! ("feedback", feedback_id) = None ->
  store w !! ("agents", a) = Some doc ->
  let counter := if 0 <? s then "likes" else "dislikes" in
  let stats := match dict_get "stats" doc with Some (VDict m) => m | _ => [] end in
  let w' := (run (process_feedback feedback_id payload) w).2 in
  (run (process_feedback feedback_id payload) w).1 = None /\
  store w' !! ("feedback", feedback_id) = Some data /\
  exists doc' stats',
    store w' !! ("agents", a) = Some doc' /\
    dict_get "stats" doc' = Some (VDict stats') /\
    dict_get counter stats' = Some (increment 1 (dict_get counter stats)) /\
    (forall n, dict_get counter stats = Some (VInt n) ->
               dict_get counter stats' = Some (VInt (n + 1))) /\
    (forall k, k <> counter -> dict_get k stats' = dict_get k stats) /\
    (forall k, k <> "stats" -> dict_get k doc' = dict_get k doc) /\
    db_writes (new_events w w') =
      [DbWrite OpAdd "feedback" feedback_id data;
       DbWrite OpIncrement "agents" a [(("stats." ++ counter)%string, VInt 1)]].
Proof.
  intros Hc Ha Hs Hnz data Hst Hfresh Hdoc counter stats w'. subst w' data counter stats.
  unfold process_feedback, doc_add, ref_increment. rewrite Ha, Hs. py_open.
  rewrite Hc. calm_simpl. rewrite Hst. calm_simpl. rewrite Hfresh. calm_simpl.
  destruct (0 <? s) eqn:Hpos; calm_simpl.
  -
 rewrite lookup_insert_ne by discriminate. rewrite Hdoc. calm_simpl.
    rewrite <- ?app_assoc. rewrite new_events_app.
    split; [reflexivity |]. split.
    { rewrite lookup_insert_ne by discriminate. apply lookup_insert_eq. }
    eexists _, _. split; [apply lookup_insert_eq |].
    unfold set_field_path. cbv zeta.
    split; [rewrite dict_get_set; reflexivity |].
    split; [rewrite dict_get_set; reflexivity |]. split.
    { intros n Hn. rewrite dict_get_set, Hn. reflexivity. }
    split.
    { intros k Hk. rewrite dict_get_set.
      destruct (String.eqb_spec k "likes"); [contradiction | reflexivity]. }
    split; [| reflexivity].
    intros k Hk. rewrite dict_get_set.
    destruct (String.eqb_spec k "stats"); [contradiction | reflexivity].
  - assert (Hneg : (s <? 0) = true) by (apply Z.ltb_lt; apply Z.ltb_ge in Hpos; lia).
    rewrite Hneg. calm_simpl.
    rewrite lookup_insert_ne by discriminate. rewrite Hdoc. calm_simpl.
    rewrite <- ?app_assoc. rewrite new_events_app.
    split; [reflexivity |]. split.
    { rewrite lookup_insert_ne by discriminate. apply lookup_insert_eq. }
    eexists _, _. split; [apply lookup_insert_eq |].
    unfold set_field_path. cbv zeta.
    split; [rewrite dict_get_set; reflexivity |].
    split; [rewrite dict_get_set; reflexivity |]. split.
    { intros n Hn. rewrite dict_get_set, Hn. reflexivity. }
    split.
    { intros k Hk. rewrite dict_get_set.
      destruct (String.eqb_spec k "dislikes"); [contradiction | reflexivity]. }
    split; [| reflexivity].
    intros k Hk. rewrite dict_get_set.
    destruct (String.eqb_spec k "stats"); [contradiction | reflexivity].
Qed.

(** X22. What [process_feedback] does when it fails. Without a chat id
    it raises [KeyError] and nothing is written. Once the feedback
    document is added, a score that is not a number raises [TypeError],
    a score of zero raises [ValueError] (the client refuses an update
    that names no field) and an agent document that does not exist
    raises [NotFound]: in the three cases the feedback document stays
    and no agent document is changed. Whatever happens, no agent
    document is created or deleted or changes its version, and no
    pointer changes. *)
Theorem feedback_failures (feedback_id : string) (payload : dict) (w : world) :
  let w' := (run (process_feedback feedback_id payload) w).2 in
  let data c :=
    [("chat_id", c); ("score", dict_get_default "score" VNone payload);
     ("comment", dict_get_default "comment" (VStr "") payload);
     ("timestamp", VTime clock)] in
  let logged c a :=
    dict_get "chat_id" payload = Some c /\
    storable (data c) = true /\
    store w !! ("feedback", feedback_id) = None /\
    dict_get_default "agent_version_id" VNone payload = VStr a in
  (dict_get "chat_id" payload = None ->
   run (process_feedback feedback_id payload) w = (Some KeyError, w)) /\
  (forall c a,
     logged c a -> as_num (dict_get_default "score" VNone payload) = None ->
     (run (process_feedback feedback_id payload) w).1 = Some TypeError /\
     store w' = <[("feedback", feedback_id) := data c]> (store w)) /\
  (forall c a,
     logged c a -> dict_get_default "score" VNone payload = VInt 0 ->
     (run (process_feedback feedback_id payload) w).1 = Some ValueError /\
     store w' = <[("feedback", feedback_id) := data c]> (store w)) /\
  (forall c a s,
     logged c a -> dict_get_default "score" VNone payload = VInt s -> s <> 0 ->
     store w !! ("agents", a) = None ->
     (run (process_feedback feedback_id payload) w).1 = Some NotFound /\
     store w' = <[("feedback", feedback_id) := data c]> (store w)) /\
  config_kept (store w) (store w').
Proof.
  intros w' data logged. subst w' data logged. cbv beta.
  split; [| split; [| split; [| split]]].
  - intros Hc. unfold process_feedback. py_open. rewrite Hc. reflexivity.
  - intros c a (Hc & Hst & Hfresh & Ha) Hs.
    unfold process_feedback, doc_add, ref_increment, py_gt_int, py_lt_int.
    rewrite Ha. py_open. rewrite Hc. calm_simpl. rewrite Hst. calm_simpl.
    rewrite Hfresh. calm_simpl. rewrite Hs. calm_simpl. split; reflexivity.
  - intros c a (Hc & Hst & Hfresh & Ha) Hs.
    unfold process_feedback, doc_add, ref_increment.
    rewrite Hs in *. rewrite Ha. py_open. rewrite Hc. calm_simpl. rewrite Hst.
    calm_simpl. rewrite Hfresh. calm_simpl. split; reflexivity.
  - intros c a s (Hc & Hst & Hfresh & Ha) Hs Hnz Hdoc.
    unfold process_feedback, doc_add, ref_increment.
    rewrite Hs in *. rewrite Ha. py_open. rewrite Hc. calm_simpl. rewrite Hst.
    calm_simpl. rewrite Hfresh. calm_simpl.
    destruct (0 <? s) eqn:Hpos; calm_simpl.
    + rewrite lookup_insert_ne by discriminate. rewrite Hdoc. calm_simpl.
      split; reflexivity.
    + assert (Hneg : (s <? 0) = true) by (apply Z.ltb_lt; apply Z.ltb_ge in Hpos; lia).
      rewrite Hneg. calm_simpl.
      rewrite lookup_insert_ne by discriminate. rewrite Hdoc. calm_simpl.
      split; reflexivity.
  - apply process_feedback_config.
Qed.

End FeedbackEffects.

(** ** Cost, again *)

Lemma round_half_even_tenths_mono (n n' : Z) :
  n <= n' -> round_half_even (n # 10) <= round_half_even (n' # 10).
Proof.
  intros Hle. rewrite !round_half_even_tenths.
  pose proof (Z.div_mod n 10 ltac:(lia)) as Hn.
  pose proof (Z.mod_pos_bound n 10 ltac:(lia)) as Hm.
  pose proof (Z.div_mod n' 10 ltac:(lia)) as Hn'.
  pose proof (Z.mod_pos_bound n' 10 ltac:(lia)) as Hm'.
  pose proof (Z.div_le_mono n n' 10 ltac:(lia) Hle) as Hf.
  set (f := n / 10) in *. set (m := n mod 10) in *.
  set (f' := n' / 10) in *. set (m' := n' mod 10) in *.
  destruct (Z.eq_dec f f') as [<- | Hne].
  - destruct (m <? 5) eqn:E1; destruct (m' <? 5) eqn:E1';
      destruct (5 <? m) eqn:E2; destruct (5 <? m') eqn:E2';
      destruct (Z.even f); lia.
  - destruct (m <? 5); destruct (m' <? 5); destruct (5 <? m); destruct (5 <? m');
      destruct (Z.even f); destruct (Z.even f'); lia.
Qed.

Lemma round_half_even_integer (k : Z) : round_half_even (inject_Z k) = k.
Proof.
  unfold round_half_even. rewrite Qfloor_Z.
  assert (E : ((inject_Z k - inject_Z k) ?= 1 # 2)%Q = Lt).
  { unfold Qcompare, Qminus, Qplus, Qopp, inject_Z. cbn [Qnum Qden]. apply Z.compare_lt_iff. lia. }
  now rewrite E.
Qed.

(** X23. The estimated cost never decreases with the token counts: a
    call that reports at least as many input tokens and at least as many
    output tokens as another costs at least as much. *)
Theorem cost_monotone (user_input system_prompt model_name : string) (elapsed : Q)
    (response : api_response)
    (user_input' system_prompt' model_name' : string) (elapsed' : Q)
    (response' : api_response) :
  let m := metrics (generate_response user_input system_prompt model_name elapsed response) in
  let m' :=
    metrics (generate_response user_input' system_prompt' model_name' elapsed' response') in
  input_tokens m <= input_tokens m' ->
  output_tokens m <= output_tokens m' ->
  (estimated_cost m <= estimated_cost m')%Q.
Proof.
  intros m m' Hi Ho.
  pose proof (generate_response_cost user_input system_prompt model_name elapsed response)
    as Hc.
  pose proof (generate_response_cost user_input' system_prompt' model_name' elapsed'
                response') as Hc'.
  cbv zeta in Hc, Hc'. fold m in Hc. fold m' in Hc'. rewrite Hc, Hc'.
  unfold Qle. cbn [Qnum Qden]. unfold cost_micros.
  assert (H : round_half_even ((3 * input_tokens m + 25 * output_tokens m) # 10) <=
              round_half_even ((3 * input_tokens m' + 25 * output_tokens m') # 10)).
  { apply round_half_even_tenths_mono. lia. }
  lia.
Qed.

Lemma calculate_cost_value (i o : Z) :
  (calculate_cost i o == (3 * i + 25 * o) # 10000000)%Q.
Proof.
  unfold calculate_cost, py_round.
  assert (E : ((inject_Z i * (30 # 100) / inject_Z 1000000
                + inject_Z o * (250 # 100) / inject_Z 1000000)
               * inject_Z (10 ^ Z.of_nat 8) == inject_Z (30 * i + 250 * o))%Q).
  { change (10 ^ Z.of_nat 8) with 100000000.
    unfold Qeq, Qmult, Qplus, Qdiv, Qinv, inject_Z. cbn [Qnum Qden]. simpl. lia. }
  rewrite (round_half_even_comp _ _ E), round_half_even_integer.
  change (Z.to_pos (10 ^ Z.of_nat 8)) with 100000000%positive.
  unfold Qeq. cbn [Qnum Qden]. lia.
Qed.

Lemma round_half_even_tenths_near (n : Z) :
  -5 <= 10 * round_half_even (n # 10) - n <= 5.
Proof.
  rewrite round_half_even_tenths.
  pose proof (Z.div_mod n 10 ltac:(lia)) as Hn.
  pose proof (Z.mod_pos_bound n 10 ltac:(lia)) as Hm.
  destruct (n mod 10 <? 5) eqn:E1; [apply Z.ltb_lt in E1; lia |].
  apply Z.ltb_ge in E1.
  destruct (5 <? n mod 10) eqn:E2; [apply Z.ltb_lt in E2; lia |].
  apply Z.ltb_ge in E2.
  destruct (Z.even (n / 10)); lia.
Qed.

(** X24. [calculate_cost] of the traffic simulator gives, for the token
    counts of a call, the amount of [3 * inputTokens + 25 * outputTokens]
    ten-millionths of a dollar. The estimated cost that
    [generate_response] reports for the same counts is less than one
    millionth away from it. *)
Theorem simulator_cost_close (user_input system_prompt model_name : string) (elapsed : Q)
    (response : api_response) :
  let m := metrics (generate_response user_input system_prompt model_name elapsed response) in
  let i := input_tokens m in
  let o := output_tokens m in
  (calculate_cost i o == (3 * i + 25 * o) # 10000000)%Q /\
  (estimated_cost m - (1 # 1000000) < calculate_cost i o)%Q /\
  (calculate_cost i o < estimated_cost m + (1 # 1000000))%Q.
Proof.
  intros m i o.
  pose proof (generate_response_cost user_input system_prompt model_name elapsed response)
    as Hc. cbv zeta in Hc. fold m in Hc. fold i o in Hc. rewrite Hc.
  pose proof (round_half_even_tenths_near (3 * i + 25 * o)) as Hnear.
  fold (cost_micros i o) in Hnear.
  split; [apply calculate_cost_value |].
  split; rewrite calculate_cost_value;
    unfold Qlt, Qminus, Qplus, Qopp; cbn [Qnum Qden]; lia.
Qed.

(** ** The further properties on the run of the seeded family *)

Section ScenarioMore.
#[local] Existing Instance demo_runtime.

Lemma chat_turn_answer_witness :
  store Demo.after_turn =
    store (save_chat_log "chat-1" "carsalesman101" "v1" "How much is the Model Y?"
             "The Model Y is in stock." (metrics_dict (metrics Demo.reply_turn))
             Demo.seeded).2.
Proof.
  edestruct (chat_turn_answer (Some Demo.reply_turn) Demo.request Demo.seeded)
    as (cfg & r & Hcfg & Hr & Hrest).
  { vm_compute. reflexivity. }
  cbv zeta in Hrest. destruct Hrest as (_ & Hstore).
  injection Hr as <-. vm_compute in Hcfg. injection Hcfg as <-.
  exact Hstore.
Defined.

Lemma seed_resolves_witness :
  let w' := (perform_seed Demo.after_promotion).2 in
  (get_current_agent_config (VStr "carsalesman101") Demo.after_promotion).1 <>
    Normal seed_agent_data /\
  get_current_agent_config (VStr "carsalesman101") w' = (Normal seed_agent_data, w') /\
  store (@perform_seed (at_time (1700003600 # 1) demo_runtime) w').2 =
    store (@perform_seed (at_time (1700003600 # 1) demo_runtime) Demo.after_promotion).2.
Proof.
  cbv zeta.
  destruct (seed_resolves Demo.after_promotion) as (Hread & _ & _ & _ & Hlater);
    [reflexivity | reflexivity |].
  destruct (Hlater (1700003600 # 1)) as (Hstore & _); [reflexivity | reflexivity |].
  split; [vm_compute; intros E; discriminate E |].
  split; [exact Hread | exact Hstore].
Defined.

Lemma escalation_suppresses_audits_witness :
  In (Publish TOPIC_REFINE Demo.refine_job) (new_events Demo.after_turn Demo.after_audit) /\
  should_trigger_audit "chat-1" Demo.after_audit = (Normal false, Demo.after_audit).
Proof.
  assert (HIn : In (Publish TOPIC_REFINE Demo.refine_job)
                   (new_events Demo.after_turn
                      (run (evaluate_interaction (Some Demo.verdict_fail) Demo.audit_job)
                         Demo.after_turn).2)) by find_in.
  split; [exact HIn |].
  destruct (escalation_suppresses_audits _ _ _ _ _ HIn) as (cid & Hcid & _ & Hs & _).
  vm_compute in Hcid. injection Hcid as <-. exact Hs.
Defined.

Lemma audit_of_missing_chat_witness :
  let w' := (run (evaluate_interaction (Some Demo.verdict_fail) Demo.audit_job)
               Demo.seeded).2 in
  store w' = store Demo.seeded /\ Forall quiet (new_events Demo.seeded w').
Proof.
  cbv zeta.
  destruct (audit_of_missing_chat (Some Demo.verdict_fail) Demo.audit_job Demo.seeded
              "chat-1") as (Hs & Hq & _).
  - reflexivity.
  - vm_compute. reflexivity.
  - split; [exact Hs | exact Hq].
Defined.

Lemma refinement_carried_out_witness :
  In (Publish TOPIC_EVALUATE Demo.evaluate_job)
     (new_events Demo.after_audit Demo.after_refine) /\
  exists candidate,
    store Demo.after_refine =
      <[("agents", "carsalesman101_v2") := candidate]> (store Demo.after_audit).
Proof.
  edestruct (refinement_carried_out Demo.after_audit Demo.refine_job "carsalesman101")
    with (r := Demo.rewrite_ok)
    as (_ & Hstore & _ & Hpub & _);
    try (vm_compute; reflexivity).
  split; [exact Hpub |]. eexists. exact Hstore.
Defined.

Lemma rejection_retries_candidate_witness :
  store Demo.after_rejection = store Demo.after_refine /\
  In (Publish TOPIC_REFINE
        [("chat_id", VStr "chat-1"); ("agent_id", VStr "carsalesman101_v2");
         ("failure_reason", VStr "Performance Check Failed: missing email ask");
         ("refinement_depth", VInt 1)])
     (new_events Demo.after_refine Demo.after_rejection).
Proof.
  edestruct (rejection_retries_candidate Demo.after_refine Demo.evaluate_job
               "chat-1" "carsalesman101_v2" 0)
    with (replay_r := Demo.replayed) (perf_r := Demo.verdict_fail) (comp := @None llm_result)
    as (Hstore & Hretry & _);
    try (vm_compute; reflexivity).
  split; [exact Hstore |].
  apply Hretry; [lia |]. split; reflexivity.
Defined.

Lemma verdict_other_than_fail_promotes_witness :
  let lowercase := Demo.answer (Demo.json_object [("verdict", "fail")]) 400 15 in
  let silent := Demo.answer (Demo.json_object [("reason", "no verdict given")]) 400 15 in
  let w' :=
    (run (run_evaluation (Some Demo.replayed) (Some lowercase) (Some silent)
            Demo.evaluate_job) Demo.after_refine).2 in
  exists promoted,
    get_current_agent_config (VStr "carsalesman101") w' = (Normal promoted, w') /\
    dict_get "agent_id" promoted = Some (VStr "carsalesman101_v2").
Proof.
  cbv zeta.
  edestruct (verdict_other_than_fail_promotes Demo.after_refine Demo.evaluate_job
               "chat-1" "carsalesman101_v2" "carsalesman101")
    with (replay_r := Demo.replayed)
         (perf_r := Demo.answer (Demo.json_object [("verdict", "fail")]) 400 15)
         (comp_r := Demo.answer (Demo.json_object [("reason", "no verdict given")]) 400 15)
    as (_ & Hread);
    try (vm_compute; reflexivity);
    try (vm_compute; intros E; discriminate E).
  eexists. split; [exact Hread |]. vm_compute. reflexivity.
Defined.

Lemma reachable_versions_unique_witness :
  let message :=
    Demo.json_object [("chat_id", "chat-1"); ("agent_id", "carsalesman101");
                      ("failure_reason", "missing email ask")] in
  let w := (wrapper (refine_agent (Some Demo.rewrite_ok)) message Demo.seeded).2 in
  exists d1 d2,
    store w !! ("agents", "carsalesman101") = Some d1 /\
    store w !! ("agents", "carsalesman101_v2") = Some d2 /\
    dict_get "version" d1 <> dict_get "version" d2.
Proof.
  cbv zeta.
  set (w := (wrapper (refine_agent (Some Demo.rewrite_ok))
               (Demo.json_object [("chat_id", "chat-1"); ("agent_id", "carsalesman101");
                                  ("failure_reason", "missing email ask")])
               Demo.seeded).2).
  assert (Hr : reachable w).
  { eapply reachable_step; [| apply step_refine].
    eapply reachable_step; [apply reachable_empty | apply step_seed]. }
  assert (H1 : store w !! ("agents", "carsalesman101") =
               Some (default [] (store w !! ("agents", "carsalesman101"))))
    by (vm_compute; reflexivity).
  assert (H2 : store w !! ("agents", "carsalesman101_v2") =
               Some (default [] (store w !! ("agents", "carsalesman101_v2"))))
    by (vm_compute; reflexivity).
  eexists _, _. split; [exact H1 |]. split; [exact H2 |].
  apply (reachable_versions_unique w "carsalesman101" "carsalesman101_v2" _ _ Hr H1 H2).
  - vm_compute. reflexivity.
  - discriminate.
Defined.

Lemma reachable_pointers_resolve_witness :
  exists doc,
    get_current_agent_config (VStr "carsalesman101") Demo.seeded = (Normal doc, Demo.seeded).
Proof.
  edestruct (reachable_pointers_resolve Demo.seeded "carsalesman101")
    as (id & doc & _ & _ & Hread).
  - eapply reachable_step; [apply reachable_empty | apply step_seed].
  - vm_compute. reflexivity.
  - exists doc. exact Hread.
Defined.

Lemma workers_ack_witness :
  let message :=
    Demo.json_object [("chat_id", "chat-1"); ("agent_id", "carsalesman101");
                      ("user_input", "How much is the Model Y?");
                      ("bot_response", "The Model Y is in stock.")] in
  let payload :=
    [("chat_id", VStr "chat-1"); ("agent_id", VStr "carsalesman101");
     ("user_input", VStr "How much is the Model Y?");
     ("bot_response", VStr "The Model Y is in stock.")] in
  (wrapper (evaluate_interaction (Some Demo.verdict_fail)) message Demo.after_turn).2 =
    emit Ack (run (evaluate_interaction (Some Demo.verdict_fail) payload) Demo.after_turn).2.
Proof.
  cbv zeta.
  destruct (workers_ack (Some Demo.verdict_fail) None None None
              (Demo.json_object [("chat_id", "chat-1"); ("agent_id", "carsalesman101");
                                 ("user_input", "How much is the Model Y?");
                                 ("bot_response", "The Model Y is in stock.")])
              [("chat_id", VStr "chat-1"); ("agent_id", VStr "carsalesman101");
               ("user_input", VStr "How much is the Model Y?");
               ("bot_response", VStr "The Model Y is in stock.")]
              Demo.after_turn) as (Hack & _).
  - vm_compute. reflexivity.
  - exact Hack.
Defined.

Lemma feedback_counted_witness :
  let payload :=
    [("chat_id", VStr "chat-1"); ("score", VInt 1);
     ("agent_version_id", VStr "carsalesman101_v2")] in
  let w' := (run (process_feedback "feedback-1" payload) Demo.after_promotion).2 in
  exists doc' stats',
    store w' !! ("agents", "carsalesman101_v2") = Some doc' /\
    dict_get "stats" doc' = Some (VDict stats') /\
    dict_get "likes" stats' = Some (VInt 1).
Proof.
  cbv zeta.
  edestruct (feedback_counted "feedback-1"
               [("chat_id", VStr "chat-1"); ("score", VInt 1);
                ("agent_version_id", VStr "carsalesman101_v2")]
               Demo.after_promotion)
    with (s := 1)
    as (_ & _ & doc' & stats' & Hdoc & Hstats & Hlikes & _);
    try (vm_compute; reflexivity).
  { lia. }
  exists doc', stats'. split; [exact Hdoc |]. split; [exact Hstats |].
  exact Hlikes.
Defined.

Lemma cost_monotone_witness :
  let cheap := metrics (Demo.answer "The Model Y is in stock." 420 8) in
  let dear := metrics (Demo.answer "The Model Y is in stock." 900 20) in
  (estimated_cost cheap <= estimated_cost dear)%Q.
Proof.
  cbv zeta.
  apply (cost_monotone "" "" "gemini-2.5-flash" 1
           {| response_text := "The Model Y is in stock.";
              usage_metadata := Some (420, 8) |}
           "" "" "gemini-2.5-flash" 1
           {| response_text := "The Model Y is in stock.";
              usage_metadata := Some (900, 20) |});
    vm_compute; intros E; discriminate E.
Defined.

End ScenarioMore.
